(** * Local Food Wastage Management System: the data layer of [app.py]

    A shallow embedding of the SQLite store that [app.py] drives (the four
    tables of [setup_database], foreign keys switched on by
    [get_db_connection]), of its CRUD functions and of the queries that
    [main] sends to the store, followed by the properties of the written
    specification that were checked against them. *)

From Stdlib Require Import ZArith List String Ascii Bool Lia Permutation Sorted.
Import ListNotations.
Local Open Scope Z_scope.

(** ** Values *)

(** SQLite stores an INTEGER in at most eight bytes, signed. *)
Definition MAX_ROWID : Z := 9223372036854775807.
Definition MIN_INT64 : Z := -9223372036854775808.

Definition in_int64 (z : Z) : bool := (MIN_INT64 <=? z) && (z <=? MAX_ROWID).

(** The exceptions that reach the caller: those of [sqlite3], the one
    [pandas.read_sql_query] wraps every failure of a query in, and the one
    [int()] raises on a missing value. *)
Inductive exn : Type :=
| OverflowError      (* Python int too large to convert to SQLite INTEGER *)
| IntegrityError     (* FOREIGN KEY / UNIQUE constraint failed *)
| OperationalError   (* database or disk is full *)
| DatabaseError      (* pandas: Execution failed on sql ... *)
| TypeError.         (* int() argument must be ..., not 'NoneType' *)

Inductive outcome (A : Type) : Type :=
| Returned (a : A)
| Raised (e : exn).
Arguments Returned {A} a.
Arguments Raised {A} e.

(** What a Python function hands back, as far as this program goes. *)
Inductive pyval : Type :=
| PyNone
| PyInt (z : Z).

(** A [datetime.date], as [st.date_input] returns it. *)
Record date : Type := { year : Z; month : Z; day : Z }.

Definition is_leap (y : Z) : bool :=
  ((y mod 4 =? 0) && negb (y mod 100 =? 0)) || (y mod 400 =? 0).

Definition days_in_month (y m : Z) : Z :=
  if m =? 2 then (if is_leap y then 29 else 28)
  else if (m =? 4) || (m =? 6) || (m =? 9) || (m =? 11) then 30
  else 31.

(** The values the [date] type of Python holds: MINYEAR = 1, MAXYEAR = 9999. *)
Definition valid_date (d : date) : bool :=
  (1 <=? year d) && (year d <=? 9999) &&
  (1 <=? month d) && (month d <=? 12) &&
  (1 <=? day d) && (day d <=? days_in_month (year d) (month d)).

Definition digit (n : Z) : ascii := ascii_of_nat (48 + Z.to_nat (n mod 10)).

Definition pad2 (n : Z) (k : string) : string :=
  String (digit (n / 10)) (String (digit n) k).

Definition pad4 (n : Z) (k : string) : string :=
  String (digit (n / 1000)) (String (digit (n / 100)) (pad2 n k)).

(** [date.isoformat()], which the default adapter of [sqlite3] applies to a
    bound [date]: ["%04d-%02d-%02d"]. *)
Definition isoformat (d : date) : string :=
  pad4 (year d) (String "-" (pad2 (month d) (String "-" (pad2 (day d) EmptyString)))).

(** ** Rows of the four tables (lines 36-39)

    A TEXT column holds NULL or a text, an INTEGER column NULL or a 64-bit
    integer; the INTEGER PRIMARY KEY is the rowid and is never NULL.
    [Expiry_Date] holds what the adapter stored for a date: a text. *)

Module Providers.
Record row : Type := {
  Provider_ID : Z;
  Name : option string;
  Type_ : option string;
  Address : option string;
  City : option string;
  Contact : option string }.
End Providers.

Module Receivers.
Record row : Type := {
  Receiver_ID : Z;
  Name : option string;
  Type_ : option string;
  City : option string;
  Contact : option string }.
End Receivers.

Module Food_Listings.
Record row : Type := {
  Food_ID : Z;
  Food_Name : option string;
  Quantity : option Z;
  Expiry_Date : option string;
  Provider_ID : option Z;
  Provider_Type : option string;
  Location : option string;
  Food_Type : option string;
  Meal_Type : option string }.
End Food_Listings.

Module Claims.
Record row : Type := {
  Claim_ID : Z;
  Food_ID : option Z;
  Receiver_ID : option Z;
  Status : option string;
  Timestamp : option string }.
End Claims.

(** Every table has an INTEGER PRIMARY KEY AUTOINCREMENT column. *)
Class Keyed (R : Type) : Type := {
  rowid : R -> Z;
  with_rowid : Z -> R -> R }.

#[export] Instance Keyed_provider : Keyed Providers.row := {
  rowid := Providers.Provider_ID;
  with_rowid i r :=
    {| Providers.Provider_ID := i; Providers.Name := Providers.Name r;
       Providers.Type_ := Providers.Type_ r; Providers.Address := Providers.Address r;
       Providers.City := Providers.City r; Providers.Contact := Providers.Contact r |} }.

#[export] Instance Keyed_receiver : Keyed Receivers.row := {
  rowid := Receivers.Receiver_ID;
  with_rowid i r :=
    {| Receivers.Receiver_ID := i; Receivers.Name := Receivers.Name r;
       Receivers.Type_ := Receivers.Type_ r; Receivers.City := Receivers.City r;
       Receivers.Contact := Receivers.Contact r |} }.

#[export] Instance Keyed_listing : Keyed Food_Listings.row := {
  rowid := Food_Listings.Food_ID;
  with_rowid i r :=
    {| Food_Listings.Food_ID := i; Food_Listings.Food_Name := Food_Listings.Food_Name r;
       Food_Listings.Quantity := Food_Listings.Quantity r;
       Food_Listings.Expiry_Date := Food_Listings.Expiry_Date r;
       Food_Listings.Provider_ID := Food_Listings.Provider_ID r;
       Food_Listings.Provider_Type := Food_Listings.Provider_Type r;
       Food_Listings.Location := Food_Listings.Location r;
       Food_Listings.Food_Type := Food_Listings.Food_Type r;
       Food_Listings.Meal_Type := Food_Listings.Meal_Type r |} }.

#[export] Instance Keyed_claim : Keyed Claims.row := {
  rowid := Claims.Claim_ID;
  with_rowid i r :=
    {| Claims.Claim_ID := i; Claims.Food_ID := Claims.Food_ID r;
       Claims.Receiver_ID := Claims.Receiver_ID r; Claims.Status := Claims.Status r;
       Claims.Timestamp := Claims.Timestamp r |} }.

(** ** Tables

    The rows of a table in the order a scan meets them (by rowid), and the
    largest rowid the table ever held, which AUTOINCREMENT keeps in
    [sqlite_sequence]. *)
Record table (R : Type) : Type := { rows : list R; seq : Z }.
Arguments rows {R} t.
Arguments seq {R} t.

Definition empty_table {R : Type} : table R := {| rows := []; seq := 0 |}.

Record store : Type := {
  Providers_ : table Providers.row;
  Receivers_ : table Receivers.row;
  Food_Listings_ : table Food_Listings.row;
  Claims_ : table Claims.row }.

Section Rowids.
Context {R : Type} `{Keyed R}.

Definition ids (l : list R) : list Z := map rowid l.

Definition has_rowid (i : Z) (l : list R) : bool :=
  existsb (fun r => rowid r =? i) l.

(** The largest rowid in use, if the table has a row. *)
Definition max_rowid (l : list R) : option Z :=
  match l with
  | [] => None
  | r :: l' => Some (fold_left Z.max (ids l') (rowid r))
  end.

(** OP_NewRowid for an AUTOINCREMENT table: one more than the largest rowid
    in use and than the one remembered; SQLITE_FULL when either is the
    largest integer. *)
Definition new_rowid (t : table R) : outcome Z :=
  match max_rowid (rows t) with
  | None =>
      if seq t =? MAX_ROWID then Raised OperationalError
      else Returned (Z.max 1 (seq t + 1))
  | Some m =>
      if (MAX_ROWID <=? m) || (seq t =? MAX_ROWID) then Raised OperationalError
      else Returned (Z.max (m + 1) (seq t + 1))
  end.

(** The row goes where its rowid puts it in the scan order. *)
Fixpoint place (r : R) (l : list R) : list R :=
  match l with
  | [] => [r]
  | r' :: l' => if rowid r <? rowid r' then r :: l else r' :: place r l'
  end.

(** INSERT of one row: a rowid is given (bulk load) or assigned. *)
Definition insert_row (explicit : option Z) (r : R) (t : table R) : outcome (table R) :=
  match explicit with
  | Some i =>
      if has_rowid i (rows t) then Raised IntegrityError
      else Returned {| rows := place (with_rowid i r) (rows t); seq := Z.max (seq t) i |}
  | None =>
      match new_rowid t with
      | Raised e => Raised e
      | Returned i => Returned {| rows := place (with_rowid i r) (rows t); seq := i |}
      end
  end.

(** DELETE ... WHERE: the rows that go and the table that stays. *)
Definition delete_where (p : R -> bool) (t : table R) : list R * table R :=
  (filter p (rows t), {| rows := filter (fun r => negb (p r)) (rows t); seq := seq t |}).
End Rowids.

(** A foreign key column is satisfied by NULL or by a key of the parent. *)
Definition fk_ok {R : Type} `{Keyed R} (fk : option Z) (parent : table R) : bool :=
  match fk with
  | None => true
  | Some i => has_rowid i (rows parent)
  end.

Definition refers_to (fk : option Z) (key : Z) : bool :=
  match fk with
  | None => false
  | Some i => i =? key
  end.

(** ** The connection (lines 18-27)

    [sqlite3.connect] opens the file with foreign keys off;
    [get_db_connection] switches them on before it returns the connection.
    [D] is what the connection sees of the file: the tables that may still
    be missing before [setup_database], the [store] after it. *)
Record connection (D : Type) : Type := { foreign_keys : bool; db : D }.
Arguments foreign_keys {D} c.
Arguments db {D} c.

Definition sqlite3_connect {D : Type} (file : D) : connection D :=
  {| foreign_keys := false; db := file |}.

Definition pragma_foreign_keys {D : Type} (on : bool) (c : connection D) : connection D :=
  {| foreign_keys := on; db := db c |}.

Definition get_db_connection {D : Type} (file : D) : connection D :=
  pragma_foreign_keys true (sqlite3_connect file).

(** A function on the connection returns or raises, and leaves the
    connection in a state. *)
Definition Conn (A : Type) : Type := connection store -> outcome A * connection store.

Definition ret {A : Type} (a : A) : Conn A := fun c => (Returned a, c).

Definition raise {A : Type} (e : exn) : Conn A := fun c => (Raised e, c).

Definition bind {A B : Type} (m : Conn A) (k : A -> Conn B) : Conn B :=
  fun c =>
    match m c with
    | (Returned a, c') => k a c'
    | (Raised e, c') => (Raised e, c')
    end.

Declare Scope conn_scope.
Delimit Scope conn_scope with conn.
Notation "x <- m ;; k" := (bind m (fun x => k))
  (at level 61, m at next level, right associativity) : conn_scope.
Notation "m ;; k" := (bind m (fun _ => k))
  (at level 61, right associativity) : conn_scope.

(** [cursor.execute]: a statement that fails changes nothing and raises. *)
Definition execute (stmt : bool -> store -> outcome store) : Conn unit :=
  fun c =>
    match stmt (foreign_keys c) (db c) with
    | Returned s => (Returned tt, {| foreign_keys := foreign_keys c; db := s |})
    | Raised e => (Raised e, c)
    end.

(** [conn.commit()]: every statement above ran alone in its transaction and
    [db] is the state it left, which the commit makes durable. *)
Definition commit : Conn unit := fun c => (Returned tt, c).

(** Binding a Python int to a [?]. *)
Definition bind_int (z : Z) : outcome Z :=
  if in_int64 z then Returned z else Raised OverflowError.

Definition bind_opt_int (z : option Z) : outcome (option Z) :=
  match z with
  | None => Returned None
  | Some i =>
      match bind_int i with
      | Returned i' => Returned (Some i')
      | Raised e => Raised e
      end
  end.

(** ** The statements of the CRUD functions *)

Definition with_Providers (t : table Providers.row) (s : store) : store :=
  {| Providers_ := t; Receivers_ := Receivers_ s;
     Food_Listings_ := Food_Listings_ s; Claims_ := Claims_ s |}.

Definition with_Receivers (t : table Receivers.row) (s : store) : store :=
  {| Providers_ := Providers_ s; Receivers_ := t;
     Food_Listings_ := Food_Listings_ s; Claims_ := Claims_ s |}.

Definition with_Food_Listings (t : table Food_Listings.row) (s : store) : store :=
  {| Providers_ := Providers_ s; Receivers_ := Receivers_ s;
     Food_Listings_ := t; Claims_ := Claims_ s |}.

Definition with_Claims (t : table Claims.row) (s : store) : store :=
  {| Providers_ := Providers_ s; Receivers_ := Receivers_ s;
     Food_Listings_ := Food_Listings_ s; Claims_ := t |}.

(** INSERT INTO Providers: the table has no parent. *)
Definition insert_into_Providers (explicit : option Z) (r : Providers.row)
    (fk : bool) (s : store) : outcome store :=
  match insert_row explicit r (Providers_ s) with
  | Raised e => Raised e
  | Returned t => Returned (with_Providers t s)
  end.

Definition insert_into_Receivers (explicit : option Z) (r : Receivers.row)
    (fk : bool) (s : store) : outcome store :=
  match insert_row explicit r (Receivers_ s) with
  | Raised e => Raised e
  | Returned t => Returned (with_Receivers t s)
  end.

(** INSERT INTO Food_Listings: FOREIGN KEY (Provider_ID) REFERENCES Providers,
    checked when the statement ends. *)
Definition insert_into_Food_Listings (explicit : option Z) (r : Food_Listings.row)
    (fk : bool) (s : store) : outcome store :=
  match insert_row explicit r (Food_Listings_ s) with
  | Raised e => Raised e
  | Returned t =>
      if fk && negb (fk_ok (Food_Listings.Provider_ID r) (Providers_ s))
      then Raised IntegrityError
      else Returned (with_Food_Listings t s)
  end.

(** INSERT INTO Claims: two foreign keys. *)
Definition insert_into_Claims (explicit : option Z) (r : Claims.row)
    (fk : bool) (s : store) : outcome store :=
  match insert_row explicit r (Claims_ s) with
  | Raised e => Raised e
  | Returned t =>
      if fk && negb (fk_ok (Claims.Food_ID r) (Food_Listings_ s)
                     && fk_ok (Claims.Receiver_ID r) (Receivers_ s))
      then Raised IntegrityError
      else Returned (with_Claims t s)
  end.

(** ON DELETE CASCADE of Claims.Food_ID, fired for one deleted listing. *)
Definition cascade_to_Claims (gone : Food_Listings.row) (t : table Claims.row)
    : table Claims.row :=
  snd (delete_where (fun c => refers_to (Claims.Food_ID c) (rowid gone)) t).

(** DELETE FROM Food_Listings WHERE p: each deleted row fires the cascade. *)
Definition delete_from_Food_Listings (p : Food_Listings.row -> bool)
    (fk : bool) (s : store) : store :=
  let (gone, t) := delete_where p (Food_Listings_ s) in
  let cl := if fk then fold_left (fun cl l => cascade_to_Claims l cl) gone (Claims_ s)
            else Claims_ s in
  with_Claims cl (with_Food_Listings t s).

(** ON DELETE CASCADE of Food_Listings.Provider_ID, fired for one deleted
    provider: a DELETE on the child table, with its own cascade. *)
Definition cascade_to_Food_Listings (gone : Providers.row) (fk : bool) (s : store)
    : store :=
  delete_from_Food_Listings
    (fun l => refers_to (Food_Listings.Provider_ID l) (rowid gone)) fk s.

(** DELETE FROM Providers WHERE p. *)
Definition delete_from_Providers (p : Providers.row -> bool)
    (fk : bool) (s : store) : store :=
  let (gone, t) := delete_where p (Providers_ s) in
  let s' := with_Providers t s in
  if fk then fold_left (fun s1 g => cascade_to_Food_Listings g fk s1) gone s' else s'.

(** ** CRUD functions (lines 58-77) *)
Local Open Scope conn_scope.

Definition lift {A : Type} (o : outcome A) : Conn A :=
  fun c => (match o with Returned a => Returned a | Raised e => Raised e end, c).

(** INSERT INTO Providers (Name, Type, Address, City, Contact) VALUES (?, ?, ?, ?, ?) *)
Definition add_provider (name p_type address city contact : option string)
    : Conn pyval :=
  execute (insert_into_Providers None
    {| Providers.Provider_ID := 0; Providers.Name := name; Providers.Type_ := p_type;
       Providers.Address := address; Providers.City := city;
       Providers.Contact := contact |}) ;;
  commit ;;
  ret PyNone.

(** INSERT INTO Food_Listings (Food_Name, Quantity, Expiry_Date, Provider_ID,
    Provider_Type, Location, Food_Type, Meal_Type) VALUES (?, ..., ?) *)
Definition add_food_listing (food_name : option string) (quantity : Z)
    (expiry_date : date) (provider_id : option Z)
    (provider_type location food_type meal_type : option string) : Conn pyval :=
  q <- lift (bind_int quantity) ;;
  p <- lift (bind_opt_int provider_id) ;;
  execute (insert_into_Food_Listings None
    {| Food_Listings.Food_ID := 0; Food_Listings.Food_Name := food_name;
       Food_Listings.Quantity := Some q;
       Food_Listings.Expiry_Date := Some (isoformat expiry_date);
       Food_Listings.Provider_ID := p;
       Food_Listings.Provider_Type := provider_type;
       Food_Listings.Location := location;
       Food_Listings.Food_Type := food_type;
       Food_Listings.Meal_Type := meal_type |}) ;;
  commit ;;
  ret PyNone.

(** DELETE FROM Food_Listings WHERE Food_ID = ? *)
Definition delete_listing (food_id : Z) : Conn pyval :=
  i <- lift (bind_int food_id) ;;
  execute (fun fk s =>
    Returned (delete_from_Food_Listings (fun l => Food_Listings.Food_ID l =? i) fk s)) ;;
  commit ;;
  ret PyNone.

(** DELETE FROM Providers WHERE Provider_ID = ? *)
Definition delete_provider (provider_id : Z) : Conn pyval :=
  i <- lift (bind_int provider_id) ;;
  execute (fun fk s =>
    Returned (delete_from_Providers (fun p => Providers.Provider_ID p =? i) fk s)) ;;
  commit ;;
  ret PyNone.

Local Close Scope conn_scope.

(** ** setup_database (lines 29-55) *)

(** The file as a new connection finds it: a table may not have been
    created yet. *)
Record db_file : Type := {
  file_Providers : option (table Providers.row);
  file_Receivers : option (table Receivers.row);
  file_Food_Listings : option (table Food_Listings.row);
  file_Claims : option (table Claims.row) }.

(** The file a store is kept in. *)
Definition file_of (s : store) : db_file :=
  {| file_Providers := Some (Providers_ s); file_Receivers := Some (Receivers_ s);
     file_Food_Listings := Some (Food_Listings_ s); file_Claims := Some (Claims_ s) |}.

(** CREATE TABLE IF NOT EXISTS *)
Definition create_table_if_not_exists {R : Type} (t : option (table R)) : table R :=
  match t with
  | Some t' => t'
  | None => empty_table
  end.

Definition create_tables (f : db_file) : store :=
  {| Providers_ := create_table_if_not_exists (file_Providers f);
     Receivers_ := create_table_if_not_exists (file_Receivers f);
     Food_Listings_ := create_table_if_not_exists (file_Food_Listings f);
     Claims_ := create_table_if_not_exists (file_Claims f) |}.

(** One line of a data file: the cell of the key column, when the file has
    that column and the cell is filled, and the cells of the other columns
    (the key field of [line_values] is not read). *)
Record csv_line (R : Type) : Type := { line_rowid : option Z; line_values : R }.
Arguments line_rowid {R} _.
Arguments line_values {R} _.

(** [os.path.exists] says no; or [pd.read_csv] or [to_sql] raise before a
    line is inserted (no such column, a cell that does not bind); or the
    file parses into lines. *)
Inductive csv_file (R : Type) : Type :=
| NoFile
| Unreadable
| Lines (ls : list (csv_line R)).
Arguments NoFile {R}.
Arguments Unreadable {R}.
Arguments Lines {R} ls.

(** The directory [DATA_DIR]. *)
Record data_dir : Type := {
  providers_data_csv : csv_file Providers.row;
  receivers_data_csv : csv_file Receivers.row;
  food_listings_data_csv : csv_file Food_Listings.row;
  claims_data_csv : csv_file Claims.row }.

(** [df.to_sql(table_name, conn, if_exists='append', index=False)]: one
    INSERT per line, in one transaction. *)
Fixpoint executemany {R : Type} (insert : option Z -> R -> bool -> store -> outcome store)
    (ls : list (csv_line R)) (fk : bool) (s : store) : outcome store :=
  match ls with
  | [] => Returned s
  | l :: ls' =>
      match insert (line_rowid l) (line_values l) fk s with
      | Raised e => Raised e
      | Returned s' => executemany insert ls' fk s'
      end
  end.

(** The body of the second loop for one table: the count, the file, the
    load; a load that raises is rolled back by pandas and reported with
    [st.error], which [log] collects (by table name). *)
Definition load_data {R : Type} (table_name : string) (count : store -> nat)
    (csv : csv_file R) (insert : option Z -> R -> bool -> store -> outcome store)
    (st : connection store * list string) : connection store * list string :=
  let (c, log) := st in
  if Nat.eqb (count (db c)) 0 then
    match csv with
    | NoFile => (c, log)
    | Unreadable => (c, log ++ [table_name])
    | Lines ls =>
        match executemany insert ls (foreign_keys c) (db c) with
        | Returned s => ({| foreign_keys := foreign_keys c; db := s |}, log)
        | Raised _ => (c, log ++ [table_name])
        end
    end
  else (c, log).

Definition count_rows {R : Type} (t : table R) : nat := List.length (rows t).

(** The four turns of the loop of line 43, in the order of the dict. *)
Definition load_Providers (data : data_dir) :=
  load_data "Providers" (fun s => count_rows (Providers_ s))
    (providers_data_csv data) insert_into_Providers.

Definition load_Receivers (data : data_dir) :=
  load_data "Receivers" (fun s => count_rows (Receivers_ s))
    (receivers_data_csv data) insert_into_Receivers.

Definition load_Food_Listings (data : data_dir) :=
  load_data "Food_Listings" (fun s => count_rows (Food_Listings_ s))
    (food_listings_data_csv data) insert_into_Food_Listings.

Definition load_Claims (data : data_dir) :=
  load_data "Claims" (fun s => count_rows (Claims_ s))
    (claims_data_csv data) insert_into_Claims.

(** The connection with the four tables, and what [st.error] showed. *)
Definition setup_database (data : data_dir) (c : connection db_file)
    : connection store * list string :=
  let c0 := {| foreign_keys := foreign_keys c; db := create_tables (db c) |} in
  let st := load_Claims data
              (load_Food_Listings data
                 (load_Receivers data
                    (load_Providers data (c0, [])))) in
  (snd (commit (fst st)), snd st).

(** ** The queries of [main]

    [pd.read_sql_query] returns the rows of the answer as a frame, here the
    list of its rows, and raises [DatabaseError] whatever made the query
    fail. *)
Definition read_sql_query {A : Type} (answer : outcome A) : outcome A :=
  match answer with
  | Returned a => Returned a
  | Raised _ => Raised DatabaseError
  end.

(** [int(x)] of a cell: a NULL of the answer is [None] in the frame. *)
Definition py_int (cell : option Z) : outcome Z :=
  match cell with
  | Some z => Returned z
  | None => Raised TypeError
  end.

(** The order of stored values: NULL before every text, texts byte by byte;
    NULL before every integer. *)
Definition text_compare (a b : option string) : comparison :=
  match a, b with
  | None, None => Eq
  | None, Some _ => Lt
  | Some _, None => Gt
  | Some x, Some y => String.compare x y
  end.

Definition text_leb (a b : option string) : bool :=
  match text_compare a b with
  | Gt => false
  | _ => true
  end.

Definition int_leb (a b : option Z) : bool :=
  match a, b with
  | None, _ => true
  | Some _, None => false
  | Some x, Some y => x <=? y
  end.

Section OrderBy.
Context {A : Type} (leb : A -> A -> bool).

(** A row goes before the first row that does not come before it, so rows
    that compare equal keep the order of the scan. *)
Fixpoint sorter_insert (x : A) (l : list A) : list A :=
  match l with
  | [] => [x]
  | y :: l' => if leb x y then x :: l else y :: sorter_insert x l'
  end.

Definition order_by (l : list A) : list A := fold_right sorter_insert [] l.
End OrderBy.

(** GROUP BY on a text column: the groups in the order of their keys, each
    with its rows in the order of the scan. *)
Fixpoint group_add {V : Type} (k : option string) (v : V)
    (gs : list (option string * list V)) : list (option string * list V) :=
  match gs with
  | [] => [(k, [v])]
  | (k', vs) :: gs' =>
      match text_compare k k' with
      | Eq => (k', vs ++ [v]) :: gs'
      | Lt => (k, [v]) :: gs
      | Gt => (k', vs) :: group_add k v gs'
      end
  end.

Definition group_by {A V : Type} (key : A -> option string) (val : A -> V) (l : list A)
    : list (option string * list V) :=
  fold_left (fun gs a => group_add (key a) (val a) gs) l [].

(** SUM over an INTEGER column: NULLs are skipped, the sum of no value is
    NULL, and an addition that leaves the 64-bit range makes the query fail
    with "integer overflow". *)
Record sum_ctx : Type := { cnt : nat; iSum : Z; overflow : bool }.

Definition sum_step (p : sum_ctx) (v : option Z) : sum_ctx :=
  match v with
  | None => p
  | Some x =>
      if overflow p then {| cnt := S (cnt p); iSum := iSum p; overflow := true |}
      else if in_int64 (iSum p + x)
           then {| cnt := S (cnt p); iSum := iSum p + x; overflow := false |}
           else {| cnt := S (cnt p); iSum := iSum p; overflow := true |}
  end.

Definition sum_finalize (p : sum_ctx) : outcome (option Z) :=
  match cnt p with
  | O => Returned None
  | S _ => if overflow p then Raised OperationalError else Returned (Some (iSum p))
  end.

Definition sql_sum (vs : list (option Z)) : outcome (option Z) :=
  sum_finalize (fold_left sum_step vs {| cnt := 0; iSum := 0; overflow := false |}).

(** SELECT * FROM Food_Listings ORDER BY Expiry_Date ASC (line 151) *)
Definition all_listings (s : store) : list Food_Listings.row :=
  order_by (fun a b => text_leb (Food_Listings.Expiry_Date a) (Food_Listings.Expiry_Date b))
           (rows (Food_Listings_ s)).

(** Report 4 (lines 198-201):
    SELECT SUM(Quantity) AS TotalQuantity FROM Food_Listings;
    an aggregate without GROUP BY answers with one row. The metric shown,
    if one is. *)
Definition total_quantity_available (s : store) : outcome (option Z) :=
  match read_sql_query
          (match sql_sum (map Food_Listings.Quantity (rows (Food_Listings_ s))) with
           | Returned total => Returned [total]
           | Raised e => Raised e
           end) with
  | Raised e => Raised e
  | Returned df =>
      match df with
      | [] => Returned None
      | TotalQuantity :: _ =>
          match py_int TotalQuantity with
          | Returned n => Returned (Some n)
          | Raised e => Raised e
          end
      end
  end.

(** FROM Providers p JOIN Food_Listings fl ON p.Provider_ID = fl.Provider_ID *)
Definition join_Providers_Food_Listings (s : store)
    : list (Providers.row * Food_Listings.row) :=
  flat_map (fun p =>
              map (pair p)
                  (filter (fun fl => refers_to (Food_Listings.Provider_ID fl)
                                               (Providers.Provider_ID p))
                          (rows (Food_Listings_ s))))
           (rows (Providers_ s)).

Fixpoint sum_groups (gs : list (option string * list (option Z)))
    : outcome (list (option string * option Z)) :=
  match gs with
  | [] => Returned []
  | (k, vs) :: gs' =>
      match sql_sum vs, sum_groups gs' with
      | Returned total, Returned r => Returned ((k, total) :: r)
      | Raised e, _ => Raised e
      | _, Raised e => Raised e
      end
  end.

(** Report 2 (lines 195-197):
    SELECT p.Type, SUM(fl.Quantity) AS TotalQuantityDonated FROM ... GROUP BY
    p.Type ORDER BY TotalQuantityDonated DESC LIMIT 1; *)
Definition top_provider_type (s : store) : outcome (option (option string * Z)) :=
  match read_sql_query
          (match sum_groups (group_by (fun pf => Providers.Type_ (fst pf))
                                      (fun pf => Food_Listings.Quantity (snd pf))
                                      (join_Providers_Food_Listings s)) with
           | Returned totals =>
               Returned (firstn 1 (order_by (fun a b => int_leb (snd b) (snd a)) totals))
           | Raised e => Raised e
           end) with
  | Raised e => Raised e
  | Returned df =>
      match df with
      | [] => Returned None
      | (Type_, TotalQuantityDonated) :: _ =>
          match py_int TotalQuantityDonated with
          | Returned n => Returned (Some (Type_, n))
          | Raised e => Raised e
          end
      end
  end.

(** Report 5 (lines 210-212):
    SELECT Location, COUNT(Food_ID) AS NumberOfListings FROM Food_Listings
    GROUP BY Location ORDER BY NumberOfListings DESC LIMIT 1; *)
Definition city_listings (s : store) : outcome (option (option string * Z)) :=
  match read_sql_query
          (Returned
             (firstn 1
                (order_by (fun a b => snd b <=? snd a)
                   (map (fun g => (fst g, Z.of_nat (List.length (snd g))))
                        (group_by Food_Listings.Location Food_Listings.Food_ID
                                  (rows (Food_Listings_ s))))))) with
  | Raised e => Raised e
  | Returned df =>
      match df with
      | [] => Returned None
      | (Location, NumberOfListings) :: _ => Returned (Some (Location, NumberOfListings))
      end
  end.

(** ** Report 3: a query whose text is built from the city (lines 204-208)

    [f"SELECT ... WHERE City = '{selected_city}';"] puts the city between
    two quotes of the statement, so what SQLite compares [City] with is
    what its tokenizer finds there. *)

Inductive token : Type :=
| TString (s : string)   (* '...' with '' for a quote inside *)
| TSemi
| TOther                 (* any other token, one per character outside names in quotes *)
| TIllegal.              (* a literal, a quoted name or a bracket that never closes *)

Inductive lex_state : Type :=
| Code
| Quoted (q : ascii) (acc : string)
| QuoteSeen (q : ascii) (acc : string)
| Bracket
| Minus
| LineComment
| Slash
| BlockOpen
| BlockComment
| BlockStar.

Definition squote : ascii := ascii_of_nat 39.
Definition dquote : ascii := ascii_of_nat 34.
Definition backquote : ascii := ascii_of_nat 96.

Definition is_space (c : ascii) : bool :=
  let n := nat_of_ascii c in
  Nat.eqb n 32 || Nat.eqb n 9 || Nat.eqb n 10 || Nat.eqb n 12 || Nat.eqb n 13.

Definition snoc (s : string) (c : ascii) : string := (s ++ String c EmptyString)%string.

Definition closed (q : ascii) (acc : string) : token :=
  if Ascii.eqb q squote then TString acc else TOther.

(** A character met between tokens. *)
Definition lex_code (c : ascii) (toks : list token) : lex_state * list token :=
  if Ascii.eqb c squote || Ascii.eqb c dquote || Ascii.eqb c backquote then (Quoted c EmptyString, toks)
  else if Ascii.eqb c "["%char then (Bracket, toks)
  else if Ascii.eqb c "-"%char then (Minus, toks)
  else if Ascii.eqb c "/"%char then (Slash, toks)
  else if Ascii.eqb c ";"%char then (Code, toks ++ [TSemi])
  else if is_space c then (Code, toks)
  else (Code, toks ++ [TOther]).

Definition lex_step (st : lex_state * list token) (c : ascii) : lex_state * list token :=
  let (state, toks) := st in
  match state with
  | Code => lex_code c toks
  | Quoted q acc =>
      if Ascii.eqb c q then (QuoteSeen q acc, toks) else (Quoted q (snoc acc c), toks)
  | QuoteSeen q acc =>
      if Ascii.eqb c q then (Quoted q (snoc acc q), toks)
      else lex_code c (toks ++ [closed q acc])
  | Bracket => if Ascii.eqb c "]"%char then (Code, toks ++ [TOther]) else (Bracket, toks)
  | Minus => if Ascii.eqb c "-"%char then (LineComment, toks) else lex_code c (toks ++ [TOther])
  | LineComment => if Nat.eqb (nat_of_ascii c) 10 then (Code, toks) else (LineComment, toks)
  | Slash => if Ascii.eqb c "*"%char then (BlockOpen, toks) else lex_code c (toks ++ [TOther])
  | BlockOpen | BlockComment =>
      if Ascii.eqb c "*"%char then (BlockStar, toks) else (BlockComment, toks)
  | BlockStar =>
      if Ascii.eqb c "/"%char then (Code, toks)
      else if Ascii.eqb c "*"%char then (BlockStar, toks)
      else (BlockComment, toks)
  end.

Definition lex_end (st : lex_state * list token) : list token :=
  let (state, toks) := st in
  match state with
  | Code | LineComment | BlockComment | BlockStar => toks
  | Quoted _ _ | Bracket => toks ++ [TIllegal]
  | QuoteSeen q acc => toks ++ [closed q acc]
  | Minus | Slash => toks ++ [TOther]
  | BlockOpen => toks ++ [TOther; TOther]
  end.

Fixpoint lex_from (st : lex_state * list token) (text : string) : list token :=
  match text with
  | EmptyString => lex_end st
  | String c text' => lex_from (lex_step st c) text'
  end.

Definition tokens (text : string) : list token := lex_from (Code, []) text.

Definition is_illegal (t : token) : bool :=
  match t with
  | TIllegal => true
  | _ => false
  end.

(** What stands after [WHERE City =]: one literal and the end of the
    statement; or a text that cannot be executed (a token that never closes,
    or something after the [;], which [sqlite3] refuses as a second
    statement); or a longer expression, whose grammar is not modelled. *)
Inductive operand : Type :=
| Literal (x : string)
| Refused
| Longer.

Definition operand_of (toks : list token) : operand :=
  if existsb is_illegal toks then Refused
  else match toks with
       | [TString x] => Literal x
       | [TString x; TSemi] => Literal x
       | _ => if existsb (fun t => match t with TSemi => true | _ => false end)
                         (removelast toks)
              then Refused else Longer
       end.

Definition query_head : string :=
  "SELECT Name AS ProviderName, Contact, Address FROM Providers WHERE City = ".

(** The f-string of line 207. *)
Definition provider_contacts_sql (selected_city : string) : string :=
  (query_head ++ "'" ++ selected_city ++ "';")%string.

Fixpoint has_nul (text : string) : bool :=
  match text with
  | EmptyString => false
  | String c text' => Nat.eqb (nat_of_ascii c) 0 || has_nul text'
  end.

Fixpoint after_head (head text : string) : option string :=
  match head, text with
  | EmptyString, _ => Some text
  | String a head', String b text' => if Ascii.eqb a b then after_head head' text' else None
  | String _ _, EmptyString => None
  end.

Inductive answer (A : Type) : Type :=
| Rows (df : list A)
| Fails (e : exn)
| Unmodelled.
Arguments Rows {A} df.
Arguments Fails {A} e.
Arguments Unmodelled {A}.

Definition text_eqb (cell : option string) (x : string) : bool :=
  match cell with
  | Some y => String.eqb y x
  | None => false
  end.

(** A statement of the shape of [query_head] followed by an operand. *)
Definition select_contacts_where_city (sql : string) (s : store)
    : answer (option string * option string * option string) :=
  if has_nul sql then Fails DatabaseError
  else match after_head query_head sql with
       | None => Unmodelled
       | Some rest =>
           match operand_of (tokens rest) with
           | Literal x =>
               Rows (map (fun p => (Providers.Name p, Providers.Contact p, Providers.Address p))
                         (filter (fun p => text_eqb (Providers.City p) x)
                                 (rows (Providers_ s))))
           | Refused => Fails DatabaseError
           | Longer => Unmodelled
           end
       end.

(** [if selected_city:] *)
Definition truthy (v : option string) : bool :=
  match v with
  | None | Some EmptyString => false
  | Some _ => true
  end.

(** Lines 206-208: the frame shown for the selected city, if one is. *)
Definition provider_contacts (s : store) (selected_city : option string)
    : option (answer (option string * option string * option string)) :=
  match selected_city with
  | Some city =>
      if truthy selected_city
      then Some (select_contacts_where_city (provider_contacts_sql city) s)
      else None
  | None => None
  end.

(** ** The calls [main] makes on the store

    Every run of the script opens the connection, sets the database up and
    makes at most one of the four calls of the CRUD tabs. [run] below is the
    sequence of the calls alone, each on a new connection; the set-up
    between them, which loads a data file again into a table it finds
    empty, is part of [script_runs] further down. *)
Inductive call : Type :=
| Call_add_provider (name p_type address city contact : option string)
| Call_add_food_listing (food_name : option string) (quantity : Z) (expiry_date : date)
    (provider_id : option Z) (provider_type location food_type meal_type : option string)
| Call_delete_listing (food_id : Z)
| Call_delete_provider (provider_id : Z).

Definition perform (k : call) : Conn pyval :=
  match k with
  | Call_add_provider name p_type address city contact =>
      add_provider name p_type address city contact
  | Call_add_food_listing food_name quantity expiry_date provider_id provider_type
      location food_type meal_type =>
      add_food_listing food_name quantity expiry_date provider_id provider_type
        location food_type meal_type
  | Call_delete_listing food_id => delete_listing food_id
  | Call_delete_provider provider_id => delete_provider provider_id
  end.

(** The store after a sequence of calls, each on a new connection; a call
    that raises leaves the store as it was. *)
Definition run (calls : list call) (s : store) : store :=
  fold_left (fun s1 k => db (snd (perform k (get_db_connection s1)))) calls s.

(** The form of line 132: [st.number_input("Quantity", min_value=1, step=1)]. *)
Definition from_form (k : call) : Prop :=
  match k with
  | Call_add_food_listing _ quantity _ _ _ _ _ _ => 1 <= quantity
  | _ => True
  end.

(** A call whose date is a value of the [date] type. *)
Definition dated (k : call) : Prop :=
  match k with
  | Call_add_food_listing _ _ expiry_date _ _ _ _ _ => valid_date expiry_date = true
  | _ => True
  end.

Definition positive_quantity (l : Food_Listings.row) : Prop :=
  exists q, Food_Listings.Quantity l = Some q /\ 0 < q.

Definition holds_date (l : Food_Listings.row) : Prop :=
  exists d, valid_date d = true /\ Food_Listings.Expiry_Date l = Some (isoformat d).

(** The order of the calendar. *)
Definition date_compare (a b : date) : comparison :=
  match year a ?= year b with
  | Eq => match month a ?= month b with
          | Eq => day a ?= day b
          | o => o
          end
  | o => o
  end.

Definition date_le (a b : date) : Prop := date_compare a b <> Gt.

(** Listing [a] expires no later than listing [b]: of whatever dates the
    two stored texts are the ISO texts, the first is not after the second. *)
Definition expires_no_later (a b : Food_Listings.row) : Prop :=
  forall da db,
    valid_date da = true -> valid_date db = true ->
    Food_Listings.Expiry_Date a = Some (isoformat da) ->
    Food_Listings.Expiry_Date b = Some (isoformat db) ->
    date_le da db.

Definition empty_store : store :=
  {| Providers_ := empty_table; Receivers_ := empty_table;
     Food_Listings_ := empty_table; Claims_ := empty_table |}.

(** ** The first scenario of the specification

    Provider "Joe's Deli" is row 1 and owns listing 1, "Sandwiches"; one
    receiver has a claim on the listing. *)
Definition Joes_Deli : Providers.row :=
  {| Providers.Provider_ID := 1; Providers.Name := Some "Joe's Deli"%string;
     Providers.Type_ := Some "Restaurant"%string;
     Providers.Address := Some "1 Main St"%string;
     Providers.City := Some "Springfield"%string;
     Providers.Contact := Some "555-0100"%string |}.

Definition Sandwiches : Food_Listings.row :=
  {| Food_Listings.Food_ID := 1; Food_Listings.Food_Name := Some "Sandwiches"%string;
     Food_Listings.Quantity := Some 20;
     Food_Listings.Expiry_Date := Some "2024-01-10"%string;
     Food_Listings.Provider_ID := Some 1;
     Food_Listings.Provider_Type := Some "Restaurant"%string;
     Food_Listings.Location := Some "Springfield"%string;
     Food_Listings.Food_Type := Some "Vegetarian"%string;
     Food_Listings.Meal_Type := Some "Lunch"%string |}.

Definition Shelter : Receivers.row :=
  {| Receivers.Receiver_ID := 1; Receivers.Name := Some "Shelter"%string;
     Receivers.Type_ := Some "NGO"%string; Receivers.City := Some "Springfield"%string;
     Receivers.Contact := Some "555-0111"%string |}.

Definition Claim_1 : Claims.row :=
  {| Claims.Claim_ID := 1; Claims.Food_ID := Some 1; Claims.Receiver_ID := Some 1;
     Claims.Status := Some "Pending"%string;
     Claims.Timestamp := Some "2024-01-09 10:00:00"%string |}.

Definition scenario : store :=
  {| Providers_ := {| rows := [Joes_Deli]; seq := 1 |};
     Receivers_ := {| rows := [Shelter]; seq := 1 |};
     Food_Listings_ := {| rows := [Sandwiches]; seq := 1 |};
     Claims_ := {| rows := [Claim_1]; seq := 1 |} |}.

(** ** Predicates of the statements below *)

(** The cities for which the spliced statement is the intended one: no
    quote and no NUL in them. *)
Fixpoint plain (city : string) : bool :=
  match city with
  | EmptyString => true
  | String c city' =>
      negb (Ascii.eqb c squote) && negb (Nat.eqb (nat_of_ascii c) 0) && plain city'
  end.

(** The sum of the quantities that are not NULL. *)
Fixpoint total (vs : list (option Z)) : Z :=
  match vs with
  | [] => 0
  | Some q :: vs' => q + total vs'
  | None :: vs' => total vs'
  end.

(** Two stores with the same Food_Listings and the same Providers. *)
Definition same_listings_and_providers (s1 s2 : store) : Prop :=
  Food_Listings_ s1 = Food_Listings_ s2 /\ Providers_ s1 = Providers_ s2.

(** A provider and two listings, the later date first. *)
Definition three_calls : list call :=
  [Call_add_provider (Some "Joe's Deli"%string) (Some "Restaurant"%string)
     (Some "1 Main St"%string) (Some "Springfield"%string) (Some "555-0100"%string);
   Call_add_food_listing (Some "Bagels"%string) 12 {| year := 2024; month := 3; day := 1 |}
     (Some 1) (Some "Restaurant"%string) (Some "Springfield"%string)
     (Some "Vegetarian"%string) (Some "Breakfast"%string);
   Call_add_food_listing (Some "Sandwiches"%string) 20
     {| year := 2024; month := 1; day := 10 |}
     (Some 1) (Some "Restaurant"%string) (Some "Springfield"%string)
     (Some "Vegetarian"%string) (Some "Lunch"%string)].

(** ** The other reports of the Data Analysis page (lines 189-275)

    COUNT of a key column counts the rows of the group; ORDER BY ... DESC
    puts the larger count first. *)
Definition count_star {V : Type} (g : option string * list V) : option string * Z :=
  (fst g, Z.of_nat (List.length (snd g))).

Definition descending {K : Type} (df : list (K * Z)) : list (K * Z) :=
  order_by (fun a b => snd b <=? snd a) df.

(** Report 1, the two frames that are merged (lines 190-191):
    SELECT City, COUNT(Provider_ID) AS NumberOfProviders FROM Providers
    GROUP BY City ORDER BY NumberOfProviders DESC; and the same on Receivers. *)
Definition providers_by_city (s : store) : list (option string * Z) :=
  descending (map count_star
                (group_by Providers.City Providers.Provider_ID (rows (Providers_ s)))).

Definition receivers_by_city (s : store) : list (option string * Z) :=
  descending (map count_star
                (group_by Receivers.City Receivers.Receiver_ID (rows (Receivers_ s)))).

(** Report 6 (line 217):
    SELECT Food_Type, COUNT(Food_ID) AS Count FROM Food_Listings
    GROUP BY Food_Type ORDER BY Count DESC; *)
Definition common_food_types (s : store) : list (option string * Z) :=
  descending (map count_star
                (group_by Food_Listings.Food_Type Food_Listings.Food_ID
                          (rows (Food_Listings_ s)))).

(** Report 10 (line 227):
    SELECT Status, COUNT(Claim_ID) AS Count FROM Claims GROUP BY Status; *)
Definition claim_status (s : store) : list (option string * Z) :=
  map count_star (group_by Claims.Status Claims.Claim_ID (rows (Claims_ s))).

(** FROM Claims c JOIN Food_Listings fl ON c.Food_ID = fl.Food_ID *)
Definition join_Claims_Food_Listings (s : store) : list (Claims.row * Food_Listings.row) :=
  flat_map (fun c =>
              map (pair c)
                  (filter (fun fl => refers_to (Claims.Food_ID c) (Food_Listings.Food_ID fl))
                          (rows (Food_Listings_ s))))
           (rows (Claims_ s)).

(** Report 7 (line 224):
    SELECT fl.Food_Name, COUNT(c.Claim_ID) AS NumberOfClaims FROM Claims c JOIN
    Food_Listings fl ON ... GROUP BY fl.Food_Name ORDER BY NumberOfClaims DESC
    LIMIT 10; *)
Definition claims_per_item (s : store) : list (option string * Z) :=
  firstn 10
    (descending
       (map count_star
          (group_by (fun cf => Food_Listings.Food_Name (snd cf))
                    (fun cf => Claims.Claim_ID (fst cf))
                    (join_Claims_Food_Listings s)))).

(** Report 12 (line 233): the claims per Meal_Type, all claims. *)
Definition meal_type_claims (s : store) : list (option string * Z) :=
  descending
    (map count_star
       (group_by (fun cf => Food_Listings.Meal_Type (snd cf))
                 (fun cf => Claims.Claim_ID (fst cf))
                 (join_Claims_Food_Listings s))).

(** WHERE c.Status = 'Completed' *)
Definition completed (c : Claims.row) : bool := text_eqb (Claims.Status c) "Completed".

(** Report 15 (lines 262-275): the claims per Meal_Type among the completed
    ones, and the metric of the first row when there is one. *)
Definition most_claimed_meal (s : store) : list (option string * Z) :=
  descending
    (map count_star
       (group_by (fun cf => Food_Listings.Meal_Type (snd cf))
                 (fun cf => Claims.Claim_ID (fst cf))
                 (filter (fun cf => completed (fst cf)) (join_Claims_Food_Listings s)))).

Definition top_meal (s : store) : option (option string * Z) :=
  match most_claimed_meal s with
  | [] => None
  | top :: _ => Some top
  end.

(** Report 9 (line 220):
    ... FROM Claims c JOIN Food_Listings fl ON c.Food_ID = fl.Food_ID JOIN
    Providers p ON fl.Provider_ID = p.Provider_ID WHERE c.Status = 'Completed'
    GROUP BY p.Name ORDER BY SuccessfulClaims DESC LIMIT 5; *)
Definition successful_claims (s : store) : list (option string * Z) :=
  firstn 5
    (descending
       (map count_star
          (group_by (fun cfp => Providers.Name (snd cfp))
                    (fun cfp => Claims.Claim_ID (fst (fst cfp)))
                    (flat_map
                       (fun cf =>
                          map (pair cf)
                              (filter (fun p => refers_to (Food_Listings.Provider_ID (snd cf))
                                                          (Providers.Provider_ID p))
                                      (rows (Providers_ s))))
                       (filter (fun cf => completed (fst cf))
                               (join_Claims_Food_Listings s)))))).

(** Report 14 (lines 247-258): the listings per Provider_Type, and the metric
    of the first row when there is one. *)
Definition provider_listings (s : store) : list (option string * Z) :=
  descending (map count_star
                (group_by Food_Listings.Provider_Type Food_Listings.Food_ID
                          (rows (Food_Listings_ s)))).

Definition top_provider (s : store) : option (option string * Z) :=
  match provider_listings s with
  | [] => None
  | top :: _ => Some top
  end.

(** ** The select boxes and the form of "Add a New Food Listing" (lines 126-147) *)

(** [st.selectbox(label, options)]: the option the user points at, None when
    there is no option (an option may itself be None, a NULL of the frame). *)
Definition selectbox {A : Type} (options : list (option A)) (choice : nat) : option A :=
  match nth_error options choice with
  | Some v => v
  | None => None
  end.

(** Keys of a dict: texts, or None. *)
Definition key_eqb (a b : option string) : bool :=
  match a, b with
  | None, None => true
  | Some x, Some y => String.eqb x y
  | _, _ => false
  end.

(** [dict(zip(keys, values)).get(k)]: a later pair with the same key
    replaces the value of an earlier one. *)
Definition dict_get {V : Type} (pairs : list (option string * V)) (k : option string)
    : option V :=
  fold_left (fun found kv => if key_eqb (fst kv) k then Some (snd kv) else found) pairs None.

(** SELECT DISTINCT City FROM Providers ORDER BY City; (line 204): every
    value once, in the order of the values. *)
Definition city_list (s : store) : list (option string) :=
  map fst (group_by Providers.City Providers.Provider_ID (rows (Providers_ s))).

(** Line 205. *)
Definition selected_city (s : store) (choice : nat) : option string :=
  selectbox (city_list s) choice.

(** Line 136: the frame of [f"SELECT Type, City FROM Providers WHERE
    Provider_ID = {provider_id}"], asked for only [if provider_id]. *)
Definition provider_details (s : store) (provider_id : option Z)
    : option (list (option string * option string)) :=
  match provider_id with
  | Some i =>
      if negb (i =? 0)
      then Some (map (fun p => (Providers.Type_ p, Providers.City p))
                     (filter (fun p => Providers.Provider_ID p =? i) (rows (Providers_ s))))
      else None
  | None => None
  end.

(** Lines 138-139: the cell of the first row, or the empty text. *)
Definition first_or_blank {A : Type} (details : option (list A)) (column : A -> option string)
    : option string :=
  match details with
  | Some (r :: _) => column r
  | _ => Some EmptyString
  end.

(** The form, submitted: the provider is looked up by the name selected. *)
Definition submit_food_listing_form (choice : nat) (food_name : string) (quantity : Z)
    (expiry_date : date) (food_type meal_type : string) : Conn pyval :=
  fun c =>
    let provider_list :=
      map (fun p => (Providers.Name p, Providers.Provider_ID p)) (rows (Providers_ (db c))) in
    let selected_provider_name := selectbox (map fst provider_list) choice in
    let provider_id := dict_get provider_list selected_provider_name in
    let details := provider_details (db c) provider_id in
    add_food_listing (Some food_name) quantity expiry_date provider_id
      (first_or_blank details fst) (first_or_blank details snd)
      (Some food_type) (Some meal_type) c.

(** ** Well-formed stores *)

(** The rowids of a table: in increasing order, none twice, none above the
    largest one remembered, which starts at 0. *)
Definition rowids_ok {R : Type} `{Keyed R} (t : table R) : Prop :=
  StronglySorted Z.lt (ids (rows t)) /\ Forall (fun i => i <= seq t) (ids (rows t)) /\
  0 <= seq t.

(** Every foreign key is NULL or the key of a row of the parent table. *)
Definition references_ok (s : store) : Prop :=
  (forall l, In l (rows (Food_Listings_ s)) ->
             fk_ok (Food_Listings.Provider_ID l) (Providers_ s) = true) /\
  (forall c, In c (rows (Claims_ s)) ->
             fk_ok (Claims.Food_ID c) (Food_Listings_ s) = true /\
             fk_ok (Claims.Receiver_ID c) (Receivers_ s) = true).

(** The number of rows with a key. *)
Definition count_key {A : Type} (key : A -> option string) (k : option string) (l : list A)
    : Z :=
  Z.of_nat (List.length (filter (fun a => key_eqb (key a) k) l)).

(** The sum of a column of counts. *)
Definition sum_counts {K : Type} (df : list (K * Z)) : Z :=
  fold_right (fun r acc => snd r + acc) 0 df.

(** A store whose four tables have their rowids in order and whose foreign
    keys all refer to rows. *)
Definition well_formed (s : store) : Prop :=
  rowids_ok (Providers_ s) /\ rowids_ok (Receivers_ s) /\
  rowids_ok (Food_Listings_ s) /\ rowids_ok (Claims_ s) /\ references_ok s.

(** A file in which no table has been created yet, and a data directory
    with the rows of the scenario: the provider and the receiver under the
    keys of their files, the listing and the claim referring to them. *)
Definition new_file : db_file :=
  {| file_Providers := None; file_Receivers := None;
     file_Food_Listings := None; file_Claims := None |}.

Definition scenario_data : data_dir :=
  {| providers_data_csv := Lines [ {| line_rowid := Some 1; line_values := Joes_Deli |} ];
     receivers_data_csv := Lines [ {| line_rowid := Some 1; line_values := Shelter |} ];
     food_listings_data_csv := Lines [ {| line_rowid := Some 1; line_values := Sandwiches |} ];
     claims_data_csv := Lines [ {| line_rowid := Some 1; line_values := Claim_1 |} ] |}.

(** The scenario with a second provider of the same name, in another city. *)
Definition Joes_Deli_2 : Providers.row :=
  {| Providers.Provider_ID := 2; Providers.Name := Some "Joe's Deli"%string;
     Providers.Type_ := Some "Grocery Store"%string;
     Providers.Address := Some "9 Oak Ave"%string;
     Providers.City := Some "Shelbyville"%string;
     Providers.Contact := Some "555-0200"%string |}.

Definition two_delis : store :=
  {| Providers_ := {| rows := [Joes_Deli; Joes_Deli_2]; seq := 2 |};
     Receivers_ := Receivers_ scenario;
     Food_Listings_ := Food_Listings_ scenario;
     Claims_ := Claims_ scenario |}.

(** ** Dates in a data file

    [pd.read_csv] is called without [parse_dates] (line 50), so a date
    cell reaches [to_sql] as the text of the file, and that text is what
    the Expiry_Date column holds. A file that writes its dates with
    strokes, 3/10/2025, is read here as the reader of the frame reads it:
    three numbers, the month first or the day first. *)
Definition digit_value (c : ascii) : option Z :=
  let n := Z.of_nat (nat_of_ascii c) in
  if (48 <=? n) && (n <=? 57) then Some (n - 48) else None.

Fixpoint slashed_fields (text : string) (n : Z) : option (list Z) :=
  match text with
  | EmptyString => Some [n]
  | String c rest =>
      if Ascii.eqb c "/" then option_map (cons n) (slashed_fields rest 0)
      else match digit_value c with
           | Some v => slashed_fields rest (10 * n + v)
           | None => None
           end
  end.

Definition written_date (month_first : bool) (text : string) : option date :=
  match slashed_fields text 0 with
  | Some [a; b; y] =>
      let d := if month_first then {| year := y; month := a; day := b |}
               else {| year := y; month := b; day := a |} in
      if valid_date d then Some d else None
  | _ => None
  end.

(** A data directory with one provider and two listings of that provider,
    the dates written with strokes, the earlier date on the first line. *)
Definition Soup : Food_Listings.row :=
  {| Food_Listings.Food_ID := 1; Food_Listings.Food_Name := Some "Soup"%string;
     Food_Listings.Quantity := Some 5;
     Food_Listings.Expiry_Date := Some "3/2/2025"%string;
     Food_Listings.Provider_ID := Some 1;
     Food_Listings.Provider_Type := Some "Restaurant"%string;
     Food_Listings.Location := Some "Springfield"%string;
     Food_Listings.Food_Type := Some "Vegan"%string;
     Food_Listings.Meal_Type := Some "Dinner"%string |}.

Definition Bread : Food_Listings.row :=
  {| Food_Listings.Food_ID := 2; Food_Listings.Food_Name := Some "Bread"%string;
     Food_Listings.Quantity := Some 8;
     Food_Listings.Expiry_Date := Some "3/10/2025"%string;
     Food_Listings.Provider_ID := Some 1;
     Food_Listings.Provider_Type := Some "Restaurant"%string;
     Food_Listings.Location := Some "Springfield"%string;
     Food_Listings.Food_Type := Some "Vegetarian"%string;
     Food_Listings.Meal_Type := Some "Breakfast"%string |}.

Definition slashed_dates : data_dir :=
  {| providers_data_csv := Lines [ {| line_rowid := Some 1; line_values := Joes_Deli |} ];
     receivers_data_csv := NoFile;
     food_listings_data_csv :=
       Lines [ {| line_rowid := Some 1; line_values := Soup |};
               {| line_rowid := Some 2; line_values := Bread |} ];
     claims_data_csv := NoFile |}.

(** ** The runs of the script

    One run of [main] (lines 83-85, then one page): the connection to the
    file the last run left, the set-up, and at most one of the four calls
    of the CRUD tabs. The set-up is part of every run: it loads a data file
    again whenever it finds the table of that file empty. *)
Definition script_run (data : data_dir) (k : option call) (s : store) : store :=
  let c := fst (setup_database data (get_db_connection (file_of s))) in
  match k with
  | Some k' => db (snd (perform k' c))
  | None => db c
  end.

Definition script_runs (data : data_dir) (ks : list (option call)) (s : store) : store :=
  fold_left (fun s1 k => script_run data k s1) ks s.

(** The listings file, when there is one, writes its dates as ISO texts. *)
Definition csv_holds_dates (data : data_dir) : Prop :=
  match food_listings_data_csv data with
  | Lines ls => Forall (fun l => holds_date (line_values l)) ls
  | _ => True
  end.

(** A run whose call, when it makes one, gives a value of the [date] type. *)
Definition dated_run (k : option call) : Prop :=
  match k with
  | Some k' => dated k'
  | None => True
  end.

(** On a new file, with the data of the scenario: a run that adds bagels
    expiring before the sandwiches of the data file, then a run that makes
    no call. *)
Definition two_runs : list (option call) :=
  [Some (Call_add_food_listing (Some "Bagels"%string) 12
           {| year := 2024; month := 1; day := 5 |}
           (Some 1) (Some "Restaurant"%string) (Some "Springfield"%string)
           (Some "Vegetarian"%string) (Some "Breakfast"%string));
   None].

(** * Properties *)

(** ** Lists *)

Lemma filter_twice : forall (A : Type) (f g : A -> bool) (l : list A),
  filter f (filter g l) = filter (fun x => g x && f x) l.
Proof.
  induction l as [|x l IH]; simpl; [reflexivity|].
  destruct (g x); simpl; [destruct (f x)|]; rewrite IH; reflexivity.
Qed.

Lemma filter_absorb : forall (A : Type) (f g : A -> bool) (l : list A),
  (forall x, In x l -> f x = true -> g x = true) ->
  filter f (filter g l) = filter f l.
Proof.
  intros A f g l Himp. rewrite filter_twice. apply filter_ext_in.
  intros x Hx. destruct (f x) eqn:Hf.
  - rewrite (Himp x Hx Hf). reflexivity.
  - apply andb_false_r.
Qed.

(** ** Deletion and its cascades *)

Lemma filter_all : forall (A : Type) (l : list A), filter (fun _ => true) l = l.
Proof. induction l as [|x l IH]; simpl; [|rewrite IH]; reflexivity. Qed.

Lemma cascade_to_Claims_fold : forall (gone : list Food_Listings.row) (t : table Claims.row),
  let t' := fold_left (fun cl l => cascade_to_Claims l cl) gone t in
  rows t' = filter (fun c => forallb (fun l => negb (refers_to (Claims.Food_ID c) (rowid l))) gone)
                   (rows t)
  /\ seq t' = seq t.
Proof.
  induction gone as [|g gone IH]; intros t; simpl.
  - split; [|reflexivity]. symmetry. apply filter_all.
  - destruct (IH (cascade_to_Claims g t)) as [Hrows Hseq]. split.
    + rewrite Hrows. unfold cascade_to_Claims. simpl. apply filter_twice.
    + rewrite Hseq. reflexivity.
Qed.

(** What DELETE FROM Food_Listings WHERE p leaves of each table. *)
Lemma delete_from_Food_Listings_spec : forall p fk s,
  let s' := delete_from_Food_Listings p fk s in
  Providers_ s' = Providers_ s /\ Receivers_ s' = Receivers_ s /\
  rows (Food_Listings_ s') = filter (fun l => negb (p l)) (rows (Food_Listings_ s)) /\
  seq (Food_Listings_ s') = seq (Food_Listings_ s) /\
  rows (Claims_ s') =
    (if fk
     then filter (fun c => forallb (fun l => negb (refers_to (Claims.Food_ID c) (rowid l)))
                                   (filter p (rows (Food_Listings_ s))))
                 (rows (Claims_ s))
     else rows (Claims_ s)) /\
  seq (Claims_ s') = seq (Claims_ s).
Proof.
  intros p fk s. unfold delete_from_Food_Listings, delete_where. simpl.
  repeat split; try reflexivity.
  - destruct fk; [|reflexivity]. apply cascade_to_Claims_fold.
  - destruct fk; [|reflexivity]. apply cascade_to_Claims_fold.
Qed.

Lemma delete_listing_run : forall (food_id : Z) (c : connection store),
  delete_listing food_id c =
  if in_int64 food_id
  then (Returned PyNone,
        {| foreign_keys := foreign_keys c;
           db := delete_from_Food_Listings (fun l => Food_Listings.Food_ID l =? food_id)
                   (foreign_keys c) (db c) |})
  else (Raised OverflowError, c).
Proof.
  intros food_id c. unfold delete_listing, bind, lift, bind_int, execute, commit, ret.
  destruct (in_int64 food_id); reflexivity.
Qed.

Lemma delete_provider_run : forall (provider_id : Z) (c : connection store),
  delete_provider provider_id c =
  if in_int64 provider_id
  then (Returned PyNone,
        {| foreign_keys := foreign_keys c;
           db := delete_from_Providers (fun p => Providers.Provider_ID p =? provider_id)
                   (foreign_keys c) (db c) |})
  else (Raised OverflowError, c).
Proof.
  intros provider_id c. unfold delete_provider, bind, lift, bind_int, execute, commit, ret.
  destruct (in_int64 provider_id); reflexivity.
Qed.

(** C10. [delete_listing] touches the Food_Listings table and the Claims on
    the listing it is given, and nothing else: whatever the connection and
    the id, the Providers and Receivers tables are the same after the call,
    the listings with another Food_ID are the same rows in the same order,
    so are the claims on another listing, and no row is added anywhere. *)
Theorem delete_listing_frame : forall (c : connection store) (food_id : Z),
  let c' := snd (delete_listing food_id c) in
  Providers_ (db c') = Providers_ (db c) /\
  Receivers_ (db c') = Receivers_ (db c) /\
  filter (fun l => negb (Food_Listings.Food_ID l =? food_id)) (rows (Food_Listings_ (db c'))) =
  filter (fun l => negb (Food_Listings.Food_ID l =? food_id)) (rows (Food_Listings_ (db c))) /\
  filter (fun cl => negb (refers_to (Claims.Food_ID cl) food_id)) (rows (Claims_ (db c'))) =
  filter (fun cl => negb (refers_to (Claims.Food_ID cl) food_id)) (rows (Claims_ (db c))) /\
  incl (rows (Food_Listings_ (db c'))) (rows (Food_Listings_ (db c))) /\
  incl (rows (Claims_ (db c'))) (rows (Claims_ (db c))).
Proof.
  intros c food_id. rewrite delete_listing_run.
  destruct (in_int64 food_id); cbv zeta; cbn [snd db].
  2: { repeat split; try reflexivity; apply incl_refl. }
  destruct (delete_from_Food_Listings_spec
              (fun l => Food_Listings.Food_ID l =? food_id) (foreign_keys c) (db c))
    as (HP & HR & HF & _ & HC & _).
  rewrite HP, HR, HF, HC. repeat split.
  - apply filter_absorb. intros x _ Hx. exact Hx.
  - destruct (foreign_keys c); [|reflexivity].
    apply filter_absorb. intros cl _ Hcl. apply forallb_forall.
    intros l Hl. apply filter_In in Hl. destruct Hl as [_ Hid].
    apply Z.eqb_eq in Hid. simpl. rewrite Hid. exact Hcl.
  - apply incl_filter.
  - destruct (foreign_keys c); [apply incl_filter | apply incl_refl].
Qed.

(** The cascades fired by a list of deleted providers. *)
Lemma cascade_to_Food_Listings_fold : forall (gone : list Providers.row) (s : store),
  let s' := fold_left (fun s1 g => cascade_to_Food_Listings g true s1) gone s in
  Providers_ s' = Providers_ s /\ Receivers_ s' = Receivers_ s /\
  (forall l, In l (rows (Food_Listings_ s')) <->
             In l (rows (Food_Listings_ s)) /\
             forall g, In g gone -> refers_to (Food_Listings.Provider_ID l) (rowid g) = false) /\
  (forall c, In c (rows (Claims_ s')) <->
             In c (rows (Claims_ s)) /\
             forall g l, In g gone -> In l (rows (Food_Listings_ s)) ->
                         refers_to (Food_Listings.Provider_ID l) (rowid g) = true ->
                         refers_to (Claims.Food_ID c) (rowid l) = false).
Proof.
  induction gone as [|g gone IH]; intros s; simpl.
  - repeat split; try tauto; intros; contradiction.
  - specialize (IH (cascade_to_Food_Listings g true s)).
    cbv zeta in IH. destruct IH as (HP & HR & HF & HC).
    pose proof (delete_from_Food_Listings_spec
                  (fun l => refers_to (Food_Listings.Provider_ID l) (rowid g)) true s) as H1.
    cbv zeta in H1.
    change (delete_from_Food_Listings
              (fun l => refers_to (Food_Listings.Provider_ID l) (rowid g)) true s)
      with (cascade_to_Food_Listings g true s) in H1.
    destruct H1 as (HP1 & HR1 & HF1 & _ & HC1 & _).
    rewrite HP1 in HP. rewrite HR1 in HR.
    split; [exact HP|]. split; [exact HR|]. split.
    + intros l. rewrite HF, HF1, filter_In, negb_true_iff. split.
      * intros [[Hin Hg] Hrest]. split; [exact Hin|].
        intros g' [<-|Hg']; [exact Hg | apply Hrest; exact Hg'].
      * intros [Hin Hall]. split; [split; [exact Hin | apply Hall; left; reflexivity]|].
        intros g' Hg'. apply Hall. right. exact Hg'.
    + intros c. rewrite HC, HC1, filter_In, forallb_forall. split.
      * intros [[Hin Hg] Hrest]. split; [exact Hin|].
        intros g' l Hg' Hl Href. destruct Hg' as [<-|Hg'].
        -- apply negb_true_iff. apply Hg. apply filter_In. split; assumption.
        -- destruct (refers_to (Food_Listings.Provider_ID l) (rowid g)) eqn:Hlg.
           ++ apply negb_true_iff. apply Hg. apply filter_In. split; assumption.
           ++ apply (Hrest g' l Hg'); [|exact Href].
              rewrite HF1. apply filter_In. split; [exact Hl|].
              rewrite Hlg. reflexivity.
      * intros [Hin Hall]. split; [split; [exact Hin|]|].
        -- intros l Hl. apply filter_In in Hl. destruct Hl as [Hl Href].
           apply negb_true_iff. apply (Hall g l); [left; reflexivity|exact Hl|exact Href].
        -- intros g' l Hg' Hl Href. rewrite HF1 in Hl. apply filter_In in Hl.
           apply (Hall g' l); [right; exact Hg'|apply Hl|exact Href].
Qed.

Lemma refers_to_false : forall (fk : option Z) (key : Z),
  refers_to fk key = false <-> fk <> Some key.
Proof.
  intros [i|] key; simpl.
  - rewrite Z.eqb_neq. split; intros H; congruence.
  - split; [discriminate|reflexivity].
Qed.

Lemma refers_to_true : forall (fk : option Z) (key : Z),
  refers_to fk key = true <-> fk = Some key.
Proof.
  intros [i|] key; simpl.
  - rewrite Z.eqb_eq. split; intros H; congruence.
  - split; discriminate.
Qed.

(** C1. With the connection [get_db_connection] returns, [delete_provider]
    on the id of a provider P of the store returns, and the rows left are:
    the providers with another id; the listings whose Provider_ID is not
    that id; the claims whose Food_ID is not the key of a listing that P
    owned; every receiver. So P, its listings and the claims on them are
    gone, and no other row is. *)
Theorem delete_provider_cascade : forall (s : store) (P : Providers.row),
  In P (rows (Providers_ s)) ->
  in_int64 (Providers.Provider_ID P) = true ->
  let r := delete_provider (Providers.Provider_ID P) (get_db_connection s) in
  let s' := db (snd r) in
  fst r = Returned PyNone /\
  (forall p, In p (rows (Providers_ s')) <->
             In p (rows (Providers_ s)) /\
             Providers.Provider_ID p <> Providers.Provider_ID P) /\
  (forall l, In l (rows (Food_Listings_ s')) <->
             In l (rows (Food_Listings_ s)) /\
             Food_Listings.Provider_ID l <> Some (Providers.Provider_ID P)) /\
  (forall cl, In cl (rows (Claims_ s')) <->
              In cl (rows (Claims_ s)) /\
              ~ exists l, In l (rows (Food_Listings_ s)) /\
                          Food_Listings.Provider_ID l = Some (Providers.Provider_ID P) /\
                          Claims.Food_ID cl = Some (Food_Listings.Food_ID l)) /\
  Receivers_ s' = Receivers_ s.
Proof.
  intros s P HP Hrange. rewrite delete_provider_run, Hrange. cbv zeta. cbn [fst snd db].
  unfold get_db_connection, pragma_foreign_keys, sqlite3_connect. cbn [foreign_keys db].
  unfold delete_from_Providers, delete_where.
  set (pid := Providers.Provider_ID P).
  set (gone := filter (fun p => Providers.Provider_ID p =? pid) (rows (Providers_ s))).
  set (s0 := with_Providers _ s).
  destruct (cascade_to_Food_Listings_fold gone s0) as (HPr & HRe & HFL & HCl).
  assert (Hgone : forall g, In g gone -> rowid g = pid).
  { intros g Hg. apply filter_In in Hg. apply Z.eqb_eq. apply Hg. }
  assert (HPgone : In P gone).
  { apply filter_In. split; [exact HP|]. apply Z.eqb_refl. }
  split; [reflexivity|]. split; [|split; [|split]].
  - intros p. rewrite HPr. unfold s0, with_Providers; cbn [Providers_ Food_Listings_ Claims_ rows]. rewrite filter_In, negb_true_iff, Z.eqb_neq.
    reflexivity.
  - intros l. rewrite HFL. unfold s0, with_Providers; cbn [Providers_ Food_Listings_ Claims_ rows]. split.
    + intros [Hin Hall]. split; [exact Hin|].
      apply refers_to_false. rewrite <- (Hgone P HPgone). apply Hall. exact HPgone.
    + intros [Hin Hne]. split; [exact Hin|].
      intros g Hg. rewrite (Hgone g Hg). apply refers_to_false. exact Hne.
  - intros cl. rewrite HCl. unfold s0, with_Providers; cbn [Providers_ Food_Listings_ Claims_ rows]. split.
    + intros [Hin Hall]. split; [exact Hin|].
      intros (l & Hl & Hown & Hcl).
      assert (Hf : refers_to (Claims.Food_ID cl) (rowid l) = false).
      { apply (Hall P l HPgone Hl). rewrite (Hgone P HPgone). apply refers_to_true. exact Hown. }
      apply refers_to_false in Hf. apply Hf. exact Hcl.
    + intros [Hin Hno]. split; [exact Hin|].
      intros g l Hg Hl Href. apply refers_to_false. intros Hcl. apply Hno.
      exists l. split; [exact Hl|]. split; [|exact Hcl].
      apply refers_to_true. rewrite <- (Hgone g Hg). exact Href.
  - rewrite HRe. reflexivity.
Qed.

(** ** Insertion *)

Section InsertFacts.
Context {R : Type} `{Keyed R}.

Lemma place_perm : forall (r : R) (l : list R), Permutation (place r l) (r :: l).
Proof.
  induction l as [|x l IH]; simpl; [apply Permutation_refl|].
  destruct (rowid r <? rowid x); [apply Permutation_refl|].
  apply Permutation_trans with (x :: r :: l); [|apply perm_swap].
  apply perm_skip. exact IH.
Qed.

Lemma fold_max_ge : forall (l : list Z) (a : Z),
  a <= fold_left Z.max l a /\ forall x, In x l -> x <= fold_left Z.max l a.
Proof.
  induction l as [|y l IH]; intros a; simpl.
  - split; [lia | intros x []].
  - destruct (IH (Z.max a y)) as [Ha Hl]. split; [lia|].
    intros x [<-|Hx]; [lia | apply Hl; exact Hx].
Qed.

Lemma max_rowid_ge : forall (l : list R) (m : Z),
  max_rowid l = Some m -> forall r, In r l -> rowid r <= m.
Proof.
  intros [|x l] m Hm r Hr; [contradiction|].
  simpl in Hm. injection Hm as <-.
  destruct (fold_max_ge (ids l) (rowid x)) as [Hx Hl].
  destruct Hr as [<-|Hr]; [exact Hx|].
  apply Hl. unfold ids. apply in_map. exact Hr.
Qed.

Lemma max_rowid_in : forall (l : list R) (m : Z),
  max_rowid l = Some m -> exists r, In r l /\ rowid r = m.
Proof.
  intros [|x l] m Hm; [discriminate|].
  simpl in Hm. injection Hm as <-.
  assert (Hgen : forall (l0 : list R) (a : Z),
             fold_left Z.max (ids l0) a = a \/
             exists r, In r l0 /\ rowid r = fold_left Z.max (ids l0) a).
  { induction l0 as [|y l0 IH]; intros a; simpl; [left; reflexivity|].
    destruct (IH (Z.max a (rowid y))) as [Heq|(r & Hr & Heq)].
    - rewrite Heq. destruct (Z.max_spec a (rowid y)) as [[_ Hmax]|[_ Hmax]]; rewrite Hmax.
      + right. exists y. split; [left|]; reflexivity.
      + left. reflexivity.
    - right. exists r. split; [right; exact Hr | exact Heq]. }
  destruct (Hgen l (rowid x)) as [Heq|(r & Hr & Heq)].
  - exists x. split; [left; reflexivity | symmetry; exact Heq].
  - exists r. split; [right; exact Hr | exact Heq].
Qed.

(** The rowid AUTOINCREMENT assigns, when the largest is not used up. *)
Lemma new_rowid_fresh : forall (t : table R),
  seq t < MAX_ROWID ->
  (forall r, In r (rows t) -> rowid r < MAX_ROWID) ->
  exists k, new_rowid t = Returned k /\ seq t < k /\
            forall r, In r (rows t) -> rowid r < k.
Proof.
  intros t Hseq Hrows. unfold new_rowid.
  destruct (max_rowid (rows t)) as [m|] eqn:Hmax.
  - destruct (max_rowid_in _ _ Hmax) as (r & Hr & Hm).
    pose proof (Hrows r Hr) as Hlt. pose proof (max_rowid_ge _ _ Hmax) as Hge.
    replace (MAX_ROWID <=? m) with false by (symmetry; apply Z.leb_gt; lia).
    replace (seq t =? MAX_ROWID) with false by (symmetry; apply Z.eqb_neq; lia).
    simpl. eexists. split; [reflexivity|]. split; [lia|].
    intros r' Hr'. specialize (Hge r' Hr'). lia.
  - replace (seq t =? MAX_ROWID) with false by (symmetry; apply Z.eqb_neq; lia).
    eexists. split; [reflexivity|]. split; [lia|].
    intros r Hr. destruct (rows t); [contradiction | discriminate].
Qed.

Lemma has_rowid_false : forall (i : Z) (l : list R),
  has_rowid i l = false <-> forall r, In r l -> rowid r <> i.
Proof.
  intros i l. unfold has_rowid. split.
  - intros Hex r Hr Heq.
    assert (Ht : existsb (fun r0 => rowid r0 =? i) l = true).
    { apply existsb_exists. exists r. split; [exact Hr | apply Z.eqb_eq; exact Heq]. }
    congruence.
  - intros Hall. destruct (existsb (fun r => rowid r =? i) l) eqn:Hex; [|reflexivity].
    apply existsb_exists in Hex. destruct Hex as (r & Hr & Heq).
    apply Z.eqb_eq in Heq. elim (Hall r Hr Heq).
Qed.
End InsertFacts.

Lemma add_provider_run : forall name p_type address city contact (c : connection store),
  add_provider name p_type address city contact c =
  match insert_row None
          {| Providers.Provider_ID := 0; Providers.Name := name; Providers.Type_ := p_type;
             Providers.Address := address; Providers.City := city;
             Providers.Contact := contact |} (Providers_ (db c)) with
  | Returned t =>
      (Returned PyNone, {| foreign_keys := foreign_keys c; db := with_Providers t (db c) |})
  | Raised e => (Raised e, c)
  end.
Proof.
  intros. unfold add_provider, bind, execute, commit, ret, insert_into_Providers.
  destruct (insert_row _ _ _); reflexivity.
Qed.

Lemma add_food_listing_run :
  forall food_name quantity expiry_date provider_id provider_type location food_type
         meal_type (c : connection store),
  add_food_listing food_name quantity expiry_date provider_id provider_type location
    food_type meal_type c =
  if in_int64 quantity
  then match bind_opt_int provider_id with
       | Returned p =>
           match insert_into_Food_Listings None
                   {| Food_Listings.Food_ID := 0; Food_Listings.Food_Name := food_name;
                      Food_Listings.Quantity := Some quantity;
                      Food_Listings.Expiry_Date := Some (isoformat expiry_date);
                      Food_Listings.Provider_ID := p;
                      Food_Listings.Provider_Type := provider_type;
                      Food_Listings.Location := location;
                      Food_Listings.Food_Type := food_type;
                      Food_Listings.Meal_Type := meal_type |}
                   (foreign_keys c) (db c) with
           | Returned s => (Returned PyNone, {| foreign_keys := foreign_keys c; db := s |})
           | Raised e => (Raised e, c)
           end
       | Raised e => (Raised e, c)
       end
  else (Raised OverflowError, c).
Proof.
  intros. unfold add_food_listing, bind, lift, bind_int, execute, commit, ret.
  destruct (in_int64 quantity); [|reflexivity].
  destruct (bind_opt_int provider_id); [|reflexivity].
  destruct (insert_into_Food_Listings _ _ _ _); reflexivity.
Qed.



(** C7, as amended. [add_provider], on a store whose Providers table has
    not used up the largest rowid, inserts one new row that holds the five
    values under an id greater than every id the table holds or has held;
    the rows that were there stay, the other tables are untouched, and the
    call returns None: the id is not handed back. *)
Theorem add_provider_inserts :
  forall (c : connection store) name p_type address city contact,
  seq (Providers_ (db c)) < MAX_ROWID ->
  (forall p, In p (rows (Providers_ (db c))) -> Providers.Provider_ID p < MAX_ROWID) ->
  let r := add_provider name p_type address city contact c in
  let s' := db (snd r) in
  fst r = Returned PyNone /\
  exists k,
    Permutation (rows (Providers_ s'))
      ({| Providers.Provider_ID := k; Providers.Name := name; Providers.Type_ := p_type;
          Providers.Address := address; Providers.City := city;
          Providers.Contact := contact |} :: rows (Providers_ (db c))) /\
    seq (Providers_ (db c)) < k /\
    (forall p, In p (rows (Providers_ (db c))) -> Providers.Provider_ID p < k) /\
    Receivers_ s' = Receivers_ (db c) /\
    Food_Listings_ s' = Food_Listings_ (db c) /\
    Claims_ s' = Claims_ (db c).
Proof.
  intros c name p_type address city contact Hseq Hrows. cbv zeta.
  rewrite add_provider_run. unfold insert_row.
  destruct (@new_rowid_fresh _ Keyed_provider (Providers_ (db c)) Hseq Hrows)
    as (k & Hk & Hsk & Hfresh).
  rewrite Hk. cbn [fst snd db with_Providers Providers_ Receivers_ Food_Listings_ Claims_ rows].
  split; [reflexivity|]. exists k. split; [apply place_perm|].
  repeat split; assumption.
Qed.

(** C7 as stated fails: [add_provider] has no return statement, so what
    the caller gets is never an id. *)
Lemma add_provider_returns_no_id :
  ~ (forall (c : connection store) name p_type address city contact,
       exists k, fst (add_provider name p_type address city contact c) = Returned (PyInt k)).
Proof.
  intros Hclaim.
  destruct (Hclaim (get_db_connection empty_store) (Some "Joe's Deli"%string)
              (Some "Restaurant"%string) (Some "1 Main St"%string)
              (Some "Springfield"%string) (Some "555-0100"%string)) as [k Hk].
  vm_compute in Hk. discriminate.
Qed.

(** ** What the calls keep true of the listings *)

Section ListingInvariant.
Variable P : Food_Listings.row -> Prop.

(** The calls that may be made: a listing they add satisfies [P], under
    whatever rowid it is stored. *)
Definition adds_only (k : call) : Prop :=
  match k with
  | Call_add_food_listing food_name quantity expiry_date provider_id provider_type
      location food_type meal_type =>
      forall i,
        P {| Food_Listings.Food_ID := i; Food_Listings.Food_Name := food_name;
             Food_Listings.Quantity := Some quantity;
             Food_Listings.Expiry_Date := Some (isoformat expiry_date);
             Food_Listings.Provider_ID := provider_id;
             Food_Listings.Provider_Type := provider_type;
             Food_Listings.Location := location;
             Food_Listings.Food_Type := food_type;
             Food_Listings.Meal_Type := meal_type |}
  | _ => True
  end.

Lemma bind_opt_int_returned : forall (v p : option Z),
  bind_opt_int v = Returned p -> p = v.
Proof.
  intros [i|] p; unfold bind_opt_int, bind_int; [destruct (in_int64 i)|]; congruence.
Qed.

Lemma perform_keeps : forall (k : call) (s : store),
  adds_only k ->
  Forall P (rows (Food_Listings_ s)) ->
  Forall P (rows (Food_Listings_ (db (snd (perform k (get_db_connection s)))))).
Proof.
  intros k s Hk Hs. destruct k; cbn [perform].
  - rewrite add_provider_run. destruct (insert_row _ _ _); exact Hs.
  - rewrite add_food_listing_run. destruct (in_int64 quantity); [|exact Hs].
    destruct (bind_opt_int provider_id) as [p|e] eqn:Hp; [|exact Hs].
    apply bind_opt_int_returned in Hp. subst p.
    unfold insert_into_Food_Listings, insert_row.
    destruct (new_rowid (Food_Listings_ (db (get_db_connection s)))) as [i|e]; [|exact Hs].
    match goal with |- context [if ?b then _ else _] => destruct b end; [exact Hs|].
    cbn [snd db with_Food_Listings Food_Listings_ rows].
    eapply Permutation_Forall; [apply Permutation_sym, place_perm|].
    constructor; [apply Hk | exact Hs].
  - rewrite delete_listing_run. destruct (in_int64 food_id); [|exact Hs].
    cbn [snd db].
    destruct (delete_from_Food_Listings_spec
                (fun l => Food_Listings.Food_ID l =? food_id)
                (foreign_keys (get_db_connection s)) (db (get_db_connection s)))
      as (_ & _ & HF & _).
    rewrite HF. apply Forall_forall. intros l Hl. apply filter_In in Hl.
    destruct Hl as [Hl _]. revert l Hl. apply Forall_forall. exact Hs.
  - rewrite delete_provider_run. destruct (in_int64 provider_id); [|exact Hs].
    cbn [snd db get_db_connection pragma_foreign_keys sqlite3_connect foreign_keys].
    unfold delete_from_Providers, delete_where.
    match goal with
    | |- context [fold_left _ ?gone ?s0] =>
        destruct (cascade_to_Food_Listings_fold gone s0) as (_ & _ & HF & _)
    end.
    apply Forall_forall. intros l Hl. apply HF in Hl. destruct Hl as [Hl _].
    revert l Hl. apply Forall_forall. exact Hs.
Qed.

Lemma run_keeps : forall (calls : list call) (s : store),
  Forall adds_only calls ->
  Forall P (rows (Food_Listings_ s)) ->
  Forall P (rows (Food_Listings_ (run calls s))).
Proof.
  induction calls as [|k calls IH]; intros s Hcalls Hs; [exact Hs|].
  inversion Hcalls as [|k' calls' Hk Hrest]; subst.
  unfold run. simpl. apply IH; [exact Hrest|].
  apply perform_keeps; assumption.
Qed.
End ListingInvariant.

(** C8, as amended. The quantity is stored as it is given; what keeps it
    positive is the form, whose number input starts at 1: from a store
    whose listings have positive quantities, every sequence of calls whose
    added quantities are at least 1 leads to a store where every
    Food_Listings row has a positive integer Quantity. *)
Theorem form_keeps_quantities_positive : forall (s : store) (calls : list call),
  Forall positive_quantity (rows (Food_Listings_ s)) ->
  Forall from_form calls ->
  Forall positive_quantity (rows (Food_Listings_ (run calls s))).
Proof.
  intros s calls Hs Hcalls. apply run_keeps; [|exact Hs].
  eapply Forall_impl; [|exact Hcalls].
  intros k Hk. destruct k; simpl; try exact I.
  intros i. exists quantity. simpl in Hk. split; [reflexivity | lia].
Qed.

(** C8 as stated fails: [add_food_listing] checks nothing, and a listing
    of quantity 0 for an existing provider is stored. *)
Lemma zero_quantity_is_stored :
  ~ (forall calls : list call,
       Forall positive_quantity (rows (Food_Listings_ (run calls empty_store)))).
Proof.
  intros Hclaim.
  specialize (Hclaim
    [Call_add_provider (Some "Joe's Deli"%string) (Some "Restaurant"%string)
       (Some "1 Main St"%string) (Some "Springfield"%string) (Some "555-0100"%string);
     Call_add_food_listing (Some "Sandwiches"%string) 0
       {| year := 2024; month := 1; day := 10 |} (Some 1)
       (Some "Restaurant"%string) (Some "Springfield"%string)
       (Some "Vegetarian"%string) (Some "Lunch"%string)]).
  match type of Hclaim with Forall _ ?l => remember l as stored eqn:Hstored end.
  vm_compute in Hstored. subst stored.
  inversion Hclaim as [|l ls Hl _]; subst.
  destruct Hl as (q & Hq & Hpos). simpl in Hq. injection Hq as <-. lia.
Qed.

(** ** ORDER BY *)

Section OrderByFacts.
Context {A : Type} (leb : A -> A -> bool).

Lemma sorter_insert_perm : forall (x : A) (l : list A),
  Permutation (sorter_insert leb x l) (x :: l).
Proof.
  induction l as [|y l IH]; simpl; [apply Permutation_refl|].
  destruct (leb x y); [apply Permutation_refl|].
  apply Permutation_trans with (y :: x :: l); [|apply perm_swap].
  apply perm_skip. exact IH.
Qed.

Lemma order_by_perm : forall l : list A, Permutation (order_by leb l) l.
Proof.
  induction l as [|x l IH]; simpl; [apply perm_nil|].
  apply Permutation_trans with (x :: order_by leb l).
  - apply sorter_insert_perm.
  - apply perm_skip. exact IH.
Qed.

Hypothesis leb_total : forall a b, leb a b = true \/ leb b a = true.

Lemma sorter_insert_sorted : forall (x : A) (l : list A),
  Sorted (fun a b => leb a b = true) l ->
  Sorted (fun a b => leb a b = true) (sorter_insert leb x l).
Proof.
  induction l as [|y l IH]; intros Hl; simpl.
  - constructor; constructor.
  - destruct (leb x y) eqn:Hxy.
    + constructor; [exact Hl|]. constructor. exact Hxy.
    + inversion Hl as [|y' l' Hl' Hhd]; subst.
      constructor; [apply IH; exact Hl'|].
      assert (Hyx : leb y x = true).
      { destruct (leb_total x y) as [H|H]; [congruence | exact H]. }
      destruct l as [|z l]; simpl.
      * constructor. exact Hyx.
      * destruct (leb x z); constructor; [exact Hyx|].
        inversion Hhd; assumption.
Qed.

Lemma order_by_sorted : forall l : list A,
  Sorted (fun a b => leb a b = true) (order_by leb l).
Proof.
  induction l as [|x l IH]; simpl; [constructor|].
  apply sorter_insert_sorted. exact IH.
Qed.
End OrderByFacts.

(** A sorted list stays sorted under a relation that agrees on its rows. *)
Lemma Sorted_on : forall (A : Type) (R R' : A -> A -> Prop) (P : A -> Prop) (l : list A),
  (forall a b, P a -> P b -> R a b -> R' a b) ->
  Forall P l -> Sorted R l -> Sorted R' l.
Proof.
  intros A R R' P l Himp HP Hs. induction Hs as [|a l Hs IH Hhd]; [constructor|].
  inversion HP as [|a' l' Pa Pl]; subst.
  constructor; [apply IH; exact Pl|].
  destruct Hhd as [|b l Hab]; constructor.
  inversion Pl; subst. apply Himp; assumption.
Qed.

Lemma text_leb_total : forall a b : option string, text_leb a b = true \/ text_leb b a = true.
Proof.
  intros [x|] [y|]; unfold text_leb; simpl; auto.
  rewrite (String.compare_antisym y x).
  destruct (String.compare x y); simpl; auto.
Qed.

(** ** Dates and their ISO texts *)

Lemma digit_compare : forall a b : Z,
  0 <= a <= 9 -> 0 <= b <= 9 -> Ascii.compare (digit a) (digit b) = (a ?= b).
Proof.
  intros a b Ha Hb.
  assert (Ea : a = 0 \/ a = 1 \/ a = 2 \/ a = 3 \/ a = 4 \/ a = 5 \/ a = 6 \/ a = 7 \/
               a = 8 \/ a = 9) by lia.
  assert (Eb : b = 0 \/ b = 1 \/ b = 2 \/ b = 3 \/ b = 4 \/ b = 5 \/ b = 6 \/ b = 7 \/
               b = 8 \/ b = 9) by lia.
  repeat (destruct Ea as [Ea|Ea]); repeat (destruct Eb as [Eb|Eb]); subst; reflexivity.
Qed.

Lemma digit_mod : forall n : Z, digit n = digit (n mod 10).
Proof.
  intros n. unfold digit. rewrite Z.mod_mod by lia. reflexivity.
Qed.

Ltac by_digits :=
  repeat match goal with
         | |- context [?x ?= ?y] => destruct (Z.compare_spec x y)
         end;
  try reflexivity; exfalso; Z.div_mod_to_equations; lia.

Lemma pad2_compare : forall (a b : Z) (k1 k2 : string),
  0 <= a <= 99 -> 0 <= b <= 99 ->
  String.compare (pad2 a k1) (pad2 b k2) =
  match a ?= b with
  | Eq => String.compare k1 k2
  | o => o
  end.
Proof.
  intros a b k1 k2 Ha Hb. unfold pad2. cbn [String.compare].
  rewrite (digit_mod a), (digit_mod b).
  rewrite !digit_compare by (Z.div_mod_to_equations; lia).
  by_digits.
Qed.

Lemma pad4_compare : forall (a b : Z) (k1 k2 : string),
  0 <= a <= 9999 -> 0 <= b <= 9999 ->
  String.compare (pad4 a k1) (pad4 b k2) =
  match a ?= b with
  | Eq => String.compare k1 k2
  | o => o
  end.
Proof.
  intros a b k1 k2 Ha Hb. unfold pad4, pad2. cbn [String.compare].
  rewrite (digit_mod a), (digit_mod b), (digit_mod (a / 10)), (digit_mod (b / 10)),
    (digit_mod (a / 100)), (digit_mod (b / 100)).
  rewrite !digit_compare by (Z.div_mod_to_equations; lia).
  by_digits.
Qed.

Lemma valid_date_bounds : forall d : date,
  valid_date d = true ->
  0 <= year d <= 9999 /\ 0 <= month d <= 99 /\ 0 <= day d <= 99.
Proof.
  intros d Hd. unfold valid_date in Hd.
  repeat (apply andb_prop in Hd; destruct Hd as [Hd ?]).
  assert (days_in_month (year d) (month d) <= 31).
  { unfold days_in_month.
    destruct (month d =? 2); [destruct (is_leap (year d)); lia|].
    destruct ((month d =? 4) || (month d =? 6) || (month d =? 9) || (month d =? 11)); lia. }
  lia.
Qed.

(** The texts [isoformat] gives compare as the dates do. *)
Lemma isoformat_compare : forall a b : date,
  valid_date a = true -> valid_date b = true ->
  String.compare (isoformat a) (isoformat b) = date_compare a b.
Proof.
  intros a b Ha Hb.
  apply valid_date_bounds in Ha. apply valid_date_bounds in Hb.
  unfold isoformat, date_compare.
  rewrite pad4_compare by lia. cbn [String.compare].
  change (Ascii.compare "-" "-") with Eq. cbv iota.
  rewrite pad2_compare by lia. cbn [String.compare].
  change (Ascii.compare "-" "-") with Eq. cbv iota.
  rewrite pad2_compare by lia. cbn [String.compare].
  destruct (year a ?= year b), (month a ?= month b), (day a ?= day b); reflexivity.
Qed.

(** ** The load of one table *)

Section LoadStep.
Context {R : Type}.
Variables (table_name : string) (count : store -> nat) (csv : csv_file R)
          (insert : option Z -> R -> bool -> store -> outcome store).

Let load := load_data table_name count csv insert.

(** What [st.error] shows for the table on a connection. *)
Definition shown (c : connection store) : list string := snd (load (c, [])).

Lemma load_log : forall (c : connection store) (log : list string),
  load (c, log) = (fst (load (c, [])), log ++ shown c).
Proof.
  intros c log. unfold shown, load, load_data.
  destruct (Nat.eqb (count (db c)) 0); cbn [fst snd]; [|rewrite app_nil_r; reflexivity].
  destruct csv as [| |ls]; cbn [fst snd]; try (rewrite app_nil_r; reflexivity);
    try reflexivity.
  destruct (executemany insert ls (foreign_keys c) (db c)); cbn [fst snd];
    [rewrite app_nil_r|]; reflexivity.
Qed.

Lemma load_foreign_keys : forall st : connection store * list string,
  foreign_keys (fst (load st)) = foreign_keys (fst st).
Proof.
  intros [c log]. unfold load, load_data.
  destruct (Nat.eqb (count (db c)) 0); [|reflexivity].
  destruct csv as [| |ls]; try reflexivity.
  destruct (executemany insert ls (foreign_keys c) (db c)); reflexivity.
Qed.

(** A table with a row is left alone. *)
Lemma load_nonempty : forall (c : connection store) (log : list string),
  count (db c) <> O -> load (c, log) = (c, log).
Proof.
  intros c log Hc. unfold load, load_data.
  destruct (Nat.eqb (count (db c)) 0) eqn:E; [|reflexivity].
  apply Nat.eqb_eq in E. contradiction.
Qed.

(** What no INSERT of the table changes, its load does not change. *)
Lemma load_frame : forall (X : Type) (proj : store -> X),
  (forall e r fk s s', insert e r fk s = Returned s' -> proj s' = proj s) ->
  forall st, proj (db (fst (load st))) = proj (db (fst st)).
Proof.
  intros X proj Hins [c log]. unfold load, load_data.
  destruct (Nat.eqb (count (db c)) 0); [|reflexivity].
  destruct csv as [| |ls]; try reflexivity.
  destruct (executemany insert ls (foreign_keys c) (db c)) as [s'|e] eqn:E; [|reflexivity].
  cbn [fst db]. revert E. generalize (foreign_keys c) as fk. generalize (db c) as s.
  induction ls as [|l ls IH]; intros s fk E; simpl in E.
  - injection E as <-. reflexivity.
  - destruct (insert (line_rowid l) (line_values l) fk s) as [s1|e1] eqn:E1;
      [|discriminate].
    rewrite (IH s1 fk E). apply (Hins _ _ _ _ _ E1).
Qed.
End LoadStep.

Section LoadReplay.
Context {R : Type}.
Variables (table_name : string) (count : store -> nat) (csv : csv_file R)
          (insert : option Z -> R -> bool -> store -> outcome store).

(** Two stores that look the same to the INSERT of the table: they agree
    on the table and on the tables its foreign keys refer to. *)
Variable same_view : store -> store -> Prop.

Hypothesis view_count : forall s s', same_view s s' -> count s = count s'.

Hypothesis view_insert : forall e r fk s1 s2,
  same_view s1 s2 ->
  match insert e r fk s1 with
  | Returned a => exists b, insert e r fk s2 = Returned b /\ same_view a b
  | Raised _ => exists e', insert e r fk s2 = Raised e'
  end.

Hypothesis insert_counts : forall e r fk s s',
  insert e r fk s = Returned s' -> count s' <> O.

Lemma executemany_raises : forall (ls : list (csv_line R)) (fk : bool) (s1 s2 : store) (e : exn),
  same_view s1 s2 ->
  executemany insert ls fk s1 = Raised e ->
  exists e', executemany insert ls fk s2 = Raised e'.
Proof.
  induction ls as [|l ls IH]; intros fk s1 s2 e Hv E; simpl in *; [discriminate|].
  pose proof (view_insert (line_rowid l) (line_values l) fk s1 s2 Hv) as Hi.
  destruct (insert (line_rowid l) (line_values l) fk s1) as [a|e1].
  - destruct Hi as (b & Hb & Hab). rewrite Hb. apply (IH fk a b e Hab E).
  - destruct Hi as (e' & He'). rewrite He'. exists e'. reflexivity.
Qed.

Lemma executemany_counts : forall (ls : list (csv_line R)) (fk : bool) (s s' : store),
  executemany insert ls fk s = Returned s' -> ls <> [] -> count s' <> O.
Proof.
  induction ls as [|l ls IH]; intros fk s s' E Hne; [contradiction|].
  simpl in E.
  destruct (insert (line_rowid l) (line_values l) fk s) as [s1|e1] eqn:E1; [|discriminate].
  destruct ls as [|l' ls].
  - simpl in E. injection E as <-. apply (insert_counts _ _ _ _ _ E1).
  - apply (IH fk s1 s' E). discriminate.
Qed.

(** The load of the table, on a connection that sees what an earlier load
    of the table left, changes nothing and shows what the earlier one
    showed. *)
Lemma load_replay : forall (c c' : connection store),
  foreign_keys c' = foreign_keys c ->
  same_view (db (fst (load_data table_name count csv insert (c, [])))) (db c') ->
  forall log',
    load_data table_name count csv insert (c', log') =
    (c', log' ++ shown table_name count csv insert c).
Proof.
  intros c c' Hfk Hv log'. unfold shown. unfold load_data in *.
  destruct (Nat.eqb (count (db c)) 0) eqn:Ec.
  - destruct csv as [| |ls].
    + cbn [fst snd db] in *. rewrite <- (view_count _ _ Hv), Ec, app_nil_r. reflexivity.
    + cbn [fst snd db] in *. rewrite <- (view_count _ _ Hv), Ec. reflexivity.
    + destruct (executemany insert ls (foreign_keys c) (db c)) as [s1|e] eqn:E;
        cbn [fst snd db] in *.
      * rewrite app_nil_r. destruct (Nat.eqb (count (db c')) 0) eqn:Ec'; [|reflexivity].
        apply Nat.eqb_eq in Ec'. rewrite <- (view_count _ _ Hv) in Ec'.
        destruct ls as [|l ls].
        -- simpl. destruct c'; reflexivity.
        -- exfalso. apply (executemany_counts _ _ _ _ E); [discriminate | exact Ec'].
      * rewrite <- (view_count _ _ Hv), Ec, Hfk.
        destruct (executemany_raises ls (foreign_keys c) (db c) (db c') e Hv E) as [e' He'].
        rewrite He'. reflexivity.
  - cbn [fst snd db] in *. rewrite <- (view_count _ _ Hv), Ec, app_nil_r. reflexivity.
Qed.
End LoadReplay.

(** ** The INSERTs of the four tables *)

Lemma insert_row_counts : forall (R : Type) (K : Keyed R) (e : option Z) (r : R)
    (t t' : table R),
  insert_row e r t = Returned t' -> count_rows t' <> O.
Proof.
  intros R K e r t t' E.
  assert (Hplace : forall (x : R) (l : list R), List.length (place x l) <> O).
  { intros x [|y l]; simpl; [discriminate|]. destruct (rowid x <? rowid y); discriminate. }
  unfold insert_row in E. destruct e as [i|].
  - destruct (has_rowid i (rows t)); [discriminate|]. injection E as <-. apply Hplace.
  - destruct (new_rowid t); [|discriminate]. injection E as <-. apply Hplace.
Qed.

Ltac insert_cases E :=
  match type of E with
  | context [insert_row ?e ?r ?t] =>
      let Et := fresh "Et" in
      destruct (insert_row e r t) eqn:Et; [|discriminate]
  end;
  repeat match type of E with
         | context [if ?b then _ else _] => destruct b; [discriminate|]
         end;
  injection E as <-.

Lemma insert_into_Providers_frame : forall e r fk s s',
  insert_into_Providers e r fk s = Returned s' ->
  Receivers_ s' = Receivers_ s /\ Food_Listings_ s' = Food_Listings_ s /\
  Claims_ s' = Claims_ s /\ count_rows (Providers_ s') <> O.
Proof.
  intros e r fk s s' E. unfold insert_into_Providers in E. insert_cases E.
  repeat split. simpl. eapply insert_row_counts. eassumption.
Qed.

Lemma insert_into_Receivers_frame : forall e r fk s s',
  insert_into_Receivers e r fk s = Returned s' ->
  Providers_ s' = Providers_ s /\ Food_Listings_ s' = Food_Listings_ s /\
  Claims_ s' = Claims_ s /\ count_rows (Receivers_ s') <> O.
Proof.
  intros e r fk s s' E. unfold insert_into_Receivers in E. insert_cases E.
  repeat split. simpl. eapply insert_row_counts. eassumption.
Qed.

Lemma insert_into_Food_Listings_frame : forall e r fk s s',
  insert_into_Food_Listings e r fk s = Returned s' ->
  Providers_ s' = Providers_ s /\ Receivers_ s' = Receivers_ s /\
  Claims_ s' = Claims_ s /\ count_rows (Food_Listings_ s') <> O.
Proof.
  intros e r fk s s' E. unfold insert_into_Food_Listings in E. insert_cases E.
  repeat split. simpl. eapply insert_row_counts. eassumption.
Qed.

Lemma insert_into_Claims_frame : forall e r fk s s',
  insert_into_Claims e r fk s = Returned s' ->
  Providers_ s' = Providers_ s /\ Receivers_ s' = Receivers_ s /\
  Food_Listings_ s' = Food_Listings_ s /\ count_rows (Claims_ s') <> O.
Proof.
  intros e r fk s s' E. unfold insert_into_Claims in E. insert_cases E.
  repeat split. simpl. eapply insert_row_counts. eassumption.
Qed.

Lemma insert_into_Providers_view : forall e r fk s1 s2,
  Providers_ s1 = Providers_ s2 ->
  match insert_into_Providers e r fk s1 with
  | Returned a => exists b, insert_into_Providers e r fk s2 = Returned b /\
                            Providers_ a = Providers_ b
  | Raised _ => exists e', insert_into_Providers e r fk s2 = Raised e'
  end.
Proof.
  intros e r fk s1 s2 Hv. unfold insert_into_Providers. rewrite <- Hv.
  destruct (insert_row e r (Providers_ s1)); eexists; [split|]; reflexivity.
Qed.

Lemma insert_into_Receivers_view : forall e r fk s1 s2,
  Receivers_ s1 = Receivers_ s2 ->
  match insert_into_Receivers e r fk s1 with
  | Returned a => exists b, insert_into_Receivers e r fk s2 = Returned b /\
                            Receivers_ a = Receivers_ b
  | Raised _ => exists e', insert_into_Receivers e r fk s2 = Raised e'
  end.
Proof.
  intros e r fk s1 s2 Hv. unfold insert_into_Receivers. rewrite <- Hv.
  destruct (insert_row e r (Receivers_ s1)); eexists; [split|]; reflexivity.
Qed.

Lemma insert_into_Food_Listings_view : forall e r fk s1 s2,
  same_listings_and_providers s1 s2 ->
  match insert_into_Food_Listings e r fk s1 with
  | Returned a => exists b, insert_into_Food_Listings e r fk s2 = Returned b /\
                            same_listings_and_providers a b
  | Raised _ => exists e', insert_into_Food_Listings e r fk s2 = Raised e'
  end.
Proof.
  intros e r fk s1 s2 [HF HP]. unfold insert_into_Food_Listings. rewrite <- HF, <- HP.
  destruct (insert_row e r (Food_Listings_ s1)); [|eexists; reflexivity].
  destruct (fk && negb (fk_ok (Food_Listings.Provider_ID r) (Providers_ s1)));
    eexists; [reflexivity|]. split; [reflexivity|]. split; [reflexivity | exact HP].
Qed.

Lemma insert_into_Claims_view : forall e r fk s1 s2,
  s1 = s2 ->
  match insert_into_Claims e r fk s1 with
  | Returned a => exists b, insert_into_Claims e r fk s2 = Returned b /\ a = b
  | Raised _ => exists e', insert_into_Claims e r fk s2 = Raised e'
  end.
Proof.
  intros e r fk s1 s2 <-. destruct (insert_into_Claims e r fk s1); eexists;
    [split|]; reflexivity.
Qed.

Lemma create_tables_file_of : forall s : store, create_tables (file_of s) = s.
Proof. intros []; reflexivity. Qed.

(** ** setup_database, run again *)

Lemma load_fst : forall (R : Type) table_name count (csv : csv_file R) insert
    (st : connection store * list string),
  fst (load_data table_name count csv insert (fst st, [])) =
  fst (load_data table_name count csv insert st).
Proof.
  intros R table_name count csv insert [c log]. cbn [fst].
  rewrite (load_log table_name count csv insert c log). reflexivity.
Qed.

Lemma load_snd : forall (R : Type) table_name count (csv : csv_file R) insert
    (st : connection store * list string),
  snd (load_data table_name count csv insert st) =
  snd st ++ shown table_name count csv insert (fst st).
Proof.
  intros R table_name count csv insert [c log]. cbn [fst snd].
  rewrite (load_log table_name count csv insert c log). reflexivity.
Qed.

Lemma setup_database_again : forall (data : data_dir) (c : connection db_file),
  setup_database data
    {| foreign_keys := foreign_keys c;
       db := file_of (db (fst (setup_database data c))) |} =
  setup_database data c.
Proof.
  intros data c. unfold setup_database, commit. cbn [fst snd db foreign_keys].
  rewrite create_tables_file_of.
  set (c0 := {| foreign_keys := foreign_keys c; db := create_tables (db c) |}).
  set (st1 := load_Providers data (c0, [])).
  set (st2 := load_Receivers data st1).
  set (st3 := load_Food_Listings data st2).
  set (st4 := load_Claims data st3).
  set (k := {| foreign_keys := foreign_keys c; db := db (fst st4) |}).
  assert (K1 : foreign_keys (fst st1) = foreign_keys c) by apply load_foreign_keys.
  assert (K2 : foreign_keys (fst st2) = foreign_keys c)
    by (unfold st2, load_Receivers; rewrite load_foreign_keys; exact K1).
  assert (K3 : foreign_keys (fst st3) = foreign_keys c)
    by (unfold st3, load_Food_Listings; rewrite load_foreign_keys; exact K2).
  assert (K4 : foreign_keys (fst st4) = foreign_keys c)
    by (unfold st4, load_Claims; rewrite load_foreign_keys; exact K3).
  assert (Hk : k = fst st4).
  { unfold k. rewrite <- K4. destruct (fst st4); reflexivity. }
  assert (P2 : Providers_ (db (fst st2)) = Providers_ (db (fst st1))).
  { apply load_frame. intros e r fk s s' E. apply (insert_into_Receivers_frame _ _ _ _ _ E). }
  assert (P3 : Providers_ (db (fst st3)) = Providers_ (db (fst st2))).
  { apply load_frame. intros e r fk s s' E.
    apply (insert_into_Food_Listings_frame _ _ _ _ _ E). }
  assert (P4 : Providers_ (db (fst st4)) = Providers_ (db (fst st3))).
  { apply load_frame. intros e r fk s s' E. apply (insert_into_Claims_frame _ _ _ _ _ E). }
  assert (R3 : Receivers_ (db (fst st3)) = Receivers_ (db (fst st2))).
  { apply load_frame. intros e r fk s s' E.
    apply (insert_into_Food_Listings_frame _ _ _ _ _ E). }
  assert (R4 : Receivers_ (db (fst st4)) = Receivers_ (db (fst st3))).
  { apply load_frame. intros e r fk s s' E. apply (insert_into_Claims_frame _ _ _ _ _ E). }
  assert (F4 : Food_Listings_ (db (fst st4)) = Food_Listings_ (db (fst st3))).
  { apply load_frame. intros e r fk s s' E. apply (insert_into_Claims_frame _ _ _ _ _ E). }
  (* the second run, turn by turn *)
  assert (S1 : forall log, load_Providers data (k, log) =
                 (k, log ++ shown "Providers" (fun s => count_rows (Providers_ s))
                                  (providers_data_csv data) insert_into_Providers c0)).
  { intros log. unfold load_Providers.
    apply load_replay with (same_view := fun s s' => Providers_ s = Providers_ s').
    - intros s s' Hv. rewrite Hv. reflexivity.
    - apply insert_into_Providers_view.
    - intros e r fk s s' E. apply (insert_into_Providers_frame _ _ _ _ _ E).
    - reflexivity.
    - change (Providers_ (db (fst st1)) = Providers_ (db (fst st4))).
      rewrite P4, P3, P2. reflexivity. }
  assert (S2 : forall log, load_Receivers data (k, log) =
                 (k, log ++ shown "Receivers" (fun s => count_rows (Receivers_ s))
                                  (receivers_data_csv data) insert_into_Receivers (fst st1))).
  { intros log. unfold load_Receivers.
    apply load_replay with (same_view := fun s s' => Receivers_ s = Receivers_ s').
    - intros s s' Hv. rewrite Hv. reflexivity.
    - apply insert_into_Receivers_view.
    - intros e r fk s s' E. apply (insert_into_Receivers_frame _ _ _ _ _ E).
    - cbn [foreign_keys k]. symmetry. exact K1.
    - rewrite load_fst. change (Receivers_ (db (fst st2)) = Receivers_ (db (fst st4))).
      rewrite R4, R3. reflexivity. }
  assert (S3 : forall log, load_Food_Listings data (k, log) =
                 (k, log ++ shown "Food_Listings" (fun s => count_rows (Food_Listings_ s))
                                  (food_listings_data_csv data) insert_into_Food_Listings
                                  (fst st2))).
  { intros log. unfold load_Food_Listings.
    apply load_replay with (same_view := same_listings_and_providers).
    - intros s s' [Hv _]. rewrite Hv. reflexivity.
    - apply insert_into_Food_Listings_view.
    - intros e r fk s s' E. apply (insert_into_Food_Listings_frame _ _ _ _ _ E).
    - cbn [foreign_keys k]. symmetry. exact K2.
    - rewrite load_fst.
      change (same_listings_and_providers (db (fst st3)) (db (fst st4))).
      split; [rewrite F4 | rewrite P4]; reflexivity. }
  assert (S4 : forall log, load_Claims data (k, log) =
                 (k, log ++ shown "Claims" (fun s => count_rows (Claims_ s))
                                  (claims_data_csv data) insert_into_Claims (fst st3))).
  { intros log. unfold load_Claims.
    apply load_replay with (same_view := @eq store).
    - intros s s' <-. reflexivity.
    - apply insert_into_Claims_view.
    - intros e r fk s s' E. apply (insert_into_Claims_frame _ _ _ _ _ E).
    - cbn [foreign_keys k]. symmetry. exact K3.
    - rewrite load_fst. reflexivity. }
  fold k. rewrite S1, S2, S3, S4. cbn [fst snd]. rewrite Hk. f_equal.
  unfold st4, load_Claims. rewrite load_snd. f_equal.
  unfold st3, load_Food_Listings. rewrite load_snd. f_equal.
  unfold st2, load_Receivers. rewrite load_snd. f_equal.
Qed.

Lemma load_keeps : forall (R : Type) table_name count (csv : csv_file R) insert
    (X : Type) (proj : store -> X) (st : connection store * list string),
  count (db (fst st)) <> O \/
  (forall e r fk s s', insert e r fk s = Returned s' -> proj s' = proj s) ->
  proj (db (fst (load_data table_name count csv insert st))) = proj (db (fst st)).
Proof.
  intros R table_name count csv insert X proj [c log] [Hc|Hins].
  - rewrite load_nonempty by exact Hc. reflexivity.
  - apply load_frame. exact Hins.
Qed.

Lemma rows_count : forall (R : Type) (t : table R), rows t <> [] -> count_rows t <> O.
Proof. intros R [[|r l] n] H; simpl in *; [contradiction | discriminate]. Qed.

(** C6. [setup_database] on a new connection, and again on a new
    connection to the file the first call left: the second call returns
    what the first returned, the same four tables row for row and the same
    messages (none, if the first showed none); and a table that held rows
    when the first call started is, after it, the table it was. *)
Theorem setup_database_idempotent : forall (data : data_dir) (f : db_file),
  let first := setup_database data (get_db_connection f) in
  setup_database data (get_db_connection (file_of (db (fst first)))) = first /\
  (forall t, file_Providers f = Some t -> rows t <> [] ->
             Providers_ (db (fst first)) = t) /\
  (forall t, file_Receivers f = Some t -> rows t <> [] ->
             Receivers_ (db (fst first)) = t) /\
  (forall t, file_Food_Listings f = Some t -> rows t <> [] ->
             Food_Listings_ (db (fst first)) = t) /\
  (forall t, file_Claims f = Some t -> rows t <> [] ->
             Claims_ (db (fst first)) = t).
Proof.
  intros data f. cbv zeta. split.
  - apply (setup_database_again data (get_db_connection f)).
  - unfold setup_database, commit. cbn [fst snd db foreign_keys get_db_connection
      pragma_foreign_keys sqlite3_connect].
    unfold load_Claims, load_Food_Listings, load_Receivers, load_Providers.
    repeat split; intros t Ht Hrows; apply rows_count in Hrows.
    + rewrite load_keeps
        by (right; intros e r fk s s' E; apply (insert_into_Claims_frame _ _ _ _ _ E)).
      rewrite load_keeps
        by (right; intros e r fk s s' E; apply (insert_into_Food_Listings_frame _ _ _ _ _ E)).
      rewrite load_keeps
        by (right; intros e r fk s s' E; apply (insert_into_Receivers_frame _ _ _ _ _ E)).
      rewrite load_keeps by (left; cbn; rewrite Ht; exact Hrows).
      cbn. rewrite Ht. reflexivity.
    + rewrite load_keeps
        by (right; intros e r fk s s' E; apply (insert_into_Claims_frame _ _ _ _ _ E)).
      rewrite load_keeps
        by (right; intros e r fk s s' E; apply (insert_into_Food_Listings_frame _ _ _ _ _ E)).
      assert (H1 : Receivers_ (db (fst (load_data "Providers"
                     (fun s => count_rows (Providers_ s)) (providers_data_csv data)
                     insert_into_Providers
                     ({| foreign_keys := true; db := create_tables f |}, [])))) = t).
      { rewrite load_keeps
          by (right; intros e r fk s s' E; apply (insert_into_Providers_frame _ _ _ _ _ E)).
        cbn. rewrite Ht. reflexivity. }
      rewrite load_keeps by (left; rewrite H1; exact Hrows).
      exact H1.
    + rewrite load_keeps
        by (right; intros e r fk s s' E; apply (insert_into_Claims_frame _ _ _ _ _ E)).
      assert (H2 : Food_Listings_ (db (fst (load_data "Receivers"
                     (fun s => count_rows (Receivers_ s)) (receivers_data_csv data)
                     insert_into_Receivers
                     (load_data "Providers"
                        (fun s => count_rows (Providers_ s)) (providers_data_csv data)
                        insert_into_Providers
                        ({| foreign_keys := true; db := create_tables f |}, []))))) = t).
      { rewrite load_keeps
          by (right; intros e r fk s s' E; apply (insert_into_Receivers_frame _ _ _ _ _ E)).
        rewrite load_keeps
          by (right; intros e r fk s s' E; apply (insert_into_Providers_frame _ _ _ _ _ E)).
        cbn. rewrite Ht. reflexivity. }
      rewrite load_keeps by (left; rewrite H2; exact Hrows).
      exact H2.
    + match goal with
      | |- Claims_ (db (fst (load_data _ _ _ _ ?st))) = t =>
          assert (H3 : Claims_ (db (fst st)) = t)
      end.
      { rewrite load_keeps
          by (right; intros e r fk s s' E; apply (insert_into_Food_Listings_frame _ _ _ _ _ E)).
        rewrite load_keeps
          by (right; intros e r fk s s' E; apply (insert_into_Receivers_frame _ _ _ _ _ E)).
        rewrite load_keeps
          by (right; intros e r fk s s' E; apply (insert_into_Providers_frame _ _ _ _ _ E)).
        cbn. rewrite Ht. reflexivity. }
      rewrite load_keeps by (left; rewrite H3; exact Hrows).
      exact H3.
Qed.

(** ** The reports on an empty table *)

(** C4. On the store with no listing, report 4 does not show 0: SUM over
    no row is NULL, the frame has one row all the same, so the guard on
    [.empty] lets it through and [int(None)] raises. *)
Theorem total_quantity_available_empty_raises :
  total_quantity_available empty_store = Raised TypeError.
Proof. reflexivity. Qed.

Lemma join_no_listing : forall s : store,
  rows (Food_Listings_ s) = [] -> join_Providers_Food_Listings s = [].
Proof.
  intros s Hs. unfold join_Providers_Food_Listings. rewrite Hs. simpl.
  induction (rows (Providers_ s)) as [|p l IH]; simpl; [reflexivity | exact IH].
Qed.

(** C5. Whenever Food_Listings is empty, reports 2 and 5, whose queries
    answer with no row, show no metric and raise nothing, but report 4, on
    the same store, raises [TypeError]: not every report tolerates its
    source table being empty. *)
Theorem reports_on_no_listing : forall s : store,
  rows (Food_Listings_ s) = [] ->
  top_provider_type s = Returned None /\
  city_listings s = Returned None /\
  total_quantity_available s = Raised TypeError.
Proof.
  intros s Hs. repeat split.
  - unfold top_provider_type. rewrite (join_no_listing s Hs). reflexivity.
  - unfold city_listings. rewrite Hs. reflexivity.
  - unfold total_quantity_available. rewrite Hs. reflexivity.
Qed.

Lemma reports_on_no_listing_witness :
  top_provider_type empty_store = Returned None /\
  city_listings empty_store = Returned None /\
  total_quantity_available empty_store = Raised TypeError.
Proof. apply (reports_on_no_listing empty_store). reflexivity. Defined.

(** ** Report 3 and the quote *)

(** C9. A provider of the city O'Fallon is added (the INSERT binds its
    values to [?]); report 3 for that very city, taken from the list the
    page offers, returns no row of it: the statement built from the city
    ends the literal at the quote inside the name, and the query raises. *)
Theorem provider_contacts_quote_raises :
  let s := db (snd (add_provider (Some "Ann's Bakery"%string) (Some "Restaurant"%string)
                      (Some "12 Elm St"%string) (Some "O'Fallon"%string)
                      (Some "555-0199"%string) (get_db_connection empty_store))) in
  map Providers.City (rows (Providers_ s)) = [Some "O'Fallon"%string] /\
  provider_contacts s (Some "O'Fallon"%string) = Some (Fails DatabaseError).
Proof. split; reflexivity. Qed.

Lemma append_snoc : forall (a : string) (c : ascii) (b : string),
  (snoc a c ++ b)%string = (a ++ String c b)%string.
Proof.
  induction a as [|x a IH]; intros c b; simpl; [reflexivity|].
  unfold snoc in IH. rewrite IH. reflexivity.
Qed.

Lemma lex_quoted_plain : forall (city acc rest : string) (toks : list token),
  plain city = true ->
  lex_from (Quoted squote acc, toks) (city ++ rest)%string =
  lex_from (Quoted squote (acc ++ city)%string, toks) rest.
Proof.
  induction city as [|c city IH]; intros acc rest toks Hp; simpl.
  - replace (acc ++ "")%string with acc; [reflexivity|].
    clear. induction acc as [|x acc IH]; simpl; [|rewrite <- IH]; reflexivity.
  - simpl in Hp. apply andb_prop in Hp. destruct Hp as [Hc Hp].
    apply andb_prop in Hc. destruct Hc as [Hq _]. apply negb_true_iff in Hq.
    rewrite Hq. rewrite (IH (snoc acc c) rest toks Hp). rewrite append_snoc. reflexivity.
Qed.

Lemma has_nul_append : forall a b : string,
  has_nul (a ++ b)%string = has_nul a || has_nul b.
Proof.
  induction a as [|x a IH]; intros b; simpl; [reflexivity|].
  rewrite IH. apply orb_assoc.
Qed.

Lemma has_nul_plain : forall city : string, plain city = true -> has_nul city = false.
Proof.
  induction city as [|c city IH]; intros Hp; simpl in *; [reflexivity|].
  apply andb_prop in Hp. destruct Hp as [Hc Hp].
  apply andb_prop in Hc. destruct Hc as [_ Hn]. apply negb_true_iff in Hn.
  rewrite Hn, (IH Hp). reflexivity.
Qed.

Lemma after_head_append : forall head rest : string,
  after_head head (head ++ rest)%string = Some rest.
Proof.
  induction head as [|a head IH]; intros rest; simpl.
  - destruct rest; reflexivity.
  - rewrite Ascii.eqb_refl. apply IH.
Qed.

(** Report 3 where it works: for a city that is not empty and holds no
    quote (and no NUL), the frame is the name, contact and address of
    exactly the providers whose City is that text, in the order of the
    table. *)
Theorem provider_contacts_plain_city : forall (s : store) (city : string),
  plain city = true -> city <> EmptyString ->
  provider_contacts s (Some city) =
  Some (Rows (map (fun p => (Providers.Name p, Providers.Contact p, Providers.Address p))
                  (filter (fun p => text_eqb (Providers.City p) city)
                          (rows (Providers_ s))))).
Proof.
  intros s city Hp Hne. unfold provider_contacts.
  destruct city as [|c city]; [contradiction|]. cbn [truthy].
  unfold select_contacts_where_city, provider_contacts_sql.
  rewrite has_nul_append, has_nul_append, has_nul_append, (has_nul_plain _ Hp).
  change (has_nul query_head) with false. cbn [has_nul orb Nat.eqb nat_of_ascii].
  replace (has_nul "'" || (false || has_nul "';")) with false by reflexivity.
  rewrite after_head_append.
  replace (tokens ("'" ++ String c city ++ "';")%string)
    with [TString (String c city); TSemi]; [reflexivity|].
  unfold tokens.
  change (lex_from (Code, []) ("'" ++ String c city ++ "';")%string)
    with (lex_from (Quoted squote EmptyString, []) (String c city ++ "';")%string).
  rewrite (lex_quoted_plain (String c city) EmptyString "';" [] Hp). reflexivity.
Qed.

Lemma provider_contacts_plain_city_witness :
  provider_contacts scenario (Some "Springfield"%string) =
  Some (Rows [(Some "Joe's Deli"%string, Some "555-0100"%string, Some "1 Main St"%string)]).
Proof.
  apply (provider_contacts_plain_city scenario "Springfield"%string);
    [reflexivity | discriminate].
Defined.

(** ** The theorems at work on the scenario *)

Lemma delete_provider_cascade_witness :
  let s' := db (snd (delete_provider 1 (get_db_connection scenario))) in
  ~ In Joes_Deli (rows (Providers_ s')) /\
  ~ In Sandwiches (rows (Food_Listings_ s')) /\
  ~ In Claim_1 (rows (Claims_ s')) /\
  Receivers_ s' = Receivers_ scenario.
Proof.
  assert (Hin : In Joes_Deli (rows (Providers_ scenario))) by (left; reflexivity).
  destruct (delete_provider_cascade scenario Joes_Deli Hin eq_refl)
    as (_ & HP & HF & HC & HR).
  cbv zeta. split; [|split; [|split]].
  - intros H. apply HP in H. destruct H as [_ H]. apply H. reflexivity.
  - intros H. apply HF in H. destruct H as [_ H]. apply H. reflexivity.
  - intros H. apply HC in H. destruct H as [_ H]. apply H.
    exists Sandwiches. repeat split. left. reflexivity.
  - exact HR.
Defined.


Lemma add_provider_inserts_witness :
  let r := add_provider (Some "Corner Shop"%string) (Some "Grocery Store"%string)
             (Some "2 High St"%string) (Some "Shelbyville"%string)
             (Some "555-0123"%string) (get_db_connection scenario) in
  fst r = Returned PyNone /\
  List.length (rows (Providers_ (db (snd r)))) = 2%nat.
Proof.
  assert (Hseq : seq (Providers_ (db (get_db_connection scenario))) < MAX_ROWID)
    by reflexivity.
  assert (Hrows : forall p, In p (rows (Providers_ (db (get_db_connection scenario)))) ->
                            Providers.Provider_ID p < MAX_ROWID).
  { intros p [<-|[]]. reflexivity. }
  destruct (add_provider_inserts (get_db_connection scenario) (Some "Corner Shop"%string)
              (Some "Grocery Store"%string) (Some "2 High St"%string)
              (Some "Shelbyville"%string) (Some "555-0123"%string) Hseq Hrows)
    as (Hret & k & Hperm & _).
  split; [exact Hret|].
  cbv zeta. rewrite (Permutation_length Hperm). reflexivity.
Defined.

Lemma form_keeps_quantities_positive_witness :
  Forall positive_quantity (rows (Food_Listings_ (run three_calls scenario))).
Proof.
  apply (form_keeps_quantities_positive scenario three_calls).
  - constructor; [|constructor]. exists 20. split; [reflexivity|]. reflexivity.
  - repeat constructor; simpl; discriminate.
Defined.

(** ** Report 4 where it works *)

Lemma total_nonneg : forall vs : list (option Z),
  (forall q, In (Some q) vs -> 0 <= q) -> 0 <= total vs.
Proof.
  induction vs as [|[x|] vs IH]; intros Hvs; simpl; [lia| |].
  - assert (0 <= x) by (apply Hvs; left; reflexivity).
    assert (0 <= total vs) by (apply IH; intros q Hq; apply Hvs; right; exact Hq). lia.
  - apply IH. intros q Hq. apply Hvs. right. exact Hq.
Qed.

Lemma sum_steps : forall (vs : list (option Z)) (p : sum_ctx),
  overflow p = false -> 0 <= iSum p ->
  (forall q, In (Some q) vs -> 0 <= q) ->
  iSum p + total vs <= MAX_ROWID ->
  overflow (fold_left sum_step vs p) = false /\
  iSum (fold_left sum_step vs p) = iSum p + total vs /\
  (cnt p <= cnt (fold_left sum_step vs p))%nat /\
  ((exists q, In (Some q) vs) -> cnt (fold_left sum_step vs p) <> O).
Proof.
  induction vs as [|[x|] vs IH]; intros p Hov Hp Hvs Hmax; cbn [fold_left total] in *.
  - split; [exact Hov|]. split; [lia|]. split; [lia|]. intros [q []].
  - assert (Hx : 0 <= x) by (apply Hvs; left; reflexivity).
    assert (Hrest : forall q, In (Some q) vs -> 0 <= q)
      by (intros q Hq; apply Hvs; right; exact Hq).
    pose proof (total_nonneg vs Hrest) as Ht.
    assert (Hin : in_int64 (iSum p + x) = true).
    { unfold in_int64, MIN_INT64. apply andb_true_intro. split; apply Z.leb_le; lia. }
    assert (Hstep : sum_step p (Some x) =
                    {| cnt := S (cnt p); iSum := iSum p + x; overflow := false |})
      by (unfold sum_step; rewrite Hov, Hin; reflexivity).
    rewrite Hstep.
    destruct (IH {| cnt := S (cnt p); iSum := iSum p + x; overflow := false |})
      as (H1 & H2 & H3 & _); simpl; try assumption; try lia.
    simpl in H2, H3.
    split; [exact H1|]. split; [rewrite H2; lia|]. split; [lia|]. intros _. lia.
  - assert (Hrest : forall q, In (Some q) vs -> 0 <= q)
      by (intros q Hq; apply Hvs; right; exact Hq).
    change (sum_step p None) with p.
    destruct (IH p Hov Hp Hrest Hmax) as (H1 & H2 & H3 & H4).
    split; [exact H1|]. split; [exact H2|]. split; [exact H3|].
    intros [q [Hq|Hq]]; [discriminate|]. apply H4. exists q. exact Hq.
Qed.

(** Report 4, when some listing has a quantity, no quantity is negative
    and their sum is a 64-bit integer, shows that sum. *)
Theorem total_quantity_available_sums : forall s : store,
  (forall q, In (Some q) (map Food_Listings.Quantity (rows (Food_Listings_ s))) -> 0 <= q) ->
  (exists q, In (Some q) (map Food_Listings.Quantity (rows (Food_Listings_ s)))) ->
  total (map Food_Listings.Quantity (rows (Food_Listings_ s))) <= MAX_ROWID ->
  total_quantity_available s =
  Returned (Some (total (map Food_Listings.Quantity (rows (Food_Listings_ s))))).
Proof.
  intros s Hpos Hsome Hmax. unfold total_quantity_available, sql_sum, sum_finalize.
  destruct (sum_steps (map Food_Listings.Quantity (rows (Food_Listings_ s)))
              {| cnt := 0; iSum := 0; overflow := false |})
    as (Hov & Hsum & _ & Hcnt); simpl; try assumption; try lia; try reflexivity.
  specialize (Hcnt Hsome). simpl in Hsum.
  destruct (cnt _); [contradiction|].
  rewrite Hov, Hsum. reflexivity.
Qed.

Lemma total_quantity_available_sums_witness :
  total_quantity_available scenario = Returned (Some 20).
Proof.
  apply (total_quantity_available_sums scenario).
  - intros q [Hq|[]]. injection Hq as <-. discriminate.
  - exists 20. left. reflexivity.
  - discriminate.
Defined.

(** ** The order of texts *)

Lemma ascii_compare_refl : forall a : ascii, Ascii.compare a a = Eq.
Proof. intros a. unfold Ascii.compare. apply N.compare_refl. Qed.

Lemma ascii_compare_lt_trans : forall a b c : ascii,
  Ascii.compare a b = Lt -> Ascii.compare b c = Lt -> Ascii.compare a c = Lt.
Proof.
  unfold Ascii.compare. intros a b c Hab Hbc.
  rewrite N.compare_lt_iff in *. lia.
Qed.

Lemma string_compare_refl : forall x : string, String.compare x x = Eq.
Proof.
  induction x as [|a x IH]; simpl; [reflexivity|].
  rewrite ascii_compare_refl. exact IH.
Qed.

Lemma string_compare_lt_trans : forall x y z : string,
  String.compare x y = Lt -> String.compare y z = Lt -> String.compare x z = Lt.
Proof.
  induction x as [|a x IH]; intros [|b y] [|c z] Hxy Hyz; simpl in *;
    try discriminate; try reflexivity.
  destruct (Ascii.compare a b) eqn:Eab; try discriminate;
    destruct (Ascii.compare b c) eqn:Ebc; try discriminate.
  - apply Ascii.compare_eq_iff in Eab, Ebc. subst. rewrite ascii_compare_refl.
    apply (IH y z Hxy Hyz).
  - apply Ascii.compare_eq_iff in Eab. subst. rewrite Ebc. reflexivity.
  - apply Ascii.compare_eq_iff in Ebc. subst. rewrite Eab. reflexivity.
  - rewrite (ascii_compare_lt_trans a b c Eab Ebc). reflexivity.
Qed.

Lemma text_compare_eq : forall a b : option string, text_compare a b = Eq <-> a = b.
Proof.
  intros [x|] [y|]; simpl; split; intros H; try discriminate; try reflexivity.
  - apply String.compare_eq_iff in H. subst. reflexivity.
  - injection H as <-. apply string_compare_refl.
Qed.

Lemma text_compare_lt_trans : forall a b c : option string,
  text_compare a b = Lt -> text_compare b c = Lt -> text_compare a c = Lt.
Proof.
  intros [x|] [y|] [z|]; simpl; intros H1 H2; try discriminate; try reflexivity.
  apply (string_compare_lt_trans x y z H1 H2).
Qed.

Lemma text_compare_lt_neq : forall a b : option string, text_compare a b = Lt -> a <> b.
Proof.
  intros a b H E. apply text_compare_eq in E. congruence.
Qed.

Lemma key_eqb_eq : forall a b : option string, key_eqb a b = true <-> a = b.
Proof.
  intros [x|] [y|]; simpl; split; intros H; try discriminate; try reflexivity.
  - apply String.eqb_eq in H. subst. reflexivity.
  - injection H as <-. apply String.eqb_refl.
Qed.

Lemma key_eqb_refl : forall a : option string, key_eqb a a = true.
Proof. intros a. apply key_eqb_eq. reflexivity. Qed.

Lemma key_eqb_neq : forall a b : option string, key_eqb a b = false <-> a <> b.
Proof.
  intros a b. split.
  - intros H E. apply key_eqb_eq in E. congruence.
  - intros H. destruct (key_eqb a b) eqn:E; [|reflexivity].
    apply key_eqb_eq in E. contradiction.
Qed.

(** ** GROUP BY *)

Section GroupBy.
Context {V : Type}.

(** The rows of the group of a key, none when the key has no group. *)
Fixpoint group_of (k : option string) (gs : list (option string * list V)) : list V :=
  match gs with
  | [] => []
  | (k', vs) :: gs' => if key_eqb k k' then vs else group_of k gs'
  end.

Definition keys_sorted (gs : list (option string * list V)) : Prop :=
  StronglySorted (fun a b => text_compare a b = Lt) (map fst gs).

Lemma group_of_below : forall (k : option string) (gs : list (option string * list V)),
  Forall (fun k' => text_compare k k' = Lt) (map fst gs) -> group_of k gs = [].
Proof.
  induction gs as [|[k' vs] gs IH]; intros H; simpl; [reflexivity|].
  inversion H as [|x l Hk Hl]; subst.
  replace (key_eqb k k') with false
    by (symmetry; apply key_eqb_neq; apply text_compare_lt_neq; exact Hk).
  apply IH. exact Hl.
Qed.

Lemma group_add_keys : forall (k : option string) (v : V) gs (k' : option string),
  In k' (map fst (group_add k v gs)) <-> k' = k \/ In k' (map fst gs).
Proof.
  induction gs as [|[k1 vs1] gs IH]; intros k'; simpl.
  - intuition congruence.
  - destruct (text_compare k k1) eqn:E; simpl.
    + apply text_compare_eq in E. subst. intuition congruence.
    + intuition congruence.
    + rewrite IH. intuition congruence.
Qed.

Lemma group_add_sorted : forall (k : option string) (v : V) gs,
  keys_sorted gs -> keys_sorted (group_add k v gs).
Proof.
  unfold keys_sorted. induction gs as [|[k1 vs1] gs IH]; intros Hs; simpl.
  - constructor; constructor.
  - inversion Hs as [|x l Hl Hhd]; subst.
    destruct (text_compare k k1) eqn:E; simpl.
    + constructor; assumption.
    + constructor; [exact Hs|]. constructor; [exact E|].
      eapply Forall_impl; [|exact Hhd]. intros k2 H2.
      apply (text_compare_lt_trans k k1 k2 E H2).
    + constructor; [apply IH; exact Hl|].
      apply Forall_forall. intros k2 H2. apply group_add_keys in H2.
      destruct H2 as [->|H2].
      * assert (Hop : text_compare k1 k = CompOpp (text_compare k k1)).
        { destruct k1 as [x|], k as [y|]; simpl; try reflexivity.
          apply String.compare_antisym. }
        rewrite Hop, E. reflexivity.
      * revert k2 H2. apply Forall_forall. exact Hhd.
Qed.

Lemma group_add_of : forall (k : option string) (v : V) gs (k' : option string),
  keys_sorted gs ->
  group_of k' (group_add k v gs) =
  if key_eqb k' k then group_of k' gs ++ [v] else group_of k' gs.
Proof.
  unfold keys_sorted. induction gs as [|[k1 vs1] gs IH]; intros k' Hs; simpl.
  - destruct (key_eqb k' k); reflexivity.
  - inversion Hs as [|x l Hl Hhd]; subst.
    destruct (text_compare k k1) eqn:E; simpl.
    + apply text_compare_eq in E. subst k1.
      destruct (key_eqb k' k); reflexivity.
    + destruct (key_eqb k' k) eqn:Ek; [|reflexivity].
      apply key_eqb_eq in Ek. subst k'.
      replace (key_eqb k k1) with false
        by (symmetry; apply key_eqb_neq; apply text_compare_lt_neq; exact E).
      rewrite group_of_below; [reflexivity|].
      eapply Forall_impl; [|exact Hhd]. intros k2 H2.
      apply (text_compare_lt_trans k k1 k2 E H2).
    + destruct (key_eqb k' k1) eqn:Ek1.
      * apply key_eqb_eq in Ek1. subst k'.
        replace (key_eqb k1 k) with false; [reflexivity|].
        symmetry. apply key_eqb_neq. intros ->.
        assert (Hrefl : text_compare k k = Eq) by (apply text_compare_eq; reflexivity).
        congruence.
      * apply IH. exact Hl.
Qed.

Lemma group_of_in : forall (k : option string) (vs : list V) gs,
  keys_sorted gs -> In (k, vs) gs -> group_of k gs = vs.
Proof.
  unfold keys_sorted. induction gs as [|[k1 vs1] gs IH]; intros Hs Hin; [contradiction|].
  simpl in *. inversion Hs as [|x l Hl Hhd]; subst.
  destruct Hin as [Heq|Hin].
  - injection Heq as -> ->. rewrite key_eqb_refl. reflexivity.
  - replace (key_eqb k k1) with false; [apply IH; assumption|].
    symmetry. apply key_eqb_neq. intros ->.
    assert (Hk : In k1 (map fst gs)) by (apply (in_map fst _ _ Hin)).
    rewrite Forall_forall in Hhd. specialize (Hhd k1 Hk).
    assert (Hrefl : text_compare k1 k1 = Eq) by (apply text_compare_eq; reflexivity).
    congruence.
Qed.
End GroupBy.

Section GroupByRows.
Context {A V : Type} (key : A -> option string) (val : A -> V).

Lemma group_by_fold : forall (l : list A) (gs : list (option string * list V)),
  keys_sorted gs ->
  let gs' := fold_left (fun gs a => group_add (key a) (val a) gs) l gs in
  keys_sorted gs' /\
  (forall k, group_of k gs' =
             group_of k gs ++ map val (filter (fun a => key_eqb (key a) k) l)) /\
  (forall k, In k (map fst gs') <-> In k (map fst gs) \/ In k (map key l)).
Proof.
  induction l as [|a l IH]; intros gs Hs; simpl.
  - split; [exact Hs|]. split; [intros k; rewrite app_nil_r; reflexivity | tauto].
  - destruct (IH (group_add (key a) (val a) gs) (group_add_sorted _ _ _ Hs))
      as (H1 & H2 & H3).
    split; [exact H1|]. split.
    + intros k. rewrite H2, group_add_of by exact Hs.
      replace (key_eqb k (key a)) with (key_eqb (key a) k).
      * destruct (key_eqb (key a) k); simpl; [rewrite <- app_assoc|]; reflexivity.
      * destruct (key_eqb (key a) k) eqn:E.
        -- apply key_eqb_eq in E. rewrite E. symmetry. apply key_eqb_refl.
        -- symmetry. apply key_eqb_neq. apply key_eqb_neq in E. congruence.
    + intros k. rewrite H3, group_add_keys. split; intros H; intuition.
Qed.

(** What GROUP BY makes of the rows: the keys in order, none twice; a group
    for every key of a row and for no other; in a group, the rows of its
    key, in the order of the scan. *)
Lemma group_by_spec : forall l : list A,
  keys_sorted (group_by key val l) /\
  (forall k vs, In (k, vs) (group_by key val l) ->
                vs = map val (filter (fun a => key_eqb (key a) k) l) /\ In k (map key l)) /\
  (forall k, In k (map key l) ->
             In (k, map val (filter (fun a => key_eqb (key a) k) l)) (group_by key val l)).
Proof.
  intros l. unfold group_by.
  assert (Hnil : @keys_sorted V []) by constructor.
  destruct (group_by_fold l [] Hnil) as (H1 & H2 & H3). cbv zeta in *.
  set (gs := fold_left (fun gs a => group_add (key a) (val a) gs) l []) in *.
  assert (H2' : forall k, group_of k gs = map val (filter (fun a => key_eqb (key a) k) l))
    by (intros k; rewrite H2; reflexivity).
  split; [exact H1|]. split.
  - intros k vs Hin. split.
    + rewrite <- (group_of_in k vs gs H1 Hin). apply H2'.
    + assert (Hk : In k (map fst gs)) by (apply (in_map fst _ _ Hin)).
      apply H3 in Hk. destruct Hk as [[]|Hk]. exact Hk.
  - intros k Hk. assert (Hin : In k (map fst gs)) by (apply H3; right; exact Hk).
    apply in_map_iff in Hin. destruct Hin as ([k' vs] & Hfst & Hin). simpl in Hfst. subst k'.
    rewrite <- (H2' k). rewrite (group_of_in k vs gs H1 Hin). exact Hin.
Qed.
End GroupByRows.

(** ** COUNT, ORDER BY ... DESC, LIMIT *)

Lemma sum_counts_perm : forall (K : Type) (a b : list (K * Z)),
  Permutation a b -> sum_counts a = sum_counts b.
Proof.
  intros K a b H. induction H; simpl; try lia.
Qed.

Lemma sum_counts_group_add : forall (V : Type) (k : option string) (v : V) gs,
  sum_counts (map count_star (group_add k v gs)) = sum_counts (map count_star gs) + 1.
Proof.
  induction gs as [|[k1 vs1] gs IH]; cbn [group_add]; [reflexivity|].
  destruct (text_compare k k1);
    cbn [map sum_counts fold_right count_star fst snd] in *.
  - rewrite length_app. cbn [List.length]. lia.
  - cbn [List.length]. lia.
  - unfold sum_counts in IH. rewrite IH. lia.
Qed.

Lemma sorted_keys_nodup : forall ks : list (option string),
  StronglySorted (fun a b => text_compare a b = Lt) ks -> NoDup ks.
Proof.
  induction ks as [|k ks IH]; intros Hs; [constructor|].
  inversion Hs as [|x l Hl Hhd]; subst. constructor; [|apply IH; exact Hl].
  intros Hin. rewrite Forall_forall in Hhd. specialize (Hhd k Hin).
  assert (text_compare k k = Eq) by (apply text_compare_eq; reflexivity). congruence.
Qed.

Lemma descending_sorted : forall (K : Type) (df : list (K * Z)),
  StronglySorted (fun a b => snd b <= snd a) (descending df).
Proof.
  intros K df. apply Sorted_StronglySorted.
  - intros a b c Hab Hbc. lia.
  - apply Sorted_on with (R := fun a b => (snd b <=? snd a) = true) (P := fun _ => True).
    + intros a b _ _ H. apply Z.leb_le. exact H.
    + apply Forall_forall. intros; exact I.
    + apply order_by_sorted. intros a b.
      destruct (Z.le_ge_cases (snd a) (snd b)) as [H|H];
        [right | left]; apply Z.leb_le; lia.
Qed.

Lemma descending_perm : forall (K : Type) (df : list (K * Z)),
  Permutation (descending df) df.
Proof. intros K df. apply order_by_perm. Qed.

Lemma strongly_sorted_app : forall (X : Type) (R : X -> X -> Prop) (l1 l2 : list X),
  StronglySorted R (l1 ++ l2) ->
  StronglySorted R l1 /\ forall x y, In x l1 -> In y l2 -> R x y.
Proof.
  induction l1 as [|a l1 IH]; intros l2 Hs; simpl in *.
  - split; [constructor | intros x y []].
  - inversion Hs as [|x l Hl Hhd]; subst. destruct (IH l2 Hl) as [H1 H2].
    rewrite Forall_forall in Hhd. split.
    + constructor; [exact H1|]. apply Forall_forall. intros x Hx.
      apply Hhd. apply in_or_app. left. exact Hx.
    + intros x y [<-|Hx] Hy; [apply Hhd; apply in_or_app; right; exact Hy|].
      apply H2; assumption.
Qed.

Section Ranking.
Context {A V : Type} (key : A -> option string) (val : A -> V).

Let counts (l : list A) : list (option string * Z) :=
  map count_star (group_by key val l).

(** The frame of a GROUP BY with a COUNT: a row for every key of a row of
    the source and for no other, no key twice, beside each key the number
    of source rows with that key; the counts add up to the number of source
    rows. *)
Lemma counts_spec : forall l : list A,
  (forall k n, In (k, n) (counts l) -> n = count_key key k l /\ 1 <= n /\ In k (map key l)) /\
  (forall k, In k (map key l) -> In (k, count_key key k l) (counts l)) /\
  NoDup (map fst (counts l)) /\
  sum_counts (counts l) = Z.of_nat (List.length l).
Proof.
  intros l. unfold counts. destruct (group_by_spec key val l) as (Hs & Hin & Hall).
  split; [|split; [|split]].
  - intros k n H. apply in_map_iff in H. destruct H as ([k' vs] & Heq & Hg).
    unfold count_star in Heq. simpl in Heq. injection Heq as -> <-.
    destruct (Hin k vs Hg) as [Hvs Hk]. subst vs. rewrite length_map.
    split; [reflexivity|]. split; [|exact Hk].
    apply in_map_iff in Hk. destruct Hk as (a & Ha & Hal).
    assert (Hf : In a (filter (fun a0 => key_eqb (key a0) k) l)).
    { apply filter_In. split; [exact Hal|]. apply key_eqb_eq. exact Ha. }
    destruct (filter (fun a0 => key_eqb (key a0) k) l); [contradiction | simpl; lia].
  - intros k Hk. specialize (Hall k Hk).
    apply (in_map count_star) in Hall. unfold count_star at 1 in Hall. simpl in Hall.
    rewrite length_map in Hall. exact Hall.
  - rewrite map_map. simpl. apply sorted_keys_nodup. exact Hs.
  - unfold group_by.
    assert (Hgen : forall (l0 : list A) gs,
               sum_counts (map count_star
                 (fold_left (fun gs a => group_add (key a) (val a) gs) l0 gs)) =
               sum_counts (map count_star gs) + Z.of_nat (List.length l0)).
    { induction l0 as [|a l0 IH]; intros gs; simpl fold_left.
      - simpl. lia.
      - rewrite IH, sum_counts_group_add. simpl List.length. lia. }
    rewrite Hgen. reflexivity.
Qed.

(** ORDER BY the count DESC, then LIMIT: at most [limit] rows, the larger
    count first, each count exact, no key twice, and no key left out has
    more rows than a key shown. *)
Lemma ranked_spec : forall (limit : nat) (l : list A),
  let df := firstn limit (descending (counts l)) in
  (List.length df <= limit)%nat /\
  StronglySorted (fun a b => snd b <= snd a) df /\
  (forall k n, In (k, n) df -> n = count_key key k l /\ 1 <= n) /\
  NoDup (map fst df) /\
  (forall k k' n', ~ In k (map fst df) -> In (k', n') df -> count_key key k l <= n').
Proof.
  intros limit l. cbv zeta.
  destruct (counts_spec l) as (Hexact & Hall & Hnd & _).
  pose proof (descending_sorted _ (counts l)) as Hs.
  pose proof (descending_perm _ (counts l)) as Hp.
  rewrite <- (firstn_skipn limit (descending (counts l))) in Hs, Hp.
  set (shown_rows := firstn limit (descending (counts l))) in *.
  set (hidden := skipn limit (descending (counts l))) in *.
  destruct (strongly_sorted_app _ _ _ _ Hs) as [Hs1 Hcross].
  split; [apply firstn_le_length|]. split; [exact Hs1|].
  split; [|split].
  - intros k n Hin.
    assert (Hc : In (k, n) (counts l))
      by (apply (Permutation_in _ Hp); apply in_or_app; left; exact Hin).
    destruct (Hexact k n Hc) as (H1 & H2 & _). split; assumption.
  - assert (Hnd' : NoDup (map fst (shown_rows ++ hidden))).
    { apply (Permutation_NoDup (l := map fst (counts l))); [|exact Hnd].
      apply Permutation_map. apply Permutation_sym. exact Hp. }
    rewrite map_app in Hnd'. apply NoDup_app_remove_r in Hnd'. exact Hnd'.
  - intros k k' n' Hk Hin.
    assert (Hn' : 1 <= n').
    { assert (Hc : In (k', n') (counts l))
        by (apply (Permutation_in _ Hp); apply in_or_app; left; exact Hin).
      destruct (Hexact k' n' Hc) as (_ & H2 & _). exact H2. }
    destruct (filter (fun a => key_eqb (key a) k) l) as [|a f] eqn:Ef.
    + unfold count_key. rewrite Ef. simpl. lia.
    + assert (Ha : In a (filter (fun a0 => key_eqb (key a0) k) l))
        by (rewrite Ef; left; reflexivity).
      apply filter_In in Ha. destruct Ha as [Ha Hka]. apply key_eqb_eq in Hka.
      assert (Hkl : In k (map key l)) by (rewrite <- Hka; apply in_map; exact Ha).
      specialize (Hall k Hkl).
      apply (Permutation_in _ (Permutation_sym Hp)) in Hall.
      apply in_app_or in Hall. destruct Hall as [Hsh|Hhid].
      * exfalso. apply Hk. apply (in_map fst _ _ Hsh).
      * apply (Hcross _ _ Hin Hhid).
Qed.
End Ranking.

Section TopRow.
Context {A V : Type} (key : A -> option string) (val : A -> V).

(** The first row of a frame ordered by count DESC: a key with the most
    rows; there is no first row only when the source has no row. *)
Lemma top_spec : forall l : list A,
  match descending (map count_star (group_by key val l)) with
  | [] => l = []
  | (k, n) :: _ =>
      n = count_key key k l /\ 1 <= n /\ forall k', count_key key k' l <= n
  end.
Proof.
  intros l. pose proof (ranked_spec key val 1 l) as H. cbv zeta in H.
  destruct H as (_ & _ & Hexact & _ & Hmax).
  destruct (counts_spec key val l) as (_ & Hall & _ & _).
  pose proof (descending_perm _ (map count_star (group_by key val l))) as Hp.
  destruct (descending (map count_star (group_by key val l))) as [|[k n] rest] eqn:Ed.
  - destruct l as [|a l]; [reflexivity|]. exfalso.
    assert (Hk : In (key a) (map key (a :: l))) by (left; reflexivity).
    specialize (Hall _ Hk). apply (Permutation_in _ (Permutation_sym Hp)) in Hall.
    contradiction.
  - simpl in Hexact, Hmax.
    destruct (Hexact k n (or_introl eq_refl)) as [Hn H1].
    split; [exact Hn|]. split; [exact H1|].
    intros k'. destruct (key_eqb k' k) eqn:Ek.
    + apply key_eqb_eq in Ek. subst k'. lia.
    + apply (Hmax k' k n); [|left; reflexivity].
      intros [Hk|[]]. apply key_eqb_neq in Ek. congruence.
Qed.
End TopRow.

(** ** The reports that count *)

(** Report 10. The status distribution has one row per status that occurs,
    beside it the number of claims with that status, and the counts add up
    to the number of rows of Claims. *)
Theorem claim_status_counts : forall s : store,
  sum_counts (claim_status s) = Z.of_nat (List.length (rows (Claims_ s))) /\
  NoDup (map fst (claim_status s)) /\
  (forall st n, In (st, n) (claim_status s) ->
                n = count_key Claims.Status st (rows (Claims_ s)) /\ 1 <= n) /\
  (forall c, In c (rows (Claims_ s)) -> In (Claims.Status c) (map fst (claim_status s))).
Proof.
  intros s. unfold claim_status.
  destruct (counts_spec Claims.Status Claims.Claim_ID (rows (Claims_ s)))
    as (Hexact & Hall & Hnd & Hsum).
  split; [exact Hsum|]. split; [exact Hnd|]. split.
  - intros st n H. destruct (Hexact st n H) as (H1 & H2 & _). split; assumption.
  - intros c Hc.
    assert (Hk : In (Claims.Status c) (map Claims.Status (rows (Claims_ s))))
      by (apply in_map; exact Hc).
    apply (in_map fst _ _ (Hall _ Hk)).
Qed.

(** Report 6. The food types come with the larger count first, every type
    of a listing once, beside it the number of listings of that type, and
    the counts add up to the number of listings. *)
Theorem common_food_types_counts : forall s : store,
  StronglySorted (fun a b => snd b <= snd a) (common_food_types s) /\
  sum_counts (common_food_types s) = Z.of_nat (List.length (rows (Food_Listings_ s))) /\
  NoDup (map fst (common_food_types s)) /\
  (forall t n, In (t, n) (common_food_types s) <->
               n = count_key Food_Listings.Food_Type t (rows (Food_Listings_ s)) /\ 1 <= n).
Proof.
  intros s. unfold common_food_types.
  destruct (counts_spec Food_Listings.Food_Type Food_Listings.Food_ID
              (rows (Food_Listings_ s))) as (Hexact & Hall & Hnd & Hsum).
  pose proof (descending_perm _ (map count_star
                (group_by Food_Listings.Food_Type Food_Listings.Food_ID
                          (rows (Food_Listings_ s))))) as Hp.
  split; [apply descending_sorted|]. split; [|split].
  - rewrite (sum_counts_perm _ _ _ Hp). exact Hsum.
  - apply (Permutation_NoDup (l := map fst (map count_star
             (group_by Food_Listings.Food_Type Food_Listings.Food_ID
                       (rows (Food_Listings_ s)))))); [|exact Hnd].
    apply Permutation_map. apply Permutation_sym. exact Hp.
  - intros t n. split.
    + intros H. apply (Permutation_in _ Hp) in H.
      destruct (Hexact t n H) as (H1 & H2 & _). split; assumption.
    + intros [Hn H1]. apply (Permutation_in _ (Permutation_sym Hp)). subst n.
      apply Hall. unfold count_key in H1.
      destruct (filter (fun a => key_eqb (Food_Listings.Food_Type a) t)
                       (rows (Food_Listings_ s))) as [|a f] eqn:Ef; [simpl in H1; lia|].
      assert (Ha : In a (filter (fun a0 => key_eqb (Food_Listings.Food_Type a0) t)
                                (rows (Food_Listings_ s))))
        by (rewrite Ef; left; reflexivity).
      apply filter_In in Ha. destruct Ha as [Ha Hka]. apply key_eqb_eq in Hka.
      rewrite <- Hka. apply in_map. exact Ha.
Qed.

(** Report 5. "Most Active City" is a location with the most listings, shown
    with the number of its listings; no metric is shown only when there is
    no listing; the report never raises. *)
Theorem city_listings_most_active : forall s : store,
  match city_listings s with
  | Returned (Some (loc, n)) =>
      n = count_key Food_Listings.Location loc (rows (Food_Listings_ s)) /\ 1 <= n /\
      forall loc', count_key Food_Listings.Location loc' (rows (Food_Listings_ s)) <= n
  | Returned None => rows (Food_Listings_ s) = []
  | Raised _ => False
  end.
Proof.
  intros s. unfold city_listings, read_sql_query.
  pose proof (top_spec Food_Listings.Location Food_Listings.Food_ID
                (rows (Food_Listings_ s))) as H.
  unfold descending, count_star in H.
  destruct (order_by _ _) as [|[loc n] rest]; simpl; exact H.
Qed.

(** Report 14. "Top Provider" is a provider type with the most listings,
    with the number of its listings; there is no metric only when there is
    no listing. *)
Theorem top_provider_most_listings : forall s : store,
  match top_provider s with
  | Some (t, n) =>
      n = count_key Food_Listings.Provider_Type t (rows (Food_Listings_ s)) /\ 1 <= n /\
      forall t', count_key Food_Listings.Provider_Type t' (rows (Food_Listings_ s)) <= n
  | None => rows (Food_Listings_ s) = []
  end.
Proof.
  intros s. unfold top_provider, provider_listings.
  pose proof (top_spec Food_Listings.Provider_Type Food_Listings.Food_ID
                (rows (Food_Listings_ s))) as H.
  destruct (descending _) as [|[t n] rest]; exact H.
Qed.

(** Report 15. "Top Meal" is a meal type with the most completed claims
    (claims joined to their listing), with their number; there is no metric
    only when no completed claim has a listing. *)
Theorem top_meal_most_completed : forall s : store,
  match top_meal s with
  | Some (m, n) =>
      n = count_key (fun cf => Food_Listings.Meal_Type (snd cf)) m
            (filter (fun cf => completed (fst cf)) (join_Claims_Food_Listings s)) /\
      1 <= n /\
      forall m', count_key (fun cf => Food_Listings.Meal_Type (snd cf)) m'
                   (filter (fun cf => completed (fst cf)) (join_Claims_Food_Listings s)) <= n
  | None => filter (fun cf => completed (fst cf)) (join_Claims_Food_Listings s) = []
  end.
Proof.
  intros s. unfold top_meal, most_claimed_meal.
  pose proof (top_spec (fun cf : Claims.row * Food_Listings.row =>
                          Food_Listings.Meal_Type (snd cf))
                (fun cf => Claims.Claim_ID (fst cf))
                (filter (fun cf => completed (fst cf)) (join_Claims_Food_Listings s))) as H.
  destruct (descending _) as [|[m n] rest]; exact H.
Qed.

(** Report 7. The frame has at most 10 rows, the most claimed name first,
    no name twice, beside each name the number of claims joined to a
    listing of that name, and no name left out has more claims than a name
    shown; it is empty when there is no claim. *)
Theorem claims_per_item_top_10 : forall s : store,
  (List.length (claims_per_item s) <= 10)%nat /\
  StronglySorted (fun a b => snd b <= snd a) (claims_per_item s) /\
  NoDup (map fst (claims_per_item s)) /\
  (forall name n, In (name, n) (claims_per_item s) ->
     n = count_key (fun cf => Food_Listings.Food_Name (snd cf)) name
           (join_Claims_Food_Listings s) /\ 1 <= n) /\
  (forall name name' n', ~ In name (map fst (claims_per_item s)) ->
     In (name', n') (claims_per_item s) ->
     count_key (fun cf => Food_Listings.Food_Name (snd cf)) name
       (join_Claims_Food_Listings s) <= n') /\
  (rows (Claims_ s) = [] -> claims_per_item s = []).
Proof.
  intros s. unfold claims_per_item.
  pose proof (ranked_spec (fun cf : Claims.row * Food_Listings.row =>
                             Food_Listings.Food_Name (snd cf))
                (fun cf => Claims.Claim_ID (fst cf)) 10 (join_Claims_Food_Listings s)) as H.
  cbv zeta in H. destruct H as (H1 & H2 & H3 & H4 & H5).
  repeat (split; [assumption|]).
  intros Hc. unfold join_Claims_Food_Listings. rewrite Hc. reflexivity.
Qed.

(** Report 9. The frame has at most 5 rows, the provider name with the most
    completed claims first, no name twice, each count exact, and no name
    left out has more completed claims than a name shown. *)
Theorem successful_claims_top_5 : forall s : store,
  let completed_claims :=
    flat_map (fun cf =>
                map (pair cf)
                    (filter (fun p => refers_to (Food_Listings.Provider_ID (snd cf))
                                                (Providers.Provider_ID p))
                            (rows (Providers_ s))))
             (filter (fun cf => completed (fst cf)) (join_Claims_Food_Listings s)) in
  (List.length (successful_claims s) <= 5)%nat /\
  StronglySorted (fun a b => snd b <= snd a) (successful_claims s) /\
  NoDup (map fst (successful_claims s)) /\
  (forall name n, In (name, n) (successful_claims s) ->
     n = count_key (fun cfp => Providers.Name (snd cfp)) name completed_claims /\ 1 <= n) /\
  (forall name name' n', ~ In name (map fst (successful_claims s)) ->
     In (name', n') (successful_claims s) ->
     count_key (fun cfp => Providers.Name (snd cfp)) name completed_claims <= n').
Proof.
  intros s. cbv zeta. unfold successful_claims.
  match goal with
  | |- context [group_by ?key ?val ?l] =>
      pose proof (ranked_spec key val 5 l) as H
  end.
  cbv zeta in H. destruct H as (H1 & H2 & H3 & H4 & H5).
  repeat (split; [assumption|]). exact H5.
Qed.

(** ** Deleting what is not there *)

Lemma filter_none : forall (X : Type) (p : X -> bool) (l : list X),
  (forall x, In x l -> p x = false) -> filter p l = [].
Proof.
  induction l as [|x l IH]; intros H; simpl; [reflexivity|].
  rewrite (H x (or_introl eq_refl)). apply IH. intros y Hy. apply H. right. exact Hy.
Qed.

Lemma filter_every : forall (X : Type) (p : X -> bool) (l : list X),
  (forall x, In x l -> p x = true) -> filter p l = l.
Proof.
  induction l as [|x l IH]; intros H; simpl; [reflexivity|].
  rewrite (H x (or_introl eq_refl)). f_equal. apply IH. intros y Hy. apply H. right. exact Hy.
Qed.

Lemma delete_from_Food_Listings_none : forall p fk s,
  (forall l, In l (rows (Food_Listings_ s)) -> p l = false) ->
  delete_from_Food_Listings p fk s = s.
Proof.
  intros p fk s H. unfold delete_from_Food_Listings, delete_where.
  rewrite (filter_none _ p _ H).
  rewrite (filter_every _ (fun r => negb (p r))).
  - destruct fk; destruct s as [P R [fr fs] C]; reflexivity.
  - intros l Hl. rewrite (H l Hl). reflexivity.
Qed.

(** [delete_listing] on an id that no listing has is not an error and
    changes nothing: the connection after the call is the connection before
    it, and the call returns when the id is a 64-bit integer. *)
Theorem delete_listing_missing : forall (c : connection store) (food_id : Z),
  (forall l, In l (rows (Food_Listings_ (db c))) -> Food_Listings.Food_ID l <> food_id) ->
  snd (delete_listing food_id c) = c /\
  (in_int64 food_id = true -> fst (delete_listing food_id c) = Returned PyNone).
Proof.
  intros c food_id H. rewrite delete_listing_run.
  destruct (in_int64 food_id); [|split; [reflexivity | discriminate]].
  split; [|reflexivity]. cbn [snd].
  rewrite delete_from_Food_Listings_none.
  - destruct c; reflexivity.
  - intros l Hl. apply Z.eqb_neq. apply H. exact Hl.
Qed.

Lemma delete_listing_missing_witness :
  snd (delete_listing 7 (get_db_connection scenario)) = get_db_connection scenario /\
  fst (delete_listing 7 (get_db_connection scenario)) = Returned PyNone.
Proof.
  assert (H : forall l, In l (rows (Food_Listings_ (db (get_db_connection scenario)))) ->
                        Food_Listings.Food_ID l <> 7).
  { intros l [<-|[]]. discriminate. }
  destruct (delete_listing_missing (get_db_connection scenario) 7 H) as [H1 H2].
  split; [exact H1 | apply H2; reflexivity].
Defined.

(** [delete_provider] on an id that no provider has is not an error and
    changes nothing either: no listing and no claim goes. *)
Theorem delete_provider_missing : forall (c : connection store) (provider_id : Z),
  (forall p, In p (rows (Providers_ (db c))) -> Providers.Provider_ID p <> provider_id) ->
  snd (delete_provider provider_id c) = c /\
  (in_int64 provider_id = true -> fst (delete_provider provider_id c) = Returned PyNone).
Proof.
  intros c provider_id H. rewrite delete_provider_run.
  destruct (in_int64 provider_id); [|split; [reflexivity | discriminate]].
  split; [|reflexivity]. cbn [snd].
  unfold delete_from_Providers, delete_where.
  rewrite (filter_none _ (fun p => Providers.Provider_ID p =? provider_id)).
  - rewrite (filter_every _ (fun r => negb (Providers.Provider_ID r =? provider_id))).
    + destruct c as [fk [[pr ps] R F C]]. destruct fk; reflexivity.
    + intros p Hp. apply negb_true_iff. apply Z.eqb_neq. apply H. exact Hp.
  - intros p Hp. apply Z.eqb_neq. apply H. exact Hp.
Qed.

Lemma delete_provider_missing_witness :
  snd (delete_provider 7 (get_db_connection scenario)) = get_db_connection scenario /\
  fst (delete_provider 7 (get_db_connection scenario)) = Returned PyNone.
Proof.
  assert (H : forall p, In p (rows (Providers_ (db (get_db_connection scenario)))) ->
                        Providers.Provider_ID p <> 7).
  { intros p [<-|[]]. discriminate. }
  destruct (delete_provider_missing (get_db_connection scenario) 7 H) as [H1 H2].
  split; [exact H1 | apply H2; reflexivity].
Defined.

(** ** Rowids stay in order *)

Section RowidFacts.
Context {R : Type} `{Keyed R}.
Hypothesis rowid_with_rowid : forall (i : Z) (r : R), rowid (with_rowid i r) = i.

Lemma has_rowid_true : forall (i : Z) (l : list R),
  has_rowid i l = true <-> exists r, In r l /\ rowid r = i.
Proof.
  intros i l. unfold has_rowid. rewrite existsb_exists. split.
  - intros (r & Hr & Hi). exists r. split; [exact Hr | apply Z.eqb_eq; exact Hi].
  - intros (r & Hr & Hi). exists r. split; [exact Hr | apply Z.eqb_eq; exact Hi].
Qed.

Lemma place_in : forall (x r : R) (l : list R), In x (place r l) <-> x = r \/ In x l.
Proof.
  intros x r l. split.
  - intros Hx. apply (Permutation_in _ (place_perm r l)) in Hx.
    destruct Hx as [<-|Hx]; [left; reflexivity | right; exact Hx].
  - intros Hx. apply (Permutation_in _ (Permutation_sym (place_perm r l))).
    destruct Hx as [->|Hx]; [left; reflexivity | right; exact Hx].
Qed.

Lemma place_sorted : forall (r : R) (l : list R),
  StronglySorted Z.lt (ids l) -> ~ In (rowid r) (ids l) ->
  StronglySorted Z.lt (ids (place r l)).
Proof.
  induction l as [|x l IH]; intros Hs Hnew; simpl.
  - constructor; constructor.
  - simpl in Hs. inversion Hs as [|y ys Hl Hhd]; subst.
    destruct (rowid r <? rowid x) eqn:E.
    + apply Z.ltb_lt in E. simpl. constructor; [exact Hs|].
      constructor; [exact E|]. eapply Forall_impl; [|exact Hhd]. intros; lia.
    + apply Z.ltb_ge in E. simpl. constructor.
      * apply IH; [exact Hl|]. intros Hin. apply Hnew. right. exact Hin.
      * apply Forall_forall. intros i Hi. unfold ids in Hi. apply in_map_iff in Hi.
        destruct Hi as (y & <- & Hy). apply place_in in Hy. destruct Hy as [->|Hy].
        -- assert (rowid r <> rowid x) by (intros Heq; apply Hnew; left; symmetry; exact Heq).
           lia.
        -- rewrite Forall_forall in Hhd. apply Hhd. unfold ids. apply in_map. exact Hy.
Qed.

Lemma ids_place_bound : forall (r : R) (l : list R) (b : Z),
  rowid r <= b -> Forall (fun i => i <= b) (ids l) ->
  Forall (fun i => i <= b) (ids (place r l)).
Proof.
  intros r l b Hr Hl. apply Forall_forall. intros i Hi. unfold ids in Hi.
  apply in_map_iff in Hi. destruct Hi as (y & <- & Hy). apply place_in in Hy.
  destruct Hy as [->|Hy]; [exact Hr|].
  rewrite Forall_forall in Hl. apply Hl. unfold ids. apply in_map. exact Hy.
Qed.

Lemma new_rowid_above : forall (t : table R) (k : Z),
  new_rowid t = Returned k -> seq t < k.
Proof.
  intros t k. unfold new_rowid. destruct (max_rowid (rows t)) as [m|].
  - destruct ((MAX_ROWID <=? m) || (seq t =? MAX_ROWID)); [discriminate|].
    intros E. injection E as <-. lia.
  - destruct (seq t =? MAX_ROWID); [discriminate|]. intros E. injection E as <-. lia.
Qed.

(** With the rowids in order, AUTOINCREMENT assigns the one after the
    largest remembered. *)
Lemma new_rowid_next : forall (t : table R),
  rowids_ok t -> seq t < MAX_ROWID -> new_rowid t = Returned (seq t + 1).
Proof.
  intros t (_ & Hb & H0) Hseq. unfold new_rowid.
  destruct (max_rowid (rows t)) as [m|] eqn:Hm.
  - destruct (max_rowid_in _ _ Hm) as (r & Hr & <-).
    assert (Hle : rowid r <= seq t).
    { rewrite Forall_forall in Hb. apply Hb. unfold ids. apply in_map. exact Hr. }
    replace (MAX_ROWID <=? rowid r) with false by (symmetry; apply Z.leb_gt; lia).
    replace (seq t =? MAX_ROWID) with false by (symmetry; apply Z.eqb_neq; lia).
    cbn [orb]. f_equal. lia.
  - replace (seq t =? MAX_ROWID) with false by (symmetry; apply Z.eqb_neq; lia).
    f_equal. lia.
Qed.

Lemma insert_row_ok : forall (e : option Z) (r : R) (t t' : table R),
  rowids_ok t -> insert_row e r t = Returned t' ->
  rowids_ok t' /\ seq t <= seq t' /\
  exists k, rows t' = place (with_rowid k r) (rows t) /\ k <= seq t' /\
            (e = None -> seq t < k) /\ ~ In k (ids (rows t)).
Proof.
  intros e r t t' (Hs & Hb & H0) E. unfold insert_row in E. destruct e as [i|].
  - destruct (has_rowid i (rows t)) eqn:Hi; [discriminate|]. injection E as <-.
    assert (Hnew : ~ In i (ids (rows t))).
    { intros Hin. unfold ids in Hin. apply in_map_iff in Hin.
      destruct Hin as (y & Hy & Hin).
      assert (has_rowid i (rows t) = true)
        by (apply has_rowid_true; exists y; split; assumption).
      congruence. }
    cbn [rows seq]. split; [split; [|split]|].
    + apply place_sorted; [exact Hs|]. rewrite rowid_with_rowid. exact Hnew.
    + apply (ids_place_bound _ _ (Z.max (seq t) i)); [rewrite rowid_with_rowid; lia|].
      revert Hb. apply Forall_impl. intros; lia.
    + cbn [seq]. lia.
    + split; [lia|]. exists i. split; [reflexivity|]. split; [lia|].
      split; [discriminate | exact Hnew].
  - destruct (new_rowid t) as [k|] eqn:Hk; [|discriminate]. injection E as <-.
    apply new_rowid_above in Hk.
    assert (Hnew : ~ In k (ids (rows t))).
    { intros Hin. rewrite Forall_forall in Hb. specialize (Hb k Hin). lia. }
    cbn [rows seq]. split; [split; [|split]|].
    + apply place_sorted; [exact Hs|]. rewrite rowid_with_rowid. exact Hnew.
    + apply (ids_place_bound _ _ k); [rewrite rowid_with_rowid; lia|].
      revert Hb. apply Forall_impl. intros; lia.
    + cbn [seq]. lia.
    + split; [lia|]. exists k. split; [reflexivity|]. split; [lia|].
      split; [intros _; exact Hk | exact Hnew].
Qed.

Lemma filter_rowids_ok : forall (q : R -> bool) (t : table R),
  rowids_ok t -> rowids_ok {| rows := filter q (rows t); seq := seq t |}.
Proof.
  intros q [l n] (Hs & Hb & H0). cbn [rows seq] in *. split; [|split; [|exact H0]].
  - clear Hb. induction l as [|x l IH]; simpl; [constructor|].
    simpl in Hs. inversion Hs as [|y ys Hl Hhd]; subst.
    destruct (q x); [|apply IH; exact Hl]. simpl. constructor; [apply IH; exact Hl|].
    apply Forall_forall. intros i Hi. unfold ids in Hi. apply in_map_iff in Hi.
    destruct Hi as (y & <- & Hy). apply filter_In in Hy. destruct Hy as [Hy _].
    rewrite Forall_forall in Hhd. apply Hhd. unfold ids. apply in_map. exact Hy.
  - apply Forall_forall. intros i Hi. unfold ids in Hi. apply in_map_iff in Hi.
    destruct Hi as (y & <- & Hy). apply filter_In in Hy. destruct Hy as [Hy _].
    rewrite Forall_forall in Hb. apply Hb. unfold ids. apply in_map. exact Hy.
Qed.

Lemma filtered_rowids_ok : forall (t t' : table R),
  rowids_ok t -> (exists q, rows t' = filter q (rows t)) -> seq t' = seq t ->
  rowids_ok t'.
Proof.
  intros t [l' n'] Hok [q Hq] Hseq. cbn [rows seq] in *. subst.
  apply (filter_rowids_ok q t Hok).
Qed.

(** In a table whose rowids are in order, a rowid names one row. *)
Lemma rowid_unique : forall (t : table R) (a b : R),
  rowids_ok t -> In a (rows t) -> In b (rows t) -> rowid a = rowid b -> a = b.
Proof.
  intros [l n] a b (Hs & _ & _). cbn [rows] in *. clear n.
  induction l as [|x l IH]; intros Ha Hb Heq; [contradiction|].
  simpl in Hs. inversion Hs as [|y ys Hl Hhd]; subst. rewrite Forall_forall in Hhd.
  destruct Ha as [->|Ha], Hb as [->|Hb].
  - reflexivity.
  - assert (rowid a < rowid b) by (apply Hhd; unfold ids; apply in_map; exact Hb). lia.
  - assert (rowid b < rowid a) by (apply Hhd; unfold ids; apply in_map; exact Ha). lia.
  - apply IH; assumption.
Qed.
End RowidFacts.

(** ** Well-formed stores stay well formed *)

Lemma rowid_law_provider : forall (i : Z) (r : Providers.row), rowid (with_rowid i r) = i.
Proof. reflexivity. Qed.

Lemma rowid_law_receiver : forall (i : Z) (r : Receivers.row), rowid (with_rowid i r) = i.
Proof. reflexivity. Qed.

Lemma rowid_law_listing : forall (i : Z) (r : Food_Listings.row), rowid (with_rowid i r) = i.
Proof. reflexivity. Qed.

Lemma rowid_law_claim : forall (i : Z) (r : Claims.row), rowid (with_rowid i r) = i.
Proof. reflexivity. Qed.

Lemma fk_ok_in : forall (R : Type) (K : Keyed R) (v : option Z) (t : table R),
  fk_ok v t = true <-> v = None \/ exists r, In r (rows t) /\ v = Some (rowid r).
Proof.
  intros R K [i|] t; simpl.
  - rewrite (has_rowid_true i (rows t)). split.
    + intros (r & Hr & Hi). right. exists r. split; [exact Hr | congruence].
    + intros [H|(r & Hr & Hi)]; [discriminate|]. exists r. split; [exact Hr | congruence].
  - split; [left; reflexivity | reflexivity].
Qed.

(** A foreign key that refers to a row still does when the parent table
    gains a row. *)
Lemma fk_ok_grows : forall (R : Type) (K : Keyed R) (v : option Z) (t t' : table R),
  (forall r, In r (rows t) -> In r (rows t')) -> fk_ok v t = true -> fk_ok v t' = true.
Proof.
  intros R K v t t' Hsub Hv. apply fk_ok_in. apply fk_ok_in in Hv.
  destruct Hv as [Hv|(r & Hr & Hv)]; [left; exact Hv|].
  right. exists r. split; [apply Hsub; exact Hr | exact Hv].
Qed.

Lemma insert_row_grows : forall (R : Type) (K : Keyed R) (e : option Z) (r : R)
    (t t' : table R),
  insert_row e r t = Returned t' -> forall x, In x (rows t) -> In x (rows t').
Proof.
  intros R K e r t t' E x Hx. unfold insert_row in E. destruct e as [i|].
  - destruct (has_rowid i (rows t)); [discriminate|]. injection E as <-.
    cbn [rows]. apply place_in. right. exact Hx.
  - destruct (new_rowid t); [|discriminate]. injection E as <-.
    cbn [rows]. apply place_in. right. exact Hx.
Qed.

Lemma insert_row_new : forall (R : Type) (K : Keyed R) (e : option Z) (r : R)
    (t t' : table R),
  insert_row e r t = Returned t' ->
  forall x, In x (rows t') -> In x (rows t) \/ exists k, x = with_rowid k r.
Proof.
  intros R K e r t t' E x Hx. unfold insert_row in E. destruct e as [i|].
  - destruct (has_rowid i (rows t)); [discriminate|]. injection E as <-.
    cbn [rows] in Hx. apply place_in in Hx.
    destruct Hx as [->|Hx]; [right; exists i; reflexivity | left; exact Hx].
  - destruct (new_rowid t) as [k|]; [|discriminate]. injection E as <-.
    cbn [rows] in Hx. apply place_in in Hx.
    destruct Hx as [->|Hx]; [right; exists k; reflexivity | left; exact Hx].
Qed.

Ltac store_fields :=
  unfold well_formed, references_ok, with_Providers, with_Receivers, with_Food_Listings,
    with_Claims;
  cbn [Providers_ Receivers_ Food_Listings_ Claims_].

Lemma insert_into_Providers_wf : forall e r fk s s',
  well_formed s -> insert_into_Providers e r fk s = Returned s' -> well_formed s'.
Proof.
  intros e r fk s s' (HP & HR & HF & HC & Hl & Hc) E. unfold insert_into_Providers in E.
  destruct (insert_row e r (Providers_ s)) as [t|] eqn:Et; [|discriminate].
  injection E as <-. store_fields.
  destruct (insert_row_ok rowid_law_provider e r _ _ HP Et) as (HP' & _).
  split; [exact HP'|]. split; [exact HR|]. split; [exact HF|]. split; [exact HC|]. split.
  - intros l Hl'. apply (fk_ok_grows _ _ _ (Providers_ s) t (insert_row_grows _ _ _ _ _ _ Et)).
    apply Hl. exact Hl'.
  - exact Hc.
Qed.

Lemma insert_into_Receivers_wf : forall e r fk s s',
  well_formed s -> insert_into_Receivers e r fk s = Returned s' -> well_formed s'.
Proof.
  intros e r fk s s' (HP & HR & HF & HC & Hl & Hc) E. unfold insert_into_Receivers in E.
  destruct (insert_row e r (Receivers_ s)) as [t|] eqn:Et; [|discriminate].
  injection E as <-. store_fields.
  destruct (insert_row_ok rowid_law_receiver e r _ _ HR Et) as (HR' & _).
  split; [exact HP|]. split; [exact HR'|]. split; [exact HF|]. split; [exact HC|]. split.
  - exact Hl.
  - intros c Hc'. destruct (Hc c Hc') as [H1 H2]. split; [exact H1|].
    apply (fk_ok_grows _ _ _ (Receivers_ s) t (insert_row_grows _ _ _ _ _ _ Et)). exact H2.
Qed.

Lemma insert_into_Food_Listings_wf : forall e r s s',
  well_formed s -> insert_into_Food_Listings e r true s = Returned s' -> well_formed s'.
Proof.
  intros e r s s' (HP & HR & HF & HC & Hl & Hc) E. unfold insert_into_Food_Listings in E.
  destruct (insert_row e r (Food_Listings_ s)) as [t|] eqn:Et; [|discriminate].
  destruct (fk_ok (Food_Listings.Provider_ID r) (Providers_ s)) eqn:Hfk;
    [|discriminate].
  cbn [andb negb] in E. injection E as <-. store_fields.
  destruct (insert_row_ok rowid_law_listing e r _ _ HF Et) as (HF' & _).
  split; [exact HP|]. split; [exact HR|]. split; [exact HF'|]. split; [exact HC|]. split.
  - intros l Hl'. destruct (insert_row_new _ _ _ _ _ _ Et l Hl') as [Hold|[k ->]].
    + apply Hl. exact Hold.
    + exact Hfk.
  - intros c Hc'. destruct (Hc c Hc') as [H1 H2]. split; [|exact H2].
    apply (fk_ok_grows _ _ _ (Food_Listings_ s) t (insert_row_grows _ _ _ _ _ _ Et)).
    exact H1.
Qed.

Lemma insert_into_Claims_wf : forall e r s s',
  well_formed s -> insert_into_Claims e r true s = Returned s' -> well_formed s'.
Proof.
  intros e r s s' (HP & HR & HF & HC & Hl & Hc) E. unfold insert_into_Claims in E.
  destruct (insert_row e r (Claims_ s)) as [t|] eqn:Et; [|discriminate].
  destruct (fk_ok (Claims.Food_ID r) (Food_Listings_ s)) eqn:Hfk1; [|discriminate].
  destruct (fk_ok (Claims.Receiver_ID r) (Receivers_ s)) eqn:Hfk2; [|discriminate].
  cbn [andb negb] in E. injection E as <-. store_fields.
  destruct (insert_row_ok rowid_law_claim e r _ _ HC Et) as (HC' & _).
  split; [exact HP|]. split; [exact HR|]. split; [exact HF|]. split; [exact HC'|]. split.
  - exact Hl.
  - intros c Hc'. destruct (insert_row_new _ _ _ _ _ _ Et c Hc') as [Hold|[k ->]].
    + apply (Hc c Hold).
    + split; [exact Hfk1 | exact Hfk2].
Qed.

Lemma delete_from_Food_Listings_wf : forall p s,
  well_formed s -> well_formed (delete_from_Food_Listings p true s).
Proof.
  intros p s (HP & HR & HF & HC & Hl & Hc).
  destruct (delete_from_Food_Listings_spec p true s) as (EP & ER & EF & EFs & EC & ECs).
  unfold well_formed, references_ok. rewrite EP, ER.
  split; [exact HP|]. split; [exact HR|]. split; [|split; [|split]].
  - apply (filtered_rowids_ok (Food_Listings_ s)); [exact HF | eexists; exact EF | exact EFs].
  - apply (filtered_rowids_ok (Claims_ s)); [exact HC | eexists; exact EC | exact ECs].
  - intros l Hl'. rewrite EF in Hl'. apply filter_In in Hl'. apply Hl. apply Hl'.
  - intros c Hc'. rewrite EC in Hc'. apply filter_In in Hc'. destruct Hc' as [Hin Hkeep].
    destruct (Hc c Hin) as [H1 H2]. split; [|exact H2].
    apply fk_ok_in. apply fk_ok_in in H1. destruct H1 as [H1|(l & Hl0 & H1)];
      [left; exact H1|].
    right. exists l. split; [|exact H1]. rewrite EF. apply filter_In. split; [exact Hl0|].
    destruct (p l) eqn:Epl; [|reflexivity]. exfalso.
    rewrite forallb_forall in Hkeep.
    assert (Hg : In l (filter p (rows (Food_Listings_ s))))
      by (apply filter_In; split; assumption).
    specialize (Hkeep l Hg). rewrite H1 in Hkeep. simpl in Hkeep.
    rewrite Z.eqb_refl in Hkeep. discriminate.
Qed.

Lemma cascade_to_Food_Listings_filters : forall (gone : list Providers.row) (s : store),
  let s' := fold_left (fun s1 g => cascade_to_Food_Listings g true s1) gone s in
  (exists q, rows (Food_Listings_ s') = filter q (rows (Food_Listings_ s))) /\
  seq (Food_Listings_ s') = seq (Food_Listings_ s) /\
  (exists q, rows (Claims_ s') = filter q (rows (Claims_ s))) /\
  seq (Claims_ s') = seq (Claims_ s).
Proof.
  induction gone as [|g gone IH]; intros s; simpl.
  - split; [exists (fun _ => true); symmetry; apply filter_all|].
    split; [reflexivity|].
    split; [exists (fun _ => true); symmetry; apply filter_all | reflexivity].
  - destruct (IH (cascade_to_Food_Listings g true s)) as ([qf Hf] & Hfs & [qc Hc] & Hcs).
    pose proof (delete_from_Food_Listings_spec
                  (fun l => refers_to (Food_Listings.Provider_ID l) (rowid g)) true s) as H1.
    cbv zeta in H1.
    change (delete_from_Food_Listings
              (fun l => refers_to (Food_Listings.Provider_ID l) (rowid g)) true s)
      with (cascade_to_Food_Listings g true s) in H1.
    destruct H1 as (_ & _ & EF & EFs & EC & ECs).
    split; [|split; [|split]].
    + eexists. rewrite Hf, EF, filter_twice. reflexivity.
    + rewrite Hfs. exact EFs.
    + eexists. rewrite Hc, EC, filter_twice. reflexivity.
    + rewrite Hcs. exact ECs.
Qed.

Lemma delete_from_Providers_wf : forall p s,
  well_formed s -> well_formed (delete_from_Providers p true s).
Proof.
  intros p s (HP & HR & HF & HC & Hl & Hc).
  unfold delete_from_Providers, delete_where.
  set (gone := filter p (rows (Providers_ s))).
  set (s0 := with_Providers _ s).
  destruct (cascade_to_Food_Listings_fold gone s0) as (EP & ER & EF & EC).
  destruct (cascade_to_Food_Listings_filters gone s0) as (FF & FFs & FC & FCs).
  cbv zeta in *.
  set (s' := fold_left (fun s1 g => cascade_to_Food_Listings g true s1) gone s0) in *.
  unfold well_formed, references_ok. rewrite EP, ER.
  unfold s0, with_Providers in *. cbn [Providers_ Receivers_ Food_Listings_ Claims_] in *.
  split; [apply filter_rowids_ok; exact HP|]. split; [exact HR|].
  split; [apply (filtered_rowids_ok (Food_Listings_ s)); assumption|].
  split; [apply (filtered_rowids_ok (Claims_ s)); assumption|]. split.
  - intros l Hl'. apply EF in Hl'. destruct Hl' as [Hin Hkeep].
    specialize (Hl l Hin). apply fk_ok_in. apply fk_ok_in in Hl.
    destruct Hl as [Hl|(q & Hq & Hl)]; [left; exact Hl|].
    right. exists q. split; [|exact Hl]. cbn [rows]. apply filter_In. split; [exact Hq|].
    destruct (p q) eqn:Epq; [|reflexivity]. exfalso.
    assert (Hg : In q gone) by (apply filter_In; split; assumption).
    specialize (Hkeep q Hg). rewrite Hl in Hkeep. simpl in Hkeep.
    rewrite Z.eqb_refl in Hkeep. discriminate.
  - intros c Hc'. apply EC in Hc'. destruct Hc' as [Hin Hkeep].
    destruct (Hc c Hin) as [H1 H2]. split; [|exact H2].
    apply fk_ok_in. apply fk_ok_in in H1. destruct H1 as [H1|(l & Hl0 & H1)];
      [left; exact H1|].
    right. exists l. split; [|exact H1]. apply EF. split; [exact Hl0|].
    intros g Hg. destruct (refers_to (Food_Listings.Provider_ID l) (rowid g)) eqn:Er;
      [|reflexivity].
    exfalso. specialize (Hkeep g l Hg Hl0 Er). rewrite H1 in Hkeep. simpl in Hkeep.
    rewrite Z.eqb_refl in Hkeep. discriminate.
Qed.

Lemma perform_wf : forall (k : call) (s : store),
  well_formed s -> well_formed (db (snd (perform k (get_db_connection s)))).
Proof.
  intros k s Hs. destruct k; cbn [perform].
  - rewrite add_provider_run.
    match goal with
    | |- context [insert_row None ?r (Providers_ ?d)] =>
        pose proof (insert_into_Providers_wf None r true s) as Hw;
        unfold insert_into_Providers in Hw;
        change (Providers_ d) with (Providers_ s);
        destruct (insert_row None r (Providers_ s))
    end; [|exact Hs].
    cbn [snd db]. apply (Hw _ Hs eq_refl).
  - rewrite add_food_listing_run. destruct (in_int64 quantity); [|exact Hs].
    destruct (bind_opt_int provider_id) as [p|]; [|exact Hs].
    cbn [get_db_connection pragma_foreign_keys sqlite3_connect foreign_keys db].
    match goal with
    | |- context [insert_into_Food_Listings None ?r true s] =>
        pose proof (insert_into_Food_Listings_wf None r s) as Hw;
        destruct (insert_into_Food_Listings None r true s)
    end; [|exact Hs].
    cbn [snd db]. apply (Hw _ Hs eq_refl).
  - rewrite delete_listing_run. destruct (in_int64 food_id); [|exact Hs].
    cbn [snd db get_db_connection pragma_foreign_keys sqlite3_connect foreign_keys].
    apply delete_from_Food_Listings_wf. exact Hs.
  - rewrite delete_provider_run. destruct (in_int64 provider_id); [|exact Hs].
    cbn [snd db get_db_connection pragma_foreign_keys sqlite3_connect foreign_keys].
    apply delete_from_Providers_wf. exact Hs.
Qed.

(** Whatever CRUD calls are made on a well-formed store, through the
    connection of [get_db_connection], the store stays well formed: in
    every table the rowids are distinct and in order, and every Provider_ID
    of a listing and every Food_ID and Receiver_ID of a claim is NULL or the
    key of an existing row (no dangling reference is ever left behind). *)
Theorem run_well_formed : forall (calls : list call) (s : store),
  well_formed s -> well_formed (run calls s).
Proof.
  induction calls as [|k calls IH]; intros s Hs; [exact Hs|].
  unfold run. simpl. apply IH. apply perform_wf. exact Hs.
Qed.

Lemma empty_store_well_formed : well_formed empty_store.
Proof.
  unfold well_formed, references_ok, rowids_ok. simpl.
  repeat split; try constructor; try lia; intros ? [].
Qed.

Lemma run_well_formed_witness : well_formed (run three_calls empty_store).
Proof. apply (run_well_formed three_calls empty_store). exact empty_store_well_formed. Defined.

(** ** The bulk load keeps the store well formed *)

Section LoadWellFormed.
Context {R : Type}.
Variables (table_name : string) (count : store -> nat) (csv : csv_file R)
          (insert : option Z -> R -> bool -> store -> outcome store).

Hypothesis insert_wf : forall e r s s',
  well_formed s -> insert e r true s = Returned s' -> well_formed s'.

Lemma executemany_wf : forall (ls : list (csv_line R)) (s s' : store),
  well_formed s -> executemany insert ls true s = Returned s' -> well_formed s'.
Proof.
  induction ls as [|l ls IH]; intros s s' Hs E; simpl in E.
  - injection E as <-. exact Hs.
  - destruct (insert (line_rowid l) (line_values l) true s) as [s1|] eqn:E1; [|discriminate].
    apply (IH s1 s' (insert_wf _ _ _ _ Hs E1) E).
Qed.

Lemma load_data_wf : forall st : connection store * list string,
  foreign_keys (fst st) = true -> well_formed (db (fst st)) ->
  well_formed (db (fst (load_data table_name count csv insert st))).
Proof.
  intros [c log] Hfk Hs. cbn [fst] in *. unfold load_data.
  destruct (Nat.eqb (count (db c)) 0); [|exact Hs].
  destruct csv as [| |ls]; try exact Hs.
  rewrite Hfk. destruct (executemany insert ls true (db c)) as [s'|] eqn:E; [|exact Hs].
  cbn [fst db]. apply (executemany_wf ls (db c) s' Hs E).
Qed.
End LoadWellFormed.

(** [setup_database], on the connection of [get_db_connection], leaves a
    well-formed store whenever the tables it finds are well formed (as they
    are in a new file): a data file whose lines repeat a key or refer to a
    row that does not exist is not loaded at all. *)
Theorem setup_database_well_formed : forall (data : data_dir) (f : db_file),
  well_formed (create_tables f) ->
  well_formed (db (fst (setup_database data (get_db_connection f)))).
Proof.
  intros data f Hf. unfold setup_database, commit. cbn [fst snd].
  unfold load_Claims, load_Food_Listings, load_Receivers, load_Providers.
  apply load_data_wf; [exact insert_into_Claims_wf | rewrite !load_foreign_keys; reflexivity|].
  apply load_data_wf;
    [exact insert_into_Food_Listings_wf | rewrite !load_foreign_keys; reflexivity|].
  apply load_data_wf;
    [intros e r s s'; apply insert_into_Receivers_wf
    | rewrite !load_foreign_keys; reflexivity|].
  apply load_data_wf; [intros e r s s'; apply insert_into_Providers_wf | reflexivity|].
  exact Hf.
Qed.

Lemma setup_database_well_formed_witness :
  db (fst (setup_database scenario_data (get_db_connection new_file))) = scenario /\
  well_formed scenario.
Proof.
  split; [reflexivity|].
  apply (setup_database_well_formed scenario_data new_file).
  exact empty_store_well_formed.
Defined.

(** ** Rowids are not assigned twice *)

Lemma insert_row_fresh : forall (R : Type) (K : Keyed R) (r : R) (t t' : table R),
  (forall i x, rowid (with_rowid i x) = i) ->
  rowids_ok t -> insert_row None r t = Returned t' ->
  seq t <= seq t' /\ forall x, In x (rows t') -> In x (rows t) \/ seq t < rowid x.
Proof.
  intros R K r t t' Hlaw Hok E.
  destruct (insert_row_ok Hlaw None r t t' Hok E) as (_ & Hseq & k & Hrows & _ & Hk & _).
  split; [exact Hseq|]. intros x Hx. rewrite Hrows in Hx. apply place_in in Hx.
  destruct Hx as [->|Hx]; [right | left; exact Hx].
  rewrite Hlaw. apply Hk. reflexivity.
Qed.

Lemma perform_fresh : forall (k : call) (s : store),
  well_formed s ->
  let s' := db (snd (perform k (get_db_connection s))) in
  seq (Providers_ s) <= seq (Providers_ s') /\
  (forall p, In p (rows (Providers_ s')) ->
             In p (rows (Providers_ s)) \/ seq (Providers_ s) < Providers.Provider_ID p) /\
  seq (Food_Listings_ s) <= seq (Food_Listings_ s') /\
  (forall l, In l (rows (Food_Listings_ s')) ->
             In l (rows (Food_Listings_ s)) \/
             seq (Food_Listings_ s) < Food_Listings.Food_ID l).
Proof.
  intros k s (HP & HR & HF & HC & Href). cbv zeta.
  assert (Hsame : seq (Providers_ s) <= seq (Providers_ s) /\
                  (forall p, In p (rows (Providers_ s)) ->
                             In p (rows (Providers_ s)) \/
                             seq (Providers_ s) < Providers.Provider_ID p) /\
                  seq (Food_Listings_ s) <= seq (Food_Listings_ s) /\
                  (forall l, In l (rows (Food_Listings_ s)) ->
                             In l (rows (Food_Listings_ s)) \/
                             seq (Food_Listings_ s) < Food_Listings.Food_ID l)).
  { split; [lia|]. split; [intros; left; assumption|]. split; [lia|].
    intros; left; assumption. }
  destruct k; cbn [perform].
  - rewrite add_provider_run.
    unfold get_db_connection, pragma_foreign_keys, sqlite3_connect. cbn [db foreign_keys].
    match goal with
    | |- context [insert_row None ?r (Providers_ s)] =>
        destruct (insert_row None r (Providers_ s)) as [t|] eqn:Et
    end; [|exact Hsame].
    unfold with_Providers. cbn [snd db Providers_ Food_Listings_].
    destruct (insert_row_fresh _ _ _ _ _ rowid_law_provider HP Et) as [H1 H2].
    split; [exact H1|]. split; [exact H2|]. split; [lia|]. intros; left; assumption.
  - rewrite add_food_listing_run. destruct (in_int64 quantity); [|exact Hsame].
    destruct (bind_opt_int provider_id) as [p|]; [|exact Hsame].
    unfold get_db_connection, pragma_foreign_keys, sqlite3_connect. cbn [db foreign_keys].
    unfold insert_into_Food_Listings.
    match goal with
    | |- context [insert_row None ?r (Food_Listings_ s)] =>
        destruct (insert_row None r (Food_Listings_ s)) as [t|] eqn:Et
    end; [|exact Hsame].
    match goal with |- context [if ?b then _ else _] => destruct b end; [exact Hsame|].
    unfold with_Food_Listings. cbn [snd db Providers_ Food_Listings_].
    destruct (insert_row_fresh _ _ _ _ _ rowid_law_listing HF Et) as [H1 H2].
    split; [lia|]. split; [intros; left; assumption|]. split; [exact H1 | exact H2].
  - rewrite delete_listing_run. destruct (in_int64 food_id); [|exact Hsame].
    unfold get_db_connection, pragma_foreign_keys, sqlite3_connect.
    cbn [snd db foreign_keys].
    destruct (delete_from_Food_Listings_spec
                (fun l => Food_Listings.Food_ID l =? food_id) true s)
      as (EP & _ & EF & EFs & _).
    rewrite EP, EF, EFs. split; [lia|]. split; [intros; left; assumption|].
    split; [lia|]. intros l Hl. left. apply filter_In in Hl. apply Hl.
  - rewrite delete_provider_run. destruct (in_int64 provider_id); [|exact Hsame].
    unfold get_db_connection, pragma_foreign_keys, sqlite3_connect.
    cbn [snd db foreign_keys].
    unfold delete_from_Providers, delete_where.
    match goal with
    | |- context [fold_left _ ?gone ?s0] =>
        destruct (cascade_to_Food_Listings_fold gone s0) as (EP & _ & EF & _);
        destruct (cascade_to_Food_Listings_filters gone s0) as (_ & EFs & _)
    end.
    cbv zeta in *. rewrite EP, EFs.
    unfold with_Providers. cbn [Providers_ Food_Listings_ rows seq].
    split; [lia|]. split.
    + intros p Hp. left. apply filter_In in Hp. apply Hp.
    + split; [lia|]. intros l Hl. left. apply EF in Hl. apply Hl.
Qed.

(** A rowid is not assigned twice, also after its row is deleted: after any
    CRUD calls on a well-formed store, every provider is a row that was
    there at the start or has an id above every id the Providers table had
    assigned by then, and so for the listings. *)
Theorem rowids_never_reused : forall (calls : list call) (s : store),
  well_formed s ->
  (forall p, In p (rows (Providers_ (run calls s))) ->
             In p (rows (Providers_ s)) \/ seq (Providers_ s) < Providers.Provider_ID p) /\
  (forall l, In l (rows (Food_Listings_ (run calls s))) ->
             In l (rows (Food_Listings_ s)) \/
             seq (Food_Listings_ s) < Food_Listings.Food_ID l).
Proof.
  induction calls as [|k calls IH]; intros s Hs.
  - split; intros; left; assumption.
  - unfold run. simpl.
    change (fold_left (fun s1 k0 => db (snd (perform k0 (get_db_connection s1)))) calls
              (db (snd (perform k (get_db_connection s)))))
      with (run calls (db (snd (perform k (get_db_connection s))))).
    destruct (perform_fresh k s Hs) as (HP1 & HP2 & HF1 & HF2).
    destruct (IH _ (perform_wf k s Hs)) as [IP IF]. split.
    + intros p Hp. destruct (IP p Hp) as [Hold|Hnew].
      * apply HP2. exact Hold.
      * right. lia.
    + intros l Hl. destruct (IF l Hl) as [Hold|Hnew].
      * apply HF2. exact Hold.
      * right. lia.
Qed.

Lemma scenario_well_formed : well_formed scenario.
Proof.
  unfold well_formed, references_ok, rowids_ok. simpl.
  split; [|split; [|split; [|split; [|split]]]];
    try (split; [repeat constructor | split; [repeat constructor; lia | lia]]).
  - intros l [<-|[]]. reflexivity.
  - intros c [<-|[]]. split; reflexivity.
Qed.

Lemma rowids_never_reused_witness :
  map Providers.Provider_ID
    (rows (Providers_ (run [Call_delete_provider 1;
                            Call_add_provider (Some "Corner Shop"%string) None None None None]
                           scenario))) = [2] /\
  forall p, In p (rows (Providers_ (run [Call_delete_provider 1;
                            Call_add_provider (Some "Corner Shop"%string) None None None None]
                           scenario))) ->
            In p (rows (Providers_ scenario)) \/
            seq (Providers_ scenario) < Providers.Provider_ID p.
Proof.
  split; [reflexivity|].
  apply (rowids_never_reused _ scenario scenario_well_formed).
Defined.

(** ** Round trips *)

Lemma select_contacts_plain : forall (s : store) (city : string),
  plain city = true ->
  select_contacts_where_city (provider_contacts_sql city) s =
  Rows (map (fun p => (Providers.Name p, Providers.Contact p, Providers.Address p))
            (filter (fun p => text_eqb (Providers.City p) city) (rows (Providers_ s)))).
Proof.
  intros s city Hp. unfold select_contacts_where_city, provider_contacts_sql.
  rewrite has_nul_append, has_nul_append, has_nul_append, (has_nul_plain _ Hp).
  change (has_nul query_head) with false.
  replace (has_nul "'" || (false || has_nul "';")) with false by reflexivity.
  cbn [orb]. rewrite after_head_append.
  replace (tokens ("'" ++ city ++ "';")%string) with [TString city; TSemi]; [reflexivity|].
  unfold tokens.
  change (lex_from (Code, []) ("'" ++ city ++ "';")%string)
    with (lex_from (Quoted squote EmptyString, []) (city ++ "';")%string).
  rewrite (lex_quoted_plain city EmptyString "';" [] Hp). reflexivity.
Qed.

(** A provider added with a city without quote is found by report 3 for
    that city, with the name, contact and address it was added with; the
    providers the report found before are still found. *)
Theorem added_provider_is_found :
  forall (c : connection store) name p_type address (city : string) contact,
  plain city = true -> city <> EmptyString ->
  seq (Providers_ (db c)) < MAX_ROWID ->
  (forall p, In p (rows (Providers_ (db c))) -> Providers.Provider_ID p < MAX_ROWID) ->
  let s' := db (snd (add_provider name p_type address (Some city) contact c)) in
  exists df,
    provider_contacts s' (Some city) = Some (Rows df) /\
    In (name, contact, address) df /\
    forall found, provider_contacts (db c) (Some city) = Some (Rows found) ->
                  forall x, In x found -> In x df.
Proof.
  intros c name p_type address city contact Hp Hne Hseq Hrows. cbv zeta.
  assert (Hrep : forall s, provider_contacts s (Some city) =
            Some (Rows (map (fun p => (Providers.Name p, Providers.Contact p,
                                       Providers.Address p))
                            (filter (fun p => text_eqb (Providers.City p) city)
                                    (rows (Providers_ s)))))).
  { intros s. unfold provider_contacts. destruct city as [|a city]; [contradiction|].
    cbn [truthy]. rewrite (select_contacts_plain s _ Hp). reflexivity. }
  rewrite add_provider_run. unfold insert_row.
  destruct (@new_rowid_fresh _ Keyed_provider (Providers_ (db c)) Hseq Hrows)
    as (k & Hk & _). rewrite Hk. cbn [snd db].
  eexists. split; [apply Hrep|]. unfold with_Providers. cbn [Providers_ rows]. split.
  - apply in_map_iff.
    exists {| Providers.Provider_ID := k; Providers.Name := name;
              Providers.Type_ := p_type; Providers.Address := address;
              Providers.City := Some city; Providers.Contact := contact |}.
    split; [reflexivity|]. apply filter_In. split.
    + apply place_in. left. reflexivity.
    + simpl. apply String.eqb_refl.
  - intros found Hfound x Hx. rewrite Hrep in Hfound. injection Hfound as <-.
    apply in_map_iff in Hx. destruct Hx as (p & <- & Hpin).
    apply (in_map (fun p0 => (Providers.Name p0, Providers.Contact p0,
                              Providers.Address p0))).
    apply filter_In in Hpin. destruct Hpin as [Hin Hcity].
    apply filter_In. split; [|exact Hcity]. apply place_in. right. exact Hin.
Qed.

Lemma added_provider_is_found_witness :
  exists df,
    provider_contacts
      (db (snd (add_provider (Some "Corner Shop"%string) (Some "Grocery Store"%string)
                  (Some "2 High St"%string) (Some "Springfield"%string)
                  (Some "555-0123"%string) (get_db_connection scenario))))
      (Some "Springfield"%string) = Some (Rows df) /\
    In (Some "Corner Shop"%string, Some "555-0123"%string, Some "2 High St"%string) df.
Proof.
  assert (Hrows : forall p, In p (rows (Providers_ (db (get_db_connection scenario)))) ->
                            Providers.Provider_ID p < MAX_ROWID).
  { intros p [<-|[]]. reflexivity. }
  destruct (added_provider_is_found (get_db_connection scenario)
              (Some "Corner Shop"%string) (Some "Grocery Store"%string)
              (Some "2 High St"%string) "Springfield"%string (Some "555-0123"%string)
              eq_refl ltac:(discriminate) eq_refl Hrows) as (df & H1 & H2 & _).
  exists df. split; assumption.
Defined.

Lemma place_last : forall (R : Type) (K : Keyed R) (r : R) (l : list R),
  (forall x, In x l -> rowid x < rowid r) -> place r l = l ++ [r].
Proof.
  intros R K r. induction l as [|x l IH]; intros H; simpl; [reflexivity|].
  replace (rowid r <? rowid x) with false.
  - rewrite IH; [reflexivity|]. intros y Hy. apply H. right. exact Hy.
  - symmetry. apply Z.ltb_ge. specialize (H x (or_introl eq_refl)). lia.
Qed.

(** On a well-formed store with a free rowid, a listing for an existing
    provider (or for none) is stored after all others under the id that
    follows the largest one assigned; deleting that id again gives back the
    rows of all four tables as they were (the id itself stays used). *)
Theorem add_then_delete_listing :
  forall (s : store) food_name quantity expiry_date provider_id provider_type location
         food_type meal_type,
  well_formed s ->
  seq (Food_Listings_ s) < MAX_ROWID ->
  in_int64 quantity = true ->
  bind_opt_int provider_id = Returned provider_id ->
  fk_ok provider_id (Providers_ s) = true ->
  let k := seq (Food_Listings_ s) + 1 in
  let c1 := snd (add_food_listing food_name quantity expiry_date provider_id provider_type
                   location food_type meal_type (get_db_connection s)) in
  let c2 := snd (delete_listing k c1) in
  rows (Food_Listings_ (db c1)) =
    rows (Food_Listings_ s) ++
    [ {| Food_Listings.Food_ID := k; Food_Listings.Food_Name := food_name;
         Food_Listings.Quantity := Some quantity;
         Food_Listings.Expiry_Date := Some (isoformat expiry_date);
         Food_Listings.Provider_ID := provider_id;
         Food_Listings.Provider_Type := provider_type;
         Food_Listings.Location := location;
         Food_Listings.Food_Type := food_type;
         Food_Listings.Meal_Type := meal_type |} ] /\
  Providers_ (db c2) = Providers_ s /\
  Receivers_ (db c2) = Receivers_ s /\
  rows (Food_Listings_ (db c2)) = rows (Food_Listings_ s) /\
  rows (Claims_ (db c2)) = rows (Claims_ s) /\
  seq (Food_Listings_ (db c2)) = k.
Proof.
  intros s food_name quantity expiry_date provider_id provider_type location food_type
         meal_type Hwf Hseq Hq Hbind Hfk.
  destruct Hwf as (HP & HR & HF & HC & Hl & Hc). cbv zeta.
  set (k := seq (Food_Listings_ s) + 1).
  rewrite add_food_listing_run, Hq, Hbind.
  unfold get_db_connection, pragma_foreign_keys, sqlite3_connect. cbn [db foreign_keys].
  unfold insert_into_Food_Listings, insert_row.
  rewrite (new_rowid_next _ HF Hseq). fold k.
  cbn [Food_Listings.Provider_ID]. rewrite Hfk. cbn [andb negb snd].
  assert (Hbelow : forall x, In x (rows (Food_Listings_ s)) -> Food_Listings.Food_ID x < k).
  { intros x Hx. destruct HF as (_ & Hb & _). rewrite Forall_forall in Hb.
    assert (Hle : rowid x <= seq (Food_Listings_ s))
      by (apply Hb; unfold ids; apply in_map; exact Hx).
    change (rowid x) with (Food_Listings.Food_ID x) in Hle. unfold k. lia. }
  match goal with
  | |- context [place ?r ?l] => rewrite (place_last _ Keyed_listing r l Hbelow)
  end.
  assert (Hk : in_int64 k = true).
  { destruct HF as (_ & _ & H0). unfold in_int64, MIN_INT64, k.
    apply andb_true_intro. split; apply Z.leb_le; unfold MAX_ROWID in *; lia. }
  rewrite delete_listing_run, Hk. cbn [snd db foreign_keys].
  match goal with
  | |- context [delete_from_Food_Listings ?p true ?s1] =>
      destruct (delete_from_Food_Listings_spec p true s1) as (EP & ER & EF & EFs & EC & _)
  end.
  rewrite EP, ER, EF, EFs, EC. unfold with_Food_Listings.
  cbn [db Providers_ Receivers_ Food_Listings_ Claims_ rows seq with_rowid Keyed_listing
       Food_Listings.Food_Name Food_Listings.Quantity Food_Listings.Expiry_Date
       Food_Listings.Provider_ID Food_Listings.Provider_Type Food_Listings.Location
       Food_Listings.Food_Type Food_Listings.Meal_Type].
  split; [reflexivity|]. split; [reflexivity|]. split; [reflexivity|].
  rewrite !filter_app. cbn [filter Food_Listings.Food_ID]. rewrite Z.eqb_refl. cbn [negb].
  rewrite (filter_every _ (fun l => negb (Food_Listings.Food_ID l =? k))).
  2: { intros x Hx. apply negb_true_iff. apply Z.eqb_neq. specialize (Hbelow x Hx). lia. }
  rewrite (filter_none _ (fun l => Food_Listings.Food_ID l =? k)).
  2: { intros x Hx. apply Z.eqb_neq. specialize (Hbelow x Hx). lia. }
  rewrite app_nil_r. split; [reflexivity|]. split; [|reflexivity].
  apply filter_every. intros c Hcin. cbn [app forallb rowid Keyed_listing
    Food_Listings.Food_ID]. rewrite andb_true_r. apply negb_true_iff.
  apply refers_to_false. intros Href. destruct (Hc c Hcin) as [H1 _].
  apply fk_ok_in in H1. destruct H1 as [H1|(l & Hlin & H1)]; [congruence|].
  rewrite Href in H1. injection H1 as H1. specialize (Hbelow l Hlin).
  change (rowid l) with (Food_Listings.Food_ID l) in H1. lia.
Qed.

Lemma add_then_delete_listing_witness :
  let c1 := snd (add_food_listing (Some "Soup"%string) 5
                   {| year := 2024; month := 2; day := 1 |} (Some 1)
                   (Some "Restaurant"%string) (Some "Springfield"%string)
                   (Some "Vegan"%string) (Some "Dinner"%string)
                   (get_db_connection scenario)) in
  map Food_Listings.Food_ID (rows (Food_Listings_ (db c1))) = [1; 2] /\
  rows (Food_Listings_ (db (snd (delete_listing 2 c1)))) = rows (Food_Listings_ scenario) /\
  rows (Claims_ (db (snd (delete_listing 2 c1)))) = rows (Claims_ scenario).
Proof.
  destruct (add_then_delete_listing scenario (Some "Soup"%string) 5
              {| year := 2024; month := 2; day := 1 |} (Some 1)
              (Some "Restaurant"%string) (Some "Springfield"%string)
              (Some "Vegan"%string) (Some "Dinner"%string)
              scenario_well_formed eq_refl eq_refl eq_refl eq_refl)
    as (_ & _ & _ & H1 & H2 & _).
  cbv zeta. split; [reflexivity|]. split; [exact H1 | exact H2].
Defined.

(** ** The select box of cities and report 3 *)

Lemma city_list_offers_every_city_aux : forall s : store,
  NoDup (city_list s) /\
  forall city, In city (city_list s) <->
               exists p, In p (rows (Providers_ s)) /\ Providers.City p = city.
Proof.
  intros s. unfold city_list.
  destruct (group_by_spec Providers.City Providers.Provider_ID (rows (Providers_ s)))
    as (Hs & Hin & Hall).
  split; [apply sorted_keys_nodup; exact Hs|].
  intros city. split.
  - intros H. apply in_map_iff in H. destruct H as ([k vs] & Hk & Hg). simpl in Hk. subst k.
    destruct (Hin city vs Hg) as [_ Hc]. apply in_map_iff in Hc.
    destruct Hc as (p & Hp & Hpin). exists p. split; assumption.
  - intros (p & Hp & <-).
    assert (Hk : In (Providers.City p) (map Providers.City (rows (Providers_ s))))
      by (apply in_map; exact Hp).
    apply (in_map fst _ _ (Hall _ Hk)).
Qed.

(** The select box of report 3 offers every city of a provider, each once,
    and nothing else. *)
Theorem city_list_offers_every_city : forall s : store,
  NoDup (city_list s) /\
  forall city, In city (city_list s) <->
               exists p, In p (rows (Providers_ s)) /\ Providers.City p = city.
Proof. exact city_list_offers_every_city_aux. Qed.

(** For a city picked in the select box, when it holds no quote, report 3
    shows at least one provider, and its rows are the name, contact and
    address of the providers of that city, of all of them and of no other. *)
Theorem offered_city_has_providers : forall (s : store) (choice : nat) (city : string),
  selected_city s choice = Some city ->
  plain city = true -> city <> EmptyString ->
  exists df,
    provider_contacts s (Some city) = Some (Rows df) /\ df <> [] /\
    forall row, In row df <->
                exists p, In p (rows (Providers_ s)) /\ Providers.City p = Some city /\
                          row = (Providers.Name p, Providers.Contact p, Providers.Address p).
Proof.
  intros s choice city Hsel Hp Hne.
  assert (Hoffered : In (Some city) (city_list s)).
  { unfold selected_city, selectbox in Hsel.
    destruct (nth_error (city_list s) choice) as [v|] eqn:En; [|discriminate].
    subst v. apply (nth_error_In _ _ En). }
  apply (proj2 (city_list_offers_every_city_aux s)) in Hoffered.
  destruct Hoffered as (p0 & Hp0 & Hc0).
  eexists. split.
  - unfold provider_contacts. destruct city as [|a city]; [contradiction|].
    cbn [truthy]. rewrite (select_contacts_plain s _ Hp). reflexivity.
  - assert (Hrow : forall row,
      In row (map (fun p => (Providers.Name p, Providers.Contact p, Providers.Address p))
                  (filter (fun p => text_eqb (Providers.City p) city) (rows (Providers_ s))))
      <-> exists p, In p (rows (Providers_ s)) /\ Providers.City p = Some city /\
                    row = (Providers.Name p, Providers.Contact p, Providers.Address p)).
    { intros row. rewrite in_map_iff. split.
      - intros (p & <- & Hpin). apply filter_In in Hpin. destruct Hpin as [Hpin Hc].
        exists p. split; [exact Hpin|]. split; [|reflexivity].
        unfold text_eqb in Hc. destruct (Providers.City p) as [y|]; [|discriminate].
        apply String.eqb_eq in Hc. subst. reflexivity.
      - intros (p & Hpin & Hc & ->). exists p. split; [reflexivity|].
        apply filter_In. split; [exact Hpin|]. rewrite Hc. simpl. apply String.eqb_refl. }
    split; [|exact Hrow].
    intros Hnil.
    assert (Hin : In (Providers.Name p0, Providers.Contact p0, Providers.Address p0)
                     (map (fun p => (Providers.Name p, Providers.Contact p,
                                     Providers.Address p))
                          (filter (fun p => text_eqb (Providers.City p) city)
                                  (rows (Providers_ s))))).
    { apply Hrow. exists p0. split; [exact Hp0|]. split; [exact Hc0 | reflexivity]. }
    rewrite Hnil in Hin. contradiction.
Qed.

Lemma offered_city_has_providers_witness :
  selected_city scenario 0 = Some "Springfield"%string /\
  exists df, provider_contacts scenario (Some "Springfield"%string) = Some (Rows df) /\
             df <> [].
Proof.
  split; [reflexivity|].
  destruct (offered_city_has_providers scenario 0 "Springfield"%string eq_refl eq_refl
              ltac:(discriminate)) as (df & H1 & H2 & _).
  exists df. split; assumption.
Defined.

(** ** The form of "Add a New Food Listing" *)

Lemma dict_get_found : forall (V : Type) (pairs : list (option string * V))
    (k : option string) (init : option V) (v : V),
  fold_left (fun found kv => if key_eqb (fst kv) k then Some (snd kv) else found)
            pairs init = Some v ->
  init = Some v \/ exists k', In (k', v) pairs /\ key_eqb k' k = true.
Proof.
  induction pairs as [|[k1 v1] pairs IH]; intros k init v H; simpl in H.
  - left. exact H.
  - apply IH in H. destruct H as [H|(k' & Hin & Hk)].
    + destruct (key_eqb k1 k) eqn:E.
      * injection H as <-. right. exists k1. split; [left; reflexivity | exact E].
      * left. exact H.
    + right. exists k'. split; [right; exact Hin | exact Hk].
Qed.

Lemma dict_get_last : forall (V : Type) (l1 l2 : list (option string * V))
    (kv : option string * V) (k : option string),
  key_eqb (fst kv) k = true ->
  (forall x, In x l2 -> key_eqb (fst x) k = false) ->
  dict_get (l1 ++ kv :: l2) k = Some (snd kv).
Proof.
  intros V l1 l2 kv k Hk Hl2. unfold dict_get. rewrite fold_left_app. simpl. rewrite Hk.
  generalize (Some (snd kv)) as acc. induction l2 as [|x l2 IH]; intros acc; simpl.
  - reflexivity.
  - rewrite (Hl2 x (or_introl eq_refl)). apply IH. intros y Hy. apply Hl2. right. exact Hy.
Qed.

Lemma new_rowid_raises : forall (R : Type) (K : Keyed R) (t : table R) (e : exn),
  new_rowid t = Raised e -> e = OperationalError.
Proof.
  intros R K t e. unfold new_rowid. destruct (max_rowid (rows t)) as [m|].
  - destruct ((MAX_ROWID <=? m) || (seq t =? MAX_ROWID)); [|discriminate]. congruence.
  - destruct (seq t =? MAX_ROWID); [|discriminate]. congruence.
Qed.

(** The form never runs into the foreign key: the Provider_ID it passes is
    the key of a row of Providers, or None when there is no provider to
    select, so whatever is selected and entered, the call does not raise
    [IntegrityError]; it returns whenever the quantity and the id are
    64-bit integers and Food_Listings has a free rowid. *)
Theorem form_never_violates_foreign_key :
  forall (c : connection store) choice food_name quantity expiry_date food_type meal_type,
  let r := submit_food_listing_form choice food_name quantity expiry_date food_type
             meal_type c in
  fst r <> Raised IntegrityError /\
  (in_int64 quantity = true ->
   (forall p, In p (rows (Providers_ (db c))) -> in_int64 (Providers.Provider_ID p) = true) ->
   (exists k, new_rowid (Food_Listings_ (db c)) = Returned k) ->
   fst r = Returned PyNone).
Proof.
  intros c choice food_name quantity expiry_date food_type meal_type. cbv zeta.
  unfold submit_food_listing_form.
  set (provider_list := map (fun p => (Providers.Name p, Providers.Provider_ID p))
                            (rows (Providers_ (db c)))).
  set (provider_id := dict_get provider_list (selectbox (map fst provider_list) choice)).
  assert (Hid : provider_id = None \/
                exists p, In p (rows (Providers_ (db c))) /\
                          provider_id = Some (Providers.Provider_ID p)).
  { destruct provider_id as [i|] eqn:E; [right | left; reflexivity].
    unfold provider_id, dict_get in E. apply dict_get_found in E.
    destruct E as [E|(k' & Hin & _)]; [discriminate|].
    unfold provider_list in Hin. apply in_map_iff in Hin.
    destruct Hin as (p & Hp & Hpin). injection Hp as _ <-. exists p. split; [exact Hpin|].
    reflexivity. }
  assert (Hfk : fk_ok provider_id (Providers_ (db c)) = true).
  { apply fk_ok_in. destruct Hid as [Hid|(p & Hp & Hid)]; [left; exact Hid|].
    right. exists p. split; [exact Hp | exact Hid]. }
  rewrite add_food_listing_run. split.
  - destruct (in_int64 quantity); [|discriminate].
    destruct (bind_opt_int provider_id) as [p|e] eqn:Eb.
    + apply bind_opt_int_returned in Eb. subst p.
      unfold insert_into_Food_Listings, insert_row.
      destruct (new_rowid (Food_Listings_ (db c))) as [k|e] eqn:Ek.
      * cbn [Food_Listings.Provider_ID]. rewrite Hfk, andb_false_r. discriminate.
      * apply new_rowid_raises in Ek. subst e. discriminate.
    + unfold bind_opt_int, bind_int in Eb. destruct provider_id as [i|]; [|discriminate].
      destruct (in_int64 i); [discriminate|]. injection Eb as <-. discriminate.
  - intros Hq Hrange [k Hk]. rewrite Hq.
    assert (Hb : bind_opt_int provider_id = Returned provider_id).
    { destruct Hid as [->|(p & Hp & ->)]; [reflexivity|].
      unfold bind_opt_int, bind_int. rewrite (Hrange p Hp). reflexivity. }
    rewrite Hb. unfold insert_into_Food_Listings, insert_row. rewrite Hk.
    cbn [Food_Listings.Provider_ID]. rewrite Hfk, andb_false_r. reflexivity.
Qed.

Lemma filter_rowid : forall (R : Type) (K : Keyed R) (t : table R) (p : R),
  rowids_ok t -> In p (rows t) -> filter (fun x => rowid x =? rowid p) (rows t) = [p].
Proof.
  intros R K [l n] p (Hs & _ & _). cbn [rows] in *. clear n.
  induction l as [|x l IH]; intros Hp; [contradiction|].
  simpl in Hs. inversion Hs as [|y ys Hl Hhd]; subst. rewrite Forall_forall in Hhd.
  simpl. destruct Hp as [->|Hp].
  - rewrite Z.eqb_refl. f_equal. apply filter_none. intros y Hy. apply Z.eqb_neq.
    assert (rowid p < rowid y) by (apply Hhd; unfold ids; apply in_map; exact Hy). lia.
  - replace (rowid x =? rowid p) with false; [apply IH; assumption|].
    symmetry. apply Z.eqb_neq.
    assert (rowid x < rowid p) by (apply Hhd; unfold ids; apply in_map; exact Hp). lia.
Qed.

(** The form finds the provider by name: when several providers have the
    name selected, the listing goes to the last of them in the table,
    whichever was pointed at, with that provider's Type and City copied into
    Provider_Type and Location. *)
Theorem form_uses_last_provider_of_name :
  forall (c : connection store) choice food_name quantity expiry_date food_type meal_type
         (pointed last : Providers.row) (before after : list Providers.row),
  rowids_ok (Providers_ (db c)) ->
  nth_error (rows (Providers_ (db c))) choice = Some pointed ->
  rows (Providers_ (db c)) = before ++ last :: after ->
  Providers.Name last = Providers.Name pointed ->
  (forall x, In x after -> Providers.Name x <> Providers.Name pointed) ->
  Providers.Provider_ID last <> 0 ->
  submit_food_listing_form choice food_name quantity expiry_date food_type meal_type c =
  add_food_listing (Some food_name) quantity expiry_date
    (Some (Providers.Provider_ID last)) (Providers.Type_ last) (Providers.City last)
    (Some food_type) (Some meal_type) c.
Proof.
  intros c choice food_name quantity expiry_date food_type meal_type pointed last before
         after Hok Hnth Hrows Hname Hafter Hnz.
  unfold submit_food_listing_form.
  assert (Hsel : selectbox (map fst (map (fun p => (Providers.Name p, Providers.Provider_ID p))
                                         (rows (Providers_ (db c))))) choice =
                 Providers.Name pointed).
  { unfold selectbox. rewrite map_map.
    erewrite map_nth_error; [|exact Hnth]. reflexivity. }
  rewrite Hsel.
  assert (Hget : dict_get (map (fun p => (Providers.Name p, Providers.Provider_ID p))
                               (rows (Providers_ (db c)))) (Providers.Name pointed) =
                 Some (Providers.Provider_ID last)).
  { rewrite Hrows, map_app. cbn [map].
    apply (dict_get_last _ _ _ (Providers.Name last, Providers.Provider_ID last)).
    - cbn [fst]. apply key_eqb_eq. exact Hname.
    - intros x Hx. apply in_map_iff in Hx. destruct Hx as (q & <- & Hq). cbn [fst].
      apply key_eqb_neq. apply Hafter. exact Hq. }
  rewrite Hget. unfold provider_details.
  replace (negb (Providers.Provider_ID last =? 0)) with true
    by (symmetry; apply negb_true_iff; apply Z.eqb_neq; exact Hnz).
  assert (Hin : In last (rows (Providers_ (db c))))
    by (rewrite Hrows; apply in_or_app; right; left; reflexivity).
  pose proof (filter_rowid _ Keyed_provider (Providers_ (db c)) last Hok Hin) as Hf.
  change (filter (fun p => Providers.Provider_ID p =? Providers.Provider_ID last)
                 (rows (Providers_ (db c))) = [last]) in Hf.
  rewrite Hf. reflexivity.
Qed.

Lemma form_uses_last_provider_of_name_witness :
  let r := submit_food_listing_form 0 "Soup" 5 {| year := 2024; month := 2; day := 1 |}
             "Vegan" "Dinner" (get_db_connection two_delis) in
  fst r = Returned PyNone /\
  map (fun l => (Food_Listings.Provider_ID l, Food_Listings.Provider_Type l,
                 Food_Listings.Location l))
      (rows (Food_Listings_ (db (snd r)))) =
  [(Some 1, Some "Restaurant"%string, Some "Springfield"%string);
   (Some 2, Some "Grocery Store"%string, Some "Shelbyville"%string)].
Proof.
  assert (Hok : rowids_ok (Providers_ (db (get_db_connection two_delis)))).
  { unfold rowids_ok. simpl. split; [|split; [|lia]].
    - repeat constructor.
    - repeat constructor; lia. }
  assert (Hafter : forall x : Providers.row, In x [] ->
                     Providers.Name x <> Providers.Name Joes_Deli) by (intros x []).
  cbv zeta.
  rewrite (form_uses_last_provider_of_name (get_db_connection two_delis) 0 "Soup" 5
             {| year := 2024; month := 2; day := 1 |} "Vegan" "Dinner"
             Joes_Deli Joes_Deli_2 [Joes_Deli] [] Hok eq_refl eq_refl eq_refl Hafter
             ltac:(discriminate)).
  split; reflexivity.
Defined.

(** ** The other frames that count *)

Section CountFrames.
Context {A V : Type} (key : A -> option string) (val : A -> V).

Lemma descending_counts_spec : forall l : list A,
  let df := descending (map count_star (group_by key val l)) in
  StronglySorted (fun a b => snd b <= snd a) df /\
  sum_counts df = Z.of_nat (List.length l) /\
  NoDup (map fst df) /\
  (forall k n, In (k, n) df -> n = count_key key k l /\ 1 <= n) /\
  (forall a, In a l -> In (key a, count_key key (key a) l) df).
Proof.
  intros l. cbv zeta.
  destruct (counts_spec key val l) as (Hexact & Hall & Hnd & Hsum).
  pose proof (descending_perm _ (map count_star (group_by key val l))) as Hp.
  split; [apply descending_sorted|]. split; [|split; [|split]].
  - rewrite (sum_counts_perm _ _ _ Hp). exact Hsum.
  - apply (Permutation_NoDup (l := map fst (map count_star (group_by key val l))));
      [|exact Hnd].
    apply Permutation_map. apply Permutation_sym. exact Hp.
  - intros k n H. apply (Permutation_in _ Hp) in H.
    destruct (Hexact k n H) as (H1 & H2 & _). split; assumption.
  - intros a Ha. apply (Permutation_in _ (Permutation_sym Hp)). apply Hall.
    apply in_map. exact Ha.
Qed.
End CountFrames.

(** Report 1. Each of the two frames that are merged has the larger count
    first, one row per city of the table (NULL counts as a city), beside
    it the number of rows of that city, and its counts add up to the number
    of providers, of receivers. *)
Theorem city_counts_frames : forall s : store,
  (StronglySorted (fun a b => snd b <= snd a) (providers_by_city s) /\
   sum_counts (providers_by_city s) = Z.of_nat (List.length (rows (Providers_ s))) /\
   NoDup (map fst (providers_by_city s)) /\
   (forall city n, In (city, n) (providers_by_city s) ->
      n = count_key Providers.City city (rows (Providers_ s)) /\ 1 <= n) /\
   (forall p, In p (rows (Providers_ s)) ->
      In (Providers.City p, count_key Providers.City (Providers.City p) (rows (Providers_ s)))
         (providers_by_city s))) /\
  (StronglySorted (fun a b => snd b <= snd a) (receivers_by_city s) /\
   sum_counts (receivers_by_city s) = Z.of_nat (List.length (rows (Receivers_ s))) /\
   NoDup (map fst (receivers_by_city s)) /\
   (forall city n, In (city, n) (receivers_by_city s) ->
      n = count_key Receivers.City city (rows (Receivers_ s)) /\ 1 <= n) /\
   (forall r, In r (rows (Receivers_ s)) ->
      In (Receivers.City r, count_key Receivers.City (Receivers.City r) (rows (Receivers_ s)))
         (receivers_by_city s))).
Proof.
  intros s. split.
  - apply (descending_counts_spec Providers.City Providers.Provider_ID).
  - apply (descending_counts_spec Receivers.City Receivers.Receiver_ID).
Qed.

(** Report 12. The meal types come with the most claimed first, each once,
    beside it the number of claims joined to a listing of that meal type;
    the counts add up to the number of claims that have a listing. *)
Theorem meal_type_claims_counts : forall s : store,
  StronglySorted (fun a b => snd b <= snd a) (meal_type_claims s) /\
  sum_counts (meal_type_claims s) = Z.of_nat (List.length (join_Claims_Food_Listings s)) /\
  NoDup (map fst (meal_type_claims s)) /\
  (forall meal n, In (meal, n) (meal_type_claims s) ->
     n = count_key (fun cf => Food_Listings.Meal_Type (snd cf)) meal
           (join_Claims_Food_Listings s) /\ 1 <= n).
Proof.
  intros s. unfold meal_type_claims.
  destruct (descending_counts_spec
              (fun cf : Claims.row * Food_Listings.row => Food_Listings.Meal_Type (snd cf))
              (fun cf => Claims.Claim_ID (fst cf)) (join_Claims_Food_Listings s))
    as (H1 & H2 & H3 & H4 & _).
  repeat split; try assumption; apply (H4 _ _ H).
Qed.

(** ** View All Food Listings *)

Lemma text_leb_trans : forall a b c : option string,
  text_leb a b = true -> text_leb b c = true -> text_leb a c = true.
Proof.
  intros a b c. unfold text_leb.
  destruct (text_compare a b) eqn:Eab; try discriminate;
    destruct (text_compare b c) eqn:Ebc; try discriminate; intros _ _.
  - apply text_compare_eq in Eab. subst b. rewrite Ebc. reflexivity.
  - apply text_compare_eq in Eab. subst b. rewrite Ebc. reflexivity.
  - apply text_compare_eq in Ebc. subst c. rewrite Eab. reflexivity.
  - rewrite (text_compare_lt_trans a b c Eab Ebc). reflexivity.
Qed.

Lemma strongly_sorted_impl : forall (X : Type) (R R' : X -> X -> Prop) (l : list X),
  (forall a b, R a b -> R' a b) -> StronglySorted R l -> StronglySorted R' l.
Proof.
  intros X R R' l Himp Hs. induction Hs as [|a l Hs IH Hall]; constructor.
  - exact IH.
  - revert Hall. apply Forall_impl. intros b. apply Himp.
Qed.

(** Rows in the order of their stored texts are in the order of the dates
    those texts are the ISO texts of. *)
Lemma text_order_is_date_order : forall a b : Food_Listings.row,
  text_leb (Food_Listings.Expiry_Date a) (Food_Listings.Expiry_Date b) = true ->
  expires_no_later a b.
Proof.
  intros a b Hab da db Hda Hdb Ea Eb.
  rewrite Ea, Eb in Hab. unfold text_leb, text_compare in Hab.
  rewrite (isoformat_compare da db Hda Hdb) in Hab.
  unfold date_le. intros Hgt. rewrite Hgt in Hab. discriminate.
Qed.

(** The set-up keeps the switch of the connection. *)
Lemma setup_database_foreign_keys : forall (data : data_dir) (c : connection db_file),
  foreign_keys (fst (setup_database data c)) = foreign_keys c.
Proof.
  intros data c. unfold setup_database, commit. cbn [fst snd].
  unfold load_Claims, load_Food_Listings, load_Receivers, load_Providers.
  rewrite !load_foreign_keys. reflexivity.
Qed.

(** An INSERT of a listing that holds a date keeps the listings dated. *)
Lemma insert_into_Food_Listings_dated : forall e r fk s s',
  insert_into_Food_Listings e r fk s = Returned s' ->
  holds_date r ->
  Forall holds_date (rows (Food_Listings_ s)) ->
  Forall holds_date (rows (Food_Listings_ s')).
Proof.
  intros e r fk s s' E (d & Hd & Er) Hs. unfold insert_into_Food_Listings in E.
  destruct (insert_row e r (Food_Listings_ s)) as [t|x] eqn:Et; [|discriminate].
  destruct (fk && negb (fk_ok (Food_Listings.Provider_ID r) (Providers_ s)));
    [discriminate|].
  injection E as <-. unfold with_Food_Listings. cbn [Food_Listings_].
  assert (Hplaced : forall i, Forall holds_date (place (with_rowid i r)
                                                       (rows (Food_Listings_ s)))).
  { intros i. apply (Permutation_Forall (Permutation_sym (place_perm _ _))).
    constructor; [|exact Hs]. exists d. split; [exact Hd | exact Er]. }
  unfold insert_row in Et. destruct e as [i|].
  - destruct (has_rowid i (rows (Food_Listings_ s))); [discriminate|].
    injection Et as <-. apply Hplaced.
  - destruct (new_rowid (Food_Listings_ s)) as [i|x]; [|discriminate].
    injection Et as <-. apply Hplaced.
Qed.

Lemma executemany_dated : forall (ls : list (csv_line Food_Listings.row)) fk s s',
  executemany insert_into_Food_Listings ls fk s = Returned s' ->
  Forall (fun l => holds_date (line_values l)) ls ->
  Forall holds_date (rows (Food_Listings_ s)) ->
  Forall holds_date (rows (Food_Listings_ s')).
Proof.
  induction ls as [|l ls IH]; intros fk s s' E Hls Hs; simpl in E.
  - injection E as <-. exact Hs.
  - inversion Hls as [|l' ls' Hl Hrest]; subst.
    destruct (insert_into_Food_Listings (line_rowid l) (line_values l) fk s)
      as [s1|x] eqn:E1; [|discriminate].
    apply (IH fk s1 s' E Hrest).
    apply (insert_into_Food_Listings_dated _ _ _ _ _ E1 Hl Hs).
Qed.

(** The set-up keeps the listings dated when the data file is. *)
Lemma setup_database_dated : forall (data : data_dir) (c : connection db_file),
  csv_holds_dates data ->
  Forall holds_date (rows (Food_Listings_ (create_tables (db c)))) ->
  Forall holds_date (rows (Food_Listings_ (db (fst (setup_database data c))))).
Proof.
  intros data c Hdata Hs. unfold setup_database, commit. cbn [fst snd].
  set (c0 := {| foreign_keys := foreign_keys c; db := create_tables (db c) |}).
  unfold load_Claims.
  rewrite (load_frame "Claims" (fun s => count_rows (Claims_ s)) (claims_data_csv data)
             insert_into_Claims _ Food_Listings_)
    by (intros e r fk s s' E; apply (insert_into_Claims_frame _ _ _ _ _ E)).
  set (st2 := load_Receivers data (load_Providers data (c0, []))).
  assert (H2 : Forall holds_date (rows (Food_Listings_ (db (fst st2))))).
  { unfold st2, load_Receivers, load_Providers.
    rewrite (load_frame "Receivers" (fun s => count_rows (Receivers_ s))
               (receivers_data_csv data) insert_into_Receivers _ Food_Listings_)
      by (intros e r fk s s' E; apply (insert_into_Receivers_frame _ _ _ _ _ E)).
    rewrite (load_frame "Providers" (fun s => count_rows (Providers_ s))
               (providers_data_csv data) insert_into_Providers _ Food_Listings_)
      by (intros e r fk s s' E; apply (insert_into_Providers_frame _ _ _ _ _ E)).
    exact Hs. }
  destruct st2 as [c2 log2]. cbn [fst] in H2.
  unfold load_Food_Listings, load_data.
  destruct (Nat.eqb (count_rows (Food_Listings_ (db c2))) 0); [|exact H2].
  unfold csv_holds_dates in Hdata.
  destruct (food_listings_data_csv data) as [| |ls]; try exact H2.
  destruct (executemany insert_into_Food_Listings ls (foreign_keys c2) (db c2))
    as [s'|x] eqn:E; [|exact H2].
  cbn [fst db]. apply (executemany_dated ls _ _ _ E Hdata H2).
Qed.

Lemma script_run_dated : forall (data : data_dir) (k : option call) (s : store),
  csv_holds_dates data -> dated_run k ->
  Forall holds_date (rows (Food_Listings_ s)) ->
  Forall holds_date (rows (Food_Listings_ (script_run data k s))).
Proof.
  intros data k s Hdata Hk Hs. unfold script_run.
  set (c := fst (setup_database data (get_db_connection (file_of s)))).
  assert (Hc : Forall holds_date (rows (Food_Listings_ (db c)))).
  { apply setup_database_dated; [exact Hdata|].
    unfold get_db_connection, pragma_foreign_keys, sqlite3_connect. cbn [db].
    rewrite create_tables_file_of. exact Hs. }
  destruct k as [k|]; [|exact Hc].
  assert (Efk : c = get_db_connection (db c)).
  { pose proof (setup_database_foreign_keys data (get_db_connection (file_of s))) as Hfk.
    fold c in Hfk. destruct c as [fk sc]. cbn [foreign_keys db] in *. subst fk.
    reflexivity. }
  rewrite Efk. apply perform_keeps; [|exact Hc].
  destruct k; simpl; try exact I.
  intros i. exists expiry_date. split; [exact Hk | reflexivity].
Qed.

Lemma script_runs_dated : forall (data : data_dir) (ks : list (option call)) (s : store),
  csv_holds_dates data -> Forall dated_run ks ->
  Forall holds_date (rows (Food_Listings_ s)) ->
  Forall holds_date (rows (Food_Listings_ (script_runs data ks s))).
Proof.
  intros data ks. induction ks as [|k ks IH]; intros s Hdata Hks Hs; [exact Hs|].
  inversion Hks as [|k' ks' Hk Hrest]; subst.
  apply (IH (script_run data k s) Hdata Hrest).
  apply script_run_dated; assumption.
Qed.



